(** * AkiDB embedding core: a shallow embedding of the Python sources

    The development follows the layout of
    [crates/akidb-embedding/python]:

    - [Py]               exceptions, results, the state-and-error monad
                         and the string methods the other modules share;
    - [Json]             the documents [json.loads] and [yaml.safe_load]
                         return;
    - [ModelLoader]      [akidb_mlx/model_loader.py] (registry, cache
                         directory, [is_model_cached], [download_model],
                         [list_cached_models], [clear_cache]);
    - [MlxInference]     [akidb_mlx/mlx_inference.py] (tokenize, forward,
                         pooling, normalisation, [embed]);
    - [Config]           [akidb_mlx/config.py] ([from_yaml]);
    - [EmbeddingService] [akidb_mlx/embedding_service.py] ([__init__]);
    - [OnnxServer]       [onnx_server.py] ([load_model], [embed_batch],
                         [process_request], [run], [main]).

    Tensor arithmetic is carried out on the real numbers: [R] stands for
    the float arrays of MLX and NumPy, so every statement about pooling and
    normalisation is about the arithmetic the code writes down, not about
    rounding.  A [str] is the string of its UTF-8 bytes.  Libraries the
    code only calls (the Hugging Face hub, the tokenizers, the MLX and
    ONNX runtimes, [json]) are Section variables. *)

From Stdlib Require Import Reals Lra Lia ZArith List String Ascii.
From stdpp Require Import gmap strings list pretty.

(* ===================================================================== *)
(** * Python values shared by the modules *)
(* ===================================================================== *)

Module Py.

(** The exception classes the sources raise or catch.  All of them derive
    from [Exception]; [OtherError] stands for any further subclass a called
    library may raise. *)
Inductive exn_class :=
| ValueError
| TypeError
| IndexError
| AttributeError
| KeyError
| FileNotFoundError
| JSONDecodeError
| UnicodeDecodeError
| OtherError (name : string).

Record exn := Exn { cls : exn_class; msg : string }.

(** The outcome of a call: a value or a raised exception. *)
Inductive result (A : Type) :=
| Ok (a : A)
| Raise (e : exn).
Arguments Ok {A} a.
Arguments Raise {A} e.

Definition is_ok {A} (r : result A) : bool :=
  match r with Ok _ => true | Raise _ => false end.

(** Sequencing of calls that may raise, without state. *)
Definition and_then {A B} (r : result A) (k : A -> result B) : result B :=
  match r with
  | Ok a => k a
  | Raise e => Raise e
  end.

(** A comprehension [[f(x) for x in l]] whose body may raise: the first
    exception ends it. *)
Fixpoint map_result {A B} (f : A -> result B) (l : list A) : result (list B) :=
  match l with
  | [] => Ok []
  | x :: l' =>
      and_then (f x) (fun y => and_then (map_result f l') (fun ys => Ok (y :: ys)))
  end.

(** Computations over a state [S] that may raise; the state reached when
    the exception is raised is kept, as in Python. *)
Definition M (S A : Type) : Type := S -> S * result A.

Definition ret {S A} (a : A) : M S A := fun s => (s, Ok a).
Definition raise {S A} (e : exn) : M S A := fun s => (s, Raise e).
Definition bind {S A B} (c : M S A) (k : A -> M S B) : M S B :=
  fun s => match c s with
           | (s', Ok a) => k a s'
           | (s', Raise e) => (s', Raise e)
           end.
(** [try: c  except Exception as e: h e] *)
Definition try_except {S A} (c : M S A) (h : exn -> M S A) : M S A :=
  fun s => match c s with
           | (s', Ok a) => (s', Ok a)
           | (s', Raise e) => h e s'
           end.
(** A call that raises or returns without touching the state. *)
Definition lift {S A} (r : result A) : M S A := fun s => (s, r).
Definition get {S} : M S S := fun s => (s, Ok s).
Definition modify {S} (f : S -> S) : M S unit := fun s => (f s, Ok tt).

(** [bool(s)] of a [str]: the empty string is falsy. *)
Definition truthy (s : string) : bool := negb (String.eqb s "").

(** [s.endswith(suffix)] *)
Definition endswith (s suffix : string) : bool :=
  let n := String.length s in
  let m := String.length suffix in
  (m <=? n)%nat && String.eqb (substring (n - m) m s) suffix.

(** [s.replace(old, new)] for one-character [old] and [new]. *)
Fixpoint replace_char (old new : ascii) (s : string) : string :=
  match s with
  | EmptyString => EmptyString
  | String c s' =>
      String (if Ascii.eqb c old then new else c) (replace_char old new s')
  end.

(** A [str] is kept as the string of its UTF-8 bytes.

    [c.isspace()] for one character [c], given by its bytes: the
    characters that [str.strip] removes.  These are the tab to the
    carriage return, the separators U+001C to U+001F and the space; then
    U+0085 and U+00A0; U+1680; U+2000 to U+200A, U+2028, U+2029 and
    U+202F; U+205F; and U+3000. *)
Definition isspace (c : string) : bool :=
  match List.map N_of_ascii (list_ascii_of_string c) with
  | [n] => ((9 <=? n) && (n <=? 13) || (28 <=? n) && (n <=? 32))%N
  | [194; n] => ((n =? 133) || (n =? 160))%N
  | [225; 154; 128] => true
  | [226; 128; n] =>
      ((128 <=? n) && (n <=? 138) || (n =? 168) || (n =? 169) || (n =? 175))%N
  | [226; 129; 159] => true
  | [227; 128; 128] => true
  | _ => false
  end%N.

(** The string without its leading whitespace.  No encoding of a
    character begins that of another, so the bytes at the head of the
    string are tried as a character of one, two and three bytes. *)
Fixpoint lstrip (s : string) : string :=
  match s with
  | EmptyString => EmptyString
  | String c1 s1 =>
      if isspace (String c1 EmptyString) then lstrip s1
      else
        match s1 with
        | EmptyString => s
        | String c2 s2 =>
            if isspace (String c1 (String c2 EmptyString)) then lstrip s2
            else
              match s2 with
              | EmptyString => s
              | String c3 s3 =>
                  if isspace (String c1 (String c2 (String c3 EmptyString)))
                  then lstrip s3
                  else s
              end
        end
  end.

(** The string without its trailing whitespace: what is left of the
    tail, with the byte in front of it, is dropped when the two make one
    whitespace character. *)
Fixpoint rstrip (s : string) : string :=
  match s with
  | EmptyString => EmptyString
  | String c s' =>
      let kept := String c (rstrip s') in
      if isspace kept then EmptyString else kept
  end.

(** [s.strip()] *)
Definition strip (s : string) : string := rstrip (lstrip s).

(** [s.startswith(prefix)] *)
Definition startswith (s prefix : string) : bool := String.prefix prefix s.

End Py.

Declare Scope py_scope.
Delimit Scope py_scope with py.
Notation "x <- c ;; k" := (Py.bind c (fun x => k))
  (at level 100, c at next level, right associativity) : py_scope.
Notation "c ;;; k" := (Py.bind c (fun _ => k))
  (at level 100, right associativity) : py_scope.
Notation "x <-? r ;; k" := (Py.and_then r (fun x => k))
  (at level 100, r at next level, right associativity) : py_scope.

(* ===================================================================== *)
(** * Parsed JSON and YAML documents *)
(* ===================================================================== *)

Module Json.

(** What [json.loads] and [yaml.safe_load] return: [None], booleans,
    numbers, strings, lists, and dicts with string keys (kept as the list
    of their items). *)
#[warnings="-register-all"]
Inductive json :=
| JNull
| JBool (b : bool)
| JInt (n : Z)
| JFloat (x : R)
| JStr (s : string)
| JList (items : list json)
| JDict (items : list (string * json)).

Fixpoint lookup_item (items : list (string * json)) (key : string) : option json :=
  match items with
  | [] => None
  | (k, v) :: rest => if String.eqb k key then Some v else lookup_item rest key
  end.

(** [d.get(key, default)] *)
Definition dict_get_default (items : list (string * json)) (key : string)
  (default : json) : json :=
  match lookup_item items key with
  | Some v => v
  | None => default
  end.

(** [v == text] for a string literal [text]. *)
Definition is_str (v : json) (text : string) : bool :=
  match v with
  | JStr s => String.eqb s text
  | _ => false
  end.

(** [type(v).__name__] *)
Definition type_name (v : json) : string :=
  match v with
  | JNull => "NoneType"
  | JBool _ => "bool"
  | JInt _ => "int"
  | JFloat _ => "float"
  | JStr _ => "str"
  | JList _ => "list"
  | JDict _ => "dict"
  end.

(** The [AttributeError] of [v.get] for a value that is no dict. *)
Definition no_get (v : json) : Py.exn :=
  Py.Exn Py.AttributeError ("'" +:+ type_name v +:+ "' object has no attribute 'get'").

(** The list of strings a JSON list holds, when it holds strings only. *)
Fixpoint as_strings (items : list json) : option (list string) :=
  match items with
  | [] => Some []
  | JStr s :: rest =>
      match as_strings rest with
      | Some l => Some (s :: l)
      | None => None
      end
  | _ :: _ => None
  end.

(** [bool(v)]: what [v or default] tests. *)
Definition truthy_value (v : json) : bool :=
  match v with
  | JNull => false
  | JBool b => b
  | JInt n => negb (Z.eqb n 0)
  | JFloat x => if Req_dec_T x 0 then false else true
  | JStr s => Py.truthy s
  | JList items => match items with [] => false | _ :: _ => true end
  | JDict items => match items with [] => false | _ :: _ => true end
  end.

End Json.

(* ===================================================================== *)
(** * akidb_mlx/model_loader.py *)
(* ===================================================================== *)

Module ModelLoader.
Import Py.
Local Open Scope py_scope.

(** One entry of the [MODELS] dict. *)
Record model_info := ModelInfo {
  repo_id : string;
  dimension : Z;
  max_tokens : Z;
  description : string;
  size_mb : Z
}.

(** [MODELS]: the registry, in the order the dict literal lists its keys
    (the order matters for the text of the [ValueError]). *)
Definition MODELS : list (string * model_info) :=
  [ ("qwen3-0.6b-4bit",
     ModelInfo "mlx-community/Qwen3-Embedding-0.6B-4bit-DWQ" 1024 512
               "Qwen3 Embedding 0.6B quantized to 4-bit (default)" 600);
    ("gemma-300m-4bit",
     ModelInfo "mlx-community/embeddinggemma-300m-4bit" 768 512
               "EmbeddingGemma 300M quantized to 4-bit (fast)" 200) ].

Fixpoint dict_get {V} (d : list (string * V)) (k : string) : option V :=
  match d with
  | [] => None
  | (k', v) :: d' => if String.eqb k' k then Some v else dict_get d' k
  end.

Definition registered (name : string) : Prop := is_Some (dict_get MODELS name).

(** The part of the machine the loader reads and writes.
    - [env_cache_dir] is [os.getenv("AKIDB_CACHE_DIR")], [home] is
      [Path.home()];
    - [fs] maps the path of a directory to the names of the entries it
      holds, files and sub-directories alike; a path that is no key does
      not exist (the cache root and the model directories are
      directories, as in the cache layout).  Paths are the strings
      [pathlib] prints: components separated by single [/], without a
      trailing one;
    - [fetches] lists the [repo_id] of every [snapshot_download] call, the
      latest first. *)
Record world := World {
  env_cache_dir : option string;
  home : string;
  fs : gmap string (gset string);
  fetches : list string
}.

Definition set_fs (f : gmap string (gset string) -> gmap string (gset string))
  (w : world) : world :=
  World (env_cache_dir w) (home w) (f (fs w)) (fetches w).

Definition log_fetch (repo : string) (w : world) : world :=
  World (env_cache_dir w) (home w) (fs w) (repo :: fetches w).

(** [a / b] on [pathlib.Path]: an absolute right operand replaces the left
    one and an empty one leaves it; other operands are appended as they
    are (they are taken to be plain path components). *)
Definition path_join (a b : string) : string :=
  if startswith b "/" then b
  else if String.eqb b "" then a
  else a +:+ "/" +:+ b.

(** [p.exists()] for a directory path. *)
Definition path_exists (p : string) : M world bool :=
  fun w => (w, Ok (bool_decide (is_Some (fs w !! p)))).

(** [(p / filename).exists()] for an entry of the directory [p]. *)
Definition entry_exists (p filename : string) : M world bool :=
  fun w => (w, Ok match fs w !! p with
                  | Some entries => bool_decide (filename ∈ entries)
                  | None => false
                  end).

(** [list(p.glob("*" + suffix))]: the entries of [p] whose name ends with
    [suffix] ([pathlib] treats a leading dot as any other character). *)
Definition glob_suffix (p suffix : string) : M world (list string) :=
  fun w => (w, Ok match fs w !! p with
                  | Some entries =>
                      List.filter (fun f => endswith f suffix) (elements entries)
                  | None => []
                  end).

(** Splits a path at its last separator. *)
Fixpoint split_last (p : string) : option (string * string) :=
  match p with
  | EmptyString => None
  | String c rest =>
      match split_last rest with
      | Some (d, name) => Some (String c d, name)
      | None => if Ascii.eqb c "/" then Some (EmptyString, rest) else None
      end
  end.

(** [(str(p.parent), p.name)]; [None] for a path that is its own parent
    (the root, the current directory). *)
Definition parent_and_name (p : string) : option (string * string) :=
  match split_last p with
  | Some (d, name) =>
      if truthy name then Some (if truthy d then d else "/", name) else None
  | None =>
      if truthy p && negb (String.eqb p ".") then Some (".", p) else None
  end.

(** The root and the current directory are there without being made. *)
Definition is_anchor (p : string) : bool := String.eqb p "/" || String.eqb p ".".

(** A directory gains or loses an entry; nothing happens when the
    directory is not in the store. *)
Definition add_entry (d name : string) (m : gmap string (gset string))
  : gmap string (gset string) :=
  match m !! d with
  | Some entries => <[d := {[name]} ∪ entries]> m
  | None => m
  end.

Definition remove_entry (d name : string) (m : gmap string (gset string))
  : gmap string (gset string) :=
  match m !! d with
  | Some entries => <[d := entries ∖ {[name]}]> m
  | None => m
  end.

(** [Path.mkdir(parents=True, exist_ok=True)] as [pathlib] does it: a
    path that exists is left alone; otherwise the parent is made first,
    in the same way, unless it is there, and then the path itself, empty,
    which its parent lists from then on.  Every call is on a shorter
    path, so the length of the path is fuel enough.  (The paths of the
    store are directories the process may write to.) *)
Fixpoint make_dirs (fuel : nat) (p : string) (m : gmap string (gset string))
  : gmap string (gset string) :=
  match m !! p with
  | Some _ => m
  | None =>
      match parent_and_name p with
      | Some (d, name) =>
          let m1 :=
            if is_anchor d then m
            else match fuel with
                 | S n => make_dirs n d m
                 | O => m
                 end in
          <[p := ∅]> (add_entry d name m1)
      | None => <[p := ∅]> m
      end
  end.

(** [p.mkdir(parents=True, exist_ok=True)] *)
Definition mkdir_p (p : string) : M world unit :=
  modify (set_fs (make_dirs (String.length p) p)).

(** [k] is [p] or lies below it: its path continues [p] after a
    separator. *)
Definition below (p k : string) : bool :=
  String.eqb k p || startswith k (p +:+ "/").

(** The store without the tree at [p]: [p] goes, with every directory
    below it, and its parent lists it no more. *)
Definition without_tree (p : string) (m : gmap string (gset string))
  : gmap string (gset string) :=
  filter (fun kv : string * gset string => below p (fst kv) = false)
    match parent_and_name p with
    | Some (d, name) => remove_entry d name m
    | None => m
    end.

(** [shutil.rmtree(p)] *)
Definition rmtree (p : string) : M world unit :=
  modify (set_fs (without_tree p)).

(** [open(p / filename, "w")] followed by a write: the directory must
    exist. *)
Definition write_file (p filename : string) : M world unit :=
  fun w => match fs w !! p with
           | Some entries =>
               (set_fs (<[p := {[filename]} ∪ entries]>) w, Ok tt)
           | None =>
               (w, Raise (Exn FileNotFoundError
                            ("No such file or directory: " +:+ path_join p filename)))
           end.

Definition get_cache_dir : M world string :=
  w <- get ;;
  let cache_dir :=
    match env_cache_dir w with
    | Some cache_env =>
        if truthy cache_env then path_join cache_env "models"
        else path_join (path_join (path_join (home w) ".cache") "akidb") "models"
    | None => path_join (path_join (path_join (home w) ".cache") "akidb") "models"
    end in
  mkdir_p cache_dir ;;;
  ret cache_dir.

(** [model_name] is annotated [str], but callers can pass [None]: the
    argument is an [option string], [None] being Python's [None]. *)
Definition get_model_info (model_name : option string) : M world model_info :=
  match model_name with
  | Some name =>
      match dict_get MODELS name with
      | Some info => ret info
      | None =>
          raise (Exn ValueError
                   ("Model '" +:+ name +:+ "' not found. Available models: "
                    +:+ String.concat ", " (List.map fst MODELS)))
      end
  | None =>
      raise (Exn ValueError
               ("Model 'None' not found. Available models: "
                +:+ String.concat ", " (List.map fst MODELS)))
  end.

Definition get_model_path (model_name : option string) : M world string :=
  cache_dir <- get_cache_dir ;;
  match model_name with
  | Some name => ret (path_join cache_dir name)
  | None =>
      raise (Exn TypeError
               "unsupported operand type(s) for /: 'PosixPath' and 'NoneType'")
  end.

(** The loop over [required_files]: [False] at the first missing one. *)
Fixpoint has_required (model_path : string) (required_files : list string)
  : M world bool :=
  match required_files with
  | [] => ret true
  | filename :: rest =>
      present <- entry_exists model_path filename ;;
      if present then has_required model_path rest else ret false
  end.

Definition is_model_cached (model_name : option string) : M world bool :=
  model_path <- get_model_path model_name ;;
  there <- path_exists model_path ;;
  if negb there then ret false
  else
    complete <- has_required model_path ["config.json"] ;;
    if negb complete then ret false
    else
      safetensors <- glob_suffix model_path ".safetensors" ;;
      npz <- glob_suffix model_path ".npz" ;;
      let weight_files := safetensors ++ npz in
      match weight_files with
      | [] => ret false
      | _ :: _ => ret true
      end.

Definition _save_model_metadata (model_name : option string) (info : model_info)
  : M world unit :=
  model_path <- get_model_path model_name ;;
  write_file model_path "akidb_metadata.json".

Section Download.

(** [huggingface_hub.snapshot_download(repo_id, local_dir, ...)]: it may
    change the directories in any way and either returns the path it wrote
    to or raises. *)
Variable snapshot_download :
  string -> string -> gmap string (gset string) ->
  gmap string (gset string) * result string.

Definition call_snapshot_download (repo local_dir : string) : M world string :=
  fun w =>
    let w1 := log_fetch repo w in
    let '(m, r) := snapshot_download repo local_dir (fs w1) in
    (set_fs (fun _ => m) w1, r).

Definition download_model (model_name : option string) (force_redownload : bool)
  : M world string :=
  info <- get_model_info model_name ;;
  let repo := repo_id info in
  model_path <- get_model_path model_name ;;
  cached <- (if negb force_redownload then is_model_cached model_name
             else ret false) ;;
  if cached then ret model_path
  else
    try_except
      (downloaded_path <- call_snapshot_download repo model_path ;;
       _save_model_metadata model_name info ;;;
       ret downloaded_path)
      (fun e =>
         there <- path_exists model_path ;;
         (if there then rmtree model_path else ret tt) ;;;
         raise e).

End Download.

(** The loop of [list_cached_models] over the keys of [MODELS]. *)
Fixpoint cached_among (names : list string) : M world (list string) :=
  match names with
  | [] => ret []
  | model_name :: rest =>
      cached <- is_model_cached (Some model_name) ;;
      others <- cached_among rest ;;
      ret (if cached then model_name :: others else others)
  end.

Definition list_cached_models : M world (list string) :=
  cache_dir <- get_cache_dir ;;
  there <- path_exists cache_dir ;;
  if negb there then ret []
  else cached_among (List.map fst MODELS).

(** The [else] branch of [clear_cache]: the whole cache root goes and is
    created again. *)
Definition clear_all : M world unit :=
  cache_dir <- get_cache_dir ;;
  there <- path_exists cache_dir ;;
  if there then
    rmtree cache_dir ;;;
    mkdir_p cache_dir
  else ret tt.

(** [clear_cache]: [if model_name:] is false for [None] and for the empty
    string alike. *)
Definition clear_cache (model_name : option string) : M world unit :=
  match model_name with
  | Some name =>
      if truthy name then
        model_path <- get_model_path (Some name) ;;
        there <- path_exists model_path ;;
        if there then rmtree model_path else ret tt
      else clear_all
  | None => clear_all
  end.

End ModelLoader.

(* ===================================================================== *)
(** * Arrays *)
(* ===================================================================== *)

Module Arrays.

(** Arrays are nested lists: a [[batch, hidden]] array is a list of rows, a
    [[batch, seq_len, hidden]] array a list of such arrays.  The sizes of
    the axes are read off the first elements, so an axis below an empty
    one is read as of size zero: a row of zero positions carries no
    hidden size, and [[batch, 0, hidden]] is read as hidden size 0. *)
Abbreviation vector := (list R).
Abbreviation matrix := (list (list R)).
Abbreviation tensor3 := (list (list (list R))).

(** Sums along an axis. *)
Definition vadd (u v : vector) : vector := zip_with Rplus u v.
Definition zeros (n : nat) : vector := repeat 0%R n.
Definition width (rows : matrix) : nat := length (hd [] rows).
Definition sum_rows (h : nat) (rows : matrix) : vector :=
  fold_right vadd (zeros h) rows.
Definition sum_list (xs : vector) : R := fold_right Rplus 0%R xs.

(** The first two sizes of an array. *)
Definition shape2 {A} (rows : list (list A)) : nat * nat :=
  (length rows, length (hd [] rows)).

(** Two sizes broadcast when they are equal or one of them is 1. *)
Definition broadcastable (a b : nat) : bool :=
  Nat.eqb a b || Nat.eqb a 1 || Nat.eqb b 1.

(** The leading axes of an array of shape [(b, s, _)] and of a mask of
    shape [(b', s')] expanded by a last axis of size 1 broadcast. *)
Definition shapes_broadcast (hidden mask : nat * nat) : bool :=
  broadcastable (fst hidden) (fst mask) && broadcastable (snd hidden) (snd mask).

(** An operation along one axis of two arrays whose sizes broadcast:
    element by element when the sizes are equal, with the one element
    repeated when a size is 1. *)
Definition broadcast {A B C} (f : A -> B -> C) (xs : list A) (ys : list B)
  : list C :=
  if Nat.eqb (length xs) (length ys) then zip_with f xs ys
  else
    match xs, ys with
    | [x], _ => List.map (f x) ys
    | _, [y] => List.map (fun x => f x y) xs
    | _, _ => zip_with f xs ys
    end.

(** A shape as the libraries print it in their messages. *)
Definition show_shape (dims : list nat) : string :=
  "(" +:+ String.concat "," (List.map pretty dims) +:+ ")".

End Arrays.

(* ===================================================================== *)
(** * akidb_mlx/mlx_inference.py *)
(* ===================================================================== *)

Module MlxInference.
Import Py Arrays.
Local Open Scope py_scope.

(** What [__init__] stores in [self].  The tokenizer and the inner model
    come from [mlx_lm.load]: [tokenizer_encode] is [self.tokenizer.encode],
    [qwen_model] is the call [self.qwen_model(input_ids)]. *)
Record MLXEmbeddingModel := {
  model_path : string;
  hidden_size : Z;
  num_hidden_layers : Z;
  vocab_size : Z;
  tokenizer_encode : string -> list Z;
  eos_token_id : Z;
  qwen_model : list (list Z) -> result tensor3
}.

(** The dict [tokenize] returns. *)
Record token_batch := TokenBatch {
  input_ids : list (list Z);
  attention_mask : list (list Z)
}.

(** [[x] * n]: empty when [n <= 0]. *)
Definition py_repeat {A} (x : A) (n : Z) : list A := repeat x (Z.to_nat n).

(** [l[:n]]: a negative [n] counts from the end. *)
Definition py_take {A} (l : list A) (n : Z) : list A :=
  if (0 <=? n)%Z then firstn (Z.to_nat n) l
  else firstn (Z.to_nat (Z.of_nat (length l) + n)) l.

(** The body of the loop of [tokenize] for one encoded text: the row of
    [input_ids] and the row of [attention_mask]. *)
Definition tokenize_row (pad_token_id max_length : Z) (token_ids : list Z)
  : list Z * list Z :=
  let seq_len := Z.of_nat (length token_ids) in
  if (seq_len >? max_length)%Z then
    (py_take token_ids max_length, py_repeat 1%Z max_length)
  else
    let padding_length := (max_length - seq_len)%Z in
    if (padding_length >? 0)%Z then
      (token_ids ++ py_repeat pad_token_id padding_length,
       py_repeat 1%Z seq_len ++ py_repeat 0%Z padding_length)
    else
      (token_ids, py_repeat 1%Z max_length).

(** [mx.array(rows, dtype=mx.int32)]: rows of different lengths are
    refused. *)
Definition mx_array (rows : list (list Z)) : result (list (list Z)) :=
  match rows with
  | [] => Ok []
  | r :: rest =>
      if forallb (fun r' => Nat.eqb (length r') (length r)) rest then Ok rows
      else Raise (Exn ValueError "Initialization encountered non-uniform length.")
  end.

Definition tokenize (self : MLXEmbeddingModel) (texts : list string) (max_length : Z)
  : result token_batch :=
  let all_token_ids := List.map (tokenizer_encode self) texts in
  let pad_token_id := eos_token_id self in
  let rows := List.map (tokenize_row pad_token_id max_length) all_token_ids in
  let all_input_ids := List.map fst rows in
  let all_attention_masks := List.map snd rows in
  ids <-? mx_array all_input_ids ;;
  mask <-? mx_array all_attention_masks ;;
  Ok (TokenBatch ids mask).

(** [batch_size, seq_len = input_ids.shape] followed by the call of the
    inner model: the array built from no row at all has the one-axis shape
    [(0,)], which does not unpack into two names. *)
Definition forward (self : MLXEmbeddingModel) (input_ids attention_mask : list (list Z))
  : result tensor3 :=
  match input_ids with
  | [] => Raise (Exn ValueError "not enough values to unpack (expected 2, got 1)")
  | _ :: _ => qwen_model self input_ids
  end.

(** [_mean_pooling] on one sequence: [hidden] is [[seq_len, hidden]],
    [mask] is [[seq_len]]. *)
Definition mean_pooling_row (hidden : matrix) (mask : list Z) : vector :=
  let mask_expanded := List.map IZR mask in
  let masked :=
    broadcast (fun h m => List.map (fun x => (x * m)%R) h) hidden mask_expanded in
  let sum_embeddings := sum_rows (width hidden) masked in
  let sum_mask := Rmax (sum_list mask_expanded) 1e-9 in
  List.map (fun x => (x / sum_mask)%R) sum_embeddings.

(** The product [hidden_states * attention_mask_expanded] needs shapes
    that broadcast; MLX raises a [ValueError] otherwise. *)
Definition _mean_pooling (hidden_states : tensor3) (attention_mask : list (list Z))
  : result matrix :=
  if shapes_broadcast (shape2 hidden_states) (shape2 attention_mask) then
    Ok (broadcast mean_pooling_row hidden_states attention_mask)
  else
    Raise (Exn ValueError
             ("[broadcast_shapes] Shapes "
              +:+ show_shape [length hidden_states; length (hd [] hidden_states);
                              width (hd [] hidden_states)]
              +:+ " and "
              +:+ show_shape [length attention_mask; length (hd [] attention_mask);
                              1%nat]
              +:+ " cannot be broadcast.")).

(** [hidden_states[:, 0, :]] *)
Definition _cls_pooling (hidden_states : tensor3) : result matrix :=
  map_result
    (fun hidden : matrix =>
       match hidden with
       | first :: _ => Ok first
       | [] => Raise (Exn IndexError "index 0 is out of bounds for axis 1 with size 0")
       end)
    hidden_states.

(** The Euclidean norm [sqrt(sum(v ** 2))]. *)
Definition l2_norm (v : vector) : R :=
  sqrt (sum_list (List.map (fun x => (x ^ 2)%R) v)).

Definition l2_normalize_row (v : vector) : vector :=
  let norms := Rmax (l2_norm v) 1e-12 in
  List.map (fun x => (x / norms)%R) v.

Definition _l2_normalize (embeddings : matrix) : matrix :=
  List.map l2_normalize_row embeddings.

(** [embed]: [tokenize] is called with its default [max_length=512].  The
    method assigns nothing to [self]; it is a computation over the model
    object that hands it back as it got it. *)
Definition embed (texts : list string) (pooling : string) (normalize : bool)
  : M MLXEmbeddingModel matrix :=
  fun self =>
    (self,
     inputs <-? tokenize self texts 512 ;;
     hidden_states <-? forward self (input_ids inputs) (attention_mask inputs) ;;
     embeddings <-?
       (if String.eqb pooling "mean" then
          _mean_pooling hidden_states (attention_mask inputs)
        else if String.eqb pooling "cls" then
          _cls_pooling hidden_states
        else
          Raise (Exn ValueError ("Unknown pooling strategy: " +:+ pooling))) ;;
     Ok (if normalize then _l2_normalize embeddings else embeddings)).

End MlxInference.

(* ===================================================================== *)
(** * akidb_mlx/config.py *)
(* ===================================================================== *)

Module Config.
Import Py Json.

(** An [EmbeddingConfig] object.  [__init__] stores its arguments as they
    come, and [from_yaml] passes what the document holds, so every
    attribute is a document value. *)
Record EmbeddingConfig := {
  model_name : json;
  pooling : json;
  normalize : json;
  max_tokens : json;
  auto_download : json;
  batch_size : json
}.

(** [cls()]: the defaults of [__init__]. *)
Definition defaults : EmbeddingConfig :=
  {| model_name := JStr "qwen3-0.6b-4bit";
     pooling := JStr "mean";
     normalize := JBool true;
     max_tokens := JInt 512;
     auto_download := JBool true;
     batch_size := JInt 32 |}.

(** What the configuration code sees of the machine: the variable
    [AKIDB_CONFIG], [Path.home()], which files exist, and what opening a
    file and handing it to [yaml.safe_load] gives. *)
Record machine := {
  env_config : option string;
  home : string;
  file_exists : string -> bool;
  load_yaml : string -> result json
}.

Definition _find_config_file (m : machine) : option string :=
  let from_env :=
    match env_config m with
    | Some env_path =>
        if truthy env_path then
          if file_exists m env_path then Some env_path else None
        else None
    | None => None
    end in
  match from_env with
  | Some path => Some path
  | None =>
      let current_dir_config := "embedding_config.yaml" in
      if file_exists m current_dir_config then Some current_dir_config
      else
        let user_config :=
          ModelLoader.path_join
            (ModelLoader.path_join (ModelLoader.path_join (home m) ".config") "akidb")
            "embedding_config.yaml" in
        if file_exists m user_config then Some user_config else None
  end.

(** The body of the [try] block of [from_yaml]. *)
Definition read_config (m : machine) (yaml_path : string) : result EmbeddingConfig :=
  and_then (load_yaml m yaml_path) (fun loaded =>
  let config_dict := if truthy_value loaded then loaded else JDict [] in
  match config_dict with
  | JDict top =>
      match dict_get_default top "embedding" (JDict []) with
      | JDict embedding_config =>
          Ok {| model_name :=
                  dict_get_default embedding_config "model_name" (JStr "qwen3-0.6b-4bit");
                pooling := dict_get_default embedding_config "pooling" (JStr "mean");
                normalize := dict_get_default embedding_config "normalize" (JBool true);
                max_tokens := dict_get_default embedding_config "max_tokens" (JInt 512);
                auto_download :=
                  dict_get_default embedding_config "auto_download" (JBool true);
                batch_size := dict_get_default embedding_config "batch_size" (JInt 32) |}
      | other => Raise (no_get other)
      end
  | other => Raise (no_get other)
  end).

Definition from_yaml (m : machine) (yaml_path : option string) : EmbeddingConfig :=
  let yaml_path :=
    match yaml_path with
    | Some p => Some p
    | None => _find_config_file m
    end in
  match yaml_path with
  | None => defaults
  | Some p =>
      match read_config m p with
      | Ok config => config
      | Raise _ => defaults
      end
  end.

End Config.

(* ===================================================================== *)
(** * akidb_mlx/embedding_service.py *)
(* ===================================================================== *)

Module EmbeddingService.
Import Py.
Local Open Scope py_scope.

(** [config.EmbeddingConfig]: the configuration record. *)
Record EmbeddingConfig := {
  cfg_model_name : string;
  cfg_pooling : string;
  cfg_normalize : bool;
  cfg_max_tokens : Z;
  cfg_auto_download : bool;
  cfg_batch_size : Z
}.

(** The attributes [__init__] sets on [self]. *)
Record service := Service {
  model_name : string;
  pooling : string;
  normalize : bool;
  dimension : Z;
  max_tokens : Z;
  model_path : string;
  mlx_model : MlxInference.MLXEmbeddingModel
}.

Section Init.

Variable snapshot_download :
  string -> string -> gmap string (gset string) ->
  gmap string (gset string) * result string.

(** [EmbeddingConfig.from_yaml(yaml_path)]: it catches every exception of
    the YAML loader and falls back to the defaults, so it always returns a
    configuration. *)
Variable from_yaml : option string -> EmbeddingConfig.

(** [MLXEmbeddingModel(model_path)]: reads [config.json] and loads the
    weights with [mlx_lm.load]. *)
Variable load_mlx_model : string -> ModelLoader.world -> result MlxInference.MLXEmbeddingModel.

Definition or_default {A} (explicit : option A) (default : A) : A :=
  match explicit with
  | Some a => a
  | None => default
  end.

(** [str(x)] inside an f-string for an optional name. *)
Definition show_name (name : option string) : string :=
  match name with
  | Some s => s
  | None => "None"
  end.

Definition __init__
  (model_name : option string) (auto_download : option bool)
  (pooling : option string) (normalize : option bool)
  (config : option EmbeddingConfig) (config_path : option string)
  : M ModelLoader.world service :=
  let config :=
    match config_path with
    | Some p => from_yaml (Some p)
    | None =>
        match config with
        | Some c => c
        | None => from_yaml None
        end
    end in
  let self_model_name := or_default model_name (cfg_model_name config) in
  let self_pooling := or_default pooling (cfg_pooling config) in
  let self_normalize := or_default normalize (cfg_normalize config) in
  let auto_download := or_default auto_download (cfg_auto_download config) in
  info <- ModelLoader.get_model_info (Some self_model_name) ;;
  let self_dimension := ModelLoader.dimension info in
  let self_max_tokens := ModelLoader.max_tokens info in
  cached <- ModelLoader.is_model_cached model_name ;;
  self_model_path <-
    (if cached then ModelLoader.download_model snapshot_download model_name false
     else if auto_download then
       ModelLoader.download_model snapshot_download model_name false
     else
       raise (Exn ValueError
                ("Model '" +:+ show_name model_name
                 +:+ "' not cached and auto_download=False"))) ;;
  model <- (fun w => (w, load_mlx_model self_model_path w)) ;;
  ret (Service self_model_name self_pooling self_normalize
         self_dimension self_max_tokens self_model_path model).

End Init.

End EmbeddingService.

(* ===================================================================== *)
(** * onnx_server.py *)
(* ===================================================================== *)

Module OnnxServer.
Import Py Arrays.
Local Open Scope py_scope.

(** The response dicts, one field per key the server ever sets. *)
Record response := Response {
  status : string;
  message : option string;
  dimension : option Z;
  providers : option (list string);
  embeddings : option matrix;
  count : option Z
}.

Definition error_response (text : string) : response :=
  Response "error" (Some text) None None None None.

(** What a tokenizer call returns ([return_tensors="np"]). *)
Record encoded := Encoded {
  enc_input_ids : list (list Z);
  enc_attention_mask : list (list Z);
  enc_token_type_ids : option (list (list Z))
}.

(** [sys.stdin] as a [for] loop reads it: the iterator yields a line, is
    exhausted, or raises, as it does with a [UnicodeDecodeError] when the
    bytes it reads are not text in the encoding of the stream.  (A
    [KeyboardInterrupt] is no [Exception] and is left out, as it is from
    [exn].) *)
Inductive input :=
| Exhausted
| Yields (line : string) (rest : input)
| Fails (e : exn).

(** The input that yields the lines of a list and then goes on as
    [ending]. *)
Definition lines_then (lines : list string) (ending : input) : input :=
  fold_right Yields ending lines.

(** The [ort_inputs] dict. *)
Record ort_inputs := OrtInputs {
  ort_input_ids : list (list Z);
  ort_attention_mask : list (list Z);
  ort_token_type_ids : option (list (list Z))
}.

(** The calls into the tokenizer and model libraries, in the order they
    are made (the latest first): the three loaders of [load_model] and the
    three inference calls of [embed_batch]. *)
Inductive call :=
| AutoTokenizer_from_pretrained (model_name : string)
| SentenceTransformer_new (model_name : string)
| InferenceSession_new (onnx_path : string)
| tokenizer_call (model_name : string) (inputs : list string)
| session_run (model_name : string)
| model_encode (model_name : string) (inputs : list string).

Definition is_loader_call (c : call) : bool :=
  match c with
  | AutoTokenizer_from_pretrained _ | SentenceTransformer_new _
  | InferenceSession_new _ => true
  | _ => false
  end.

Definition is_inference_call (c : call) : bool := negb (is_loader_call c).

(** [np.zeros_like(a)] *)
Definition zeros_like (a : list (list Z)) : list (list Z) :=
  List.map (List.map (fun _ => 0%Z)) a.

(** The mean pooling of [embed_batch] on one sequence:
    [np.sum(hidden_states * attention_mask_expanded, axis=1)] over
    [np.clip(attention_mask.sum(axis=1, keepdims=True), a_min=1e-9)]. *)
Definition mean_pooling_row (hidden : matrix) (mask : list Z) : vector :=
  let masked :=
    broadcast (fun h m => List.map (fun x => (x * IZR m)%R) h) hidden mask in
  let sum_embeddings := sum_rows (width hidden) masked in
  let sum_mask := Rmax (IZR (fold_right Z.add 0%Z mask)) 1e-9 in
  List.map (fun x => (x / sum_mask)%R) sum_embeddings.

(** The pooling of a batch: NumPy raises a [ValueError] when the shapes
    of [hidden_states] and of the expanded mask do not broadcast. *)
Definition mean_pooling (hidden_states : tensor3) (attention_mask : list (list Z))
  : result matrix :=
  if shapes_broadcast (shape2 hidden_states) (shape2 attention_mask) then
    Ok (broadcast mean_pooling_row hidden_states attention_mask)
  else
    Raise (Exn ValueError
             ("operands could not be broadcast together with shapes "
              +:+ show_shape [length hidden_states; length (hd [] hidden_states);
                              width (hd [] hidden_states)]
              +:+ " "
              +:+ show_shape [length attention_mask; length (hd [] attention_mask);
                              1%nat]
              +:+ " ")).

(** [np.linalg.norm(embeddings, axis=1, keepdims=True)], clipped at
    [1e-12], and the division, on one row. *)
Definition normalize_row (v : vector) : vector :=
  let norms := Rmax (sqrt (sum_list (List.map (fun x => (x ^ 2)%R) v))) 1e-12 in
  List.map (fun x => (x / norms)%R) v.

Section Server.

(** The objects of the libraries: an [ort.InferenceSession], a tokenizer,
    a [SentenceTransformer]. *)
Variables Session Tokenizer STModel : Type.

(** The library functions the server calls.  Each either returns or
    raises. *)
Record runtime := {
  expanduser : string -> string;
  mkdir : string -> result unit;
  from_pretrained : string -> string -> result Tokenizer;
  onnx_exists : string -> bool;
  new_sentence_transformer : string -> string -> result STModel;
  get_sentence_embedding_dimension : STModel -> Z;
  new_inference_session : string -> result Session;
  output_dimension : Session -> Z;
  get_providers : Session -> list string;
  input_names : Session -> list string;
  run_tokenizer : Tokenizer -> list string -> result encoded;
  run_session : Session -> ort_inputs -> result tensor3;
  encode : STModel -> list string -> bool -> result matrix
}.

Variable lib : runtime.

(** [self]: the four dicts of [__init__], and the record of the library
    calls made so far (no attribute of the Python object; it is what the
    statements about calls refer to). *)
Record server := Server {
  sessions : gmap string Session;
  tokenizers : gmap string Tokenizer;
  dimensions : gmap string Z;
  pytorch_models : gmap string STModel;
  calls : list call
}.

Definition new_server : server := Server ∅ ∅ ∅ ∅ [].

Definition record (c : call) : M server unit :=
  modify (fun s => Server (sessions s) (tokenizers s) (dimensions s)
                          (pytorch_models s) (c :: calls s)).
Definition set_session (k : string) (v : Session) : M server unit :=
  modify (fun s => Server (<[k := v]> (sessions s)) (tokenizers s) (dimensions s)
                          (pytorch_models s) (calls s)).
Definition set_tokenizer (k : string) (v : Tokenizer) : M server unit :=
  modify (fun s => Server (sessions s) (<[k := v]> (tokenizers s)) (dimensions s)
                          (pytorch_models s) (calls s)).
Definition set_dimension (k : string) (v : Z) : M server unit :=
  modify (fun s => Server (sessions s) (tokenizers s) (<[k := v]> (dimensions s))
                          (pytorch_models s) (calls s)).
Definition set_pytorch_model (k : string) (v : STModel) : M server unit :=
  modify (fun s => Server (sessions s) (tokenizers s) (dimensions s)
                          (<[k := v]> (pytorch_models s)) (calls s)).

(** [d[k]] *)
Definition subscript {V} (d : gmap string V) (k : string) : M server V :=
  match d !! k with
  | Some v => ret v
  | None => raise (Exn KeyError k)
  end.

Definition load_model (model_name cache_dir : string) : M server response :=
  self <- get ;;
  if bool_decide (is_Some (sessions self !! model_name)) then
    d <- subscript (dimensions self) model_name ;;
    ret (Response "ok" (Some "Model already loaded") (Some d) None None None)
  else
    try_except
      (let cache_path := expanduser lib cache_dir in
       lift (mkdir lib cache_path) ;;;
       record (AutoTokenizer_from_pretrained model_name) ;;;
       tokenizer <- lift (from_pretrained lib model_name cache_path) ;;
       set_tokenizer model_name tokenizer ;;;
       let model_safe_name := replace_char "/" "_" model_name in
       let onnx_path := ModelLoader.path_join cache_path (model_safe_name +:+ ".onnx") in
       if negb (onnx_exists lib onnx_path) then
         record (SentenceTransformer_new model_name) ;;;
         model <- lift (new_sentence_transformer lib model_name cache_path) ;;
         set_pytorch_model model_name model ;;;
         let d := get_sentence_embedding_dimension lib model in
         set_dimension model_name d ;;;
         ret (Response "ok" (Some "Model loaded with PyTorch fallback (CPU/MPS)")
                (Some d) (Some ["PyTorchExecutionProvider"]) None None)
       else
         record (InferenceSession_new onnx_path) ;;;
         session <- lift (new_inference_session lib onnx_path) ;;
         let d := output_dimension lib session in
         set_session model_name session ;;;
         set_dimension model_name d ;;;
         let active_providers := get_providers lib session in
         ret (Response "ok" (Some "Model loaded successfully")
                (Some d) (Some active_providers) None None))
      (fun e => ret (error_response (msg e))).

Definition embed_batch (model_name : string) (inputs : list string) (normalize : bool)
  : M server response :=
  self <- get ;;
  if negb (bool_decide (is_Some (sessions self !! model_name)))
     && negb (bool_decide (is_Some (pytorch_models self !! model_name))) then
    ret (error_response
           ("Model not loaded: " +:+ model_name +:+ ". Call load_model first."))
  else
    try_except
      (match pytorch_models self !! model_name with
       | Some model =>
           record (model_encode model_name inputs) ;;;
           embeddings <- lift (encode lib model inputs normalize) ;;
           ret (Response "ok" None None None (Some embeddings)
                  (Some (Z.of_nat (length inputs))))
       | None =>
           session <- subscript (sessions self) model_name ;;
           tokenizer <- subscript (tokenizers self) model_name ;;
           record (tokenizer_call model_name inputs) ;;;
           encoded <- lift (run_tokenizer lib tokenizer inputs) ;;
           let token_type_ids :=
             if bool_decide ("token_type_ids" ∈ input_names lib session) then
               Some (match enc_token_type_ids encoded with
                     | Some t => t
                     | None => zeros_like (enc_input_ids encoded)
                     end)
             else None in
           let inputs_for_ort :=
             OrtInputs (enc_input_ids encoded) (enc_attention_mask encoded)
                       token_type_ids in
           record (session_run model_name) ;;;
           hidden_states <- lift (run_session lib session inputs_for_ort) ;;
           let attention_mask := enc_attention_mask encoded in
           embeddings <- lift (mean_pooling hidden_states attention_mask) ;;
           let embeddings :=
             if normalize then List.map normalize_row embeddings else embeddings in
           ret (Response "ok" None None None (Some embeddings)
                  (Some (Z.of_nat (length inputs))))
       end)
      (fun e => ret (error_response (msg e))).

(** [run]: the loop over the lines of [sys.stdin].  [json_loads] is
    [json.loads]; [process_request] is the method of that name, the
    dispatcher over [ping], [load_model] and [embed_batch], taken here as
    any function of the server and the parsed request that returns a
    response dict or raises; [JSON] is the type of parsed requests.  The
    standard output is the list of the dicts printed, one per line, the
    first printed first. *)
Variable JSON : Type.
Variable json_loads : string -> result JSON.
Variable process_request : JSON -> M server response.

(** The response one non-blank line produces: the [try] body and its two
    [except] clauses.  The response is what [print] writes; the standard
    output is taken to accept every line. *)
Definition answer (line : string) : M server response :=
  try_except
    (request <- lift (json_loads line) ;;
     process_request request)
    (fun e =>
       match cls e with
       | JSONDecodeError => ret (error_response ("Invalid JSON: " +:+ msg e))
       | _ => ret (error_response ("Internal error: " +:+ msg e))
       end).

(** The [for] loop: a line that is empty once stripped is skipped, any
    other line is answered.  The lines are read outside the [try], so an
    exception of the iterator leaves the loop and ends [run], as an
    exception that left [answer] would; the result says whether the loop
    reached the end of the input. *)
Fixpoint run_lines (stdin : input) (self : server) (stdout : list response)
  : server * list response * result unit :=
  match stdin with
  | Exhausted => (self, stdout, Ok tt)
  | Fails e => (self, stdout, Raise e)
  | Yields line rest =>
      let line := strip line in
      if negb (truthy line) then run_lines rest self stdout
      else
        match answer line self with
        | (self', Ok resp) => run_lines rest self' (stdout ++ [resp])
        | (self', Raise e) => (self', stdout, Raise e)
        end
  end.

Definition run (stdin : input) (self : server)
  : server * list response * result unit :=
  run_lines stdin self [].

(** [main]: a new server runs; when [run] returns the process ends with
    status 0, and when an exception leaves [run] it is logged and the
    process exits with status 1.  The result is what was printed and the
    exit status. *)
Definition main (stdin : input) : list response * Z :=
  match run stdin new_server with
  | (_, stdout, Ok _) => (stdout, 0%Z)
  | (_, stdout, Raise _) => (stdout, 1%Z)
  end.

End Server.

Section Dispatch.

Import Json.

Variables Session Tokenizer STModel : Type.
Variable lib : runtime Session Tokenizer STModel.

(** [str(v)], as the f-string of the unknown-method answer formats the
    method. *)
Variable str_of : json -> string.

(** [load_model] and [embed_batch] are annotated for strings, a list of
    strings and a boolean.  A request can carry anything else; what the
    two methods do then rests on how the libraries take such arguments,
    and is left open here. *)
Variable load_model_untyped :
  json -> json -> M (server Session Tokenizer STModel) response.
Variable embed_batch_untyped :
  json -> json -> json -> M (server Session Tokenizer STModel) response.

Definition pong : response := Response "ok" (Some "pong") None None None None.

Definition process_request (request : json)
  : M (server Session Tokenizer STModel) response :=
  match request with
  | JDict fields =>
      let method := dict_get_default fields "method" JNull in
      if is_str method "ping" then ret pong
      else if is_str method "load_model" then
        match dict_get_default fields "params" (JDict []) with
        | JDict params =>
            let model_name := dict_get_default params "model" JNull in
            let cache_dir :=
              dict_get_default params "cache_dir" (JStr "~/.cache/akidb/models") in
            match model_name, cache_dir with
            | JStr name, JStr dir => load_model _ _ _ lib name dir
            | _, _ => load_model_untyped model_name cache_dir
            end
        | other => raise (no_get other)
        end
      else if is_str method "embed_batch" then
        match dict_get_default fields "params" (JDict []) with
        | JDict params =>
            let model_name := dict_get_default params "model" JNull in
            let inputs := dict_get_default params "inputs" (JList []) in
            let normalize := dict_get_default params "normalize" (JBool true) in
            match model_name, inputs, normalize with
            | JStr name, JList items, JBool flag =>
                match as_strings items with
                | Some texts => embed_batch _ _ _ lib name texts flag
                | None => embed_batch_untyped model_name inputs normalize
                end
            | _, _, _ => embed_batch_untyped model_name inputs normalize
            end
        | other => raise (no_get other)
        end
      else
        ret (error_response ("Unknown method: " +:+ str_of method))
  | other => raise (no_get other)
  end.

(** The server as [main] runs it: [run] over [process_request]. *)
Definition serve (json_loads : string -> result json) (stdin : input)
  : server Session Tokenizer STModel ->
    server Session Tokenizer STModel * list response * result unit :=
  run Session Tokenizer STModel json json_loads process_request stdin.

End Dispatch.

End OnnxServer.

(* ===================================================================== *)
(** * Concrete machines, libraries and requests for the examples *)
(* ===================================================================== *)

Module Scenarios.
Import Py.

(** ** Cache directories *)

Definition qwen_dir : string := "/home/aki/.cache/akidb/models/qwen3-0.6b-4bit".
Definition custom_dir : string := "/home/aki/.cache/akidb/models/my-model".

(** No environment override, nothing on disk. *)
Definition w_empty : ModelLoader.world :=
  ModelLoader.World None "/home/aki" ∅ [].

(** The default model is complete on disk. *)
Definition w_cached : ModelLoader.world :=
  ModelLoader.World None "/home/aki"
    {[ qwen_dir := {[ "config.json"; "model.safetensors" ]} ]} [].

(** The directory of the default model holds a configuration file only. *)
Definition w_no_weights : ModelLoader.world :=
  ModelLoader.World None "/home/aki" {[ qwen_dir := {[ "config.json" ]} ]} [].

(** A complete directory for a name the registry does not list. *)
Definition w_custom : ModelLoader.world :=
  ModelLoader.World None "/home/aki"
    {[ custom_dir := {[ "config.json"; "weights.npz" ]} ]} [].

(** A fetch that writes a configuration file and a weight file and then
    fails. *)
Definition failing_fetch (repo local_dir : string) (m : gmap string (gset string))
  : gmap string (gset string) * result string :=
  (<[local_dir := {[ "config.json"; "model.safetensors" ]}]> m,
   Raise (Exn (OtherError "ConnectionError") "connection reset by peer")).

(** A fetch that writes both files and returns. *)
Definition working_fetch (repo local_dir : string) (m : gmap string (gset string))
  : gmap string (gset string) * result string :=
  (<[local_dir := {[ "config.json"; "model.safetensors" ]}]> m, Ok local_dir).

(** ** An embedding model

    A byte-level tokenizer with end-of-sequence id 0, and an inner model
    that maps the token [t] to the hidden vector [[t; 1]]. *)
Definition byte_ids (text : string) : list Z :=
  List.map (fun c => Z.of_nat (nat_of_ascii c)) (list_ascii_of_string text).

Definition toy_model : MlxInference.MLXEmbeddingModel :=
  {| MlxInference.model_path := qwen_dir;
     MlxInference.hidden_size := 2;
     MlxInference.num_hidden_layers := 1;
     MlxInference.vocab_size := 256;
     MlxInference.tokenizer_encode := byte_ids;
     MlxInference.eos_token_id := 0;
     MlxInference.qwen_model :=
       fun ids => Ok (List.map (List.map (fun t => [IZR t; 1%R])) ids) |}.

(** ** Libraries for the ONNX server

    Sessions, tokenizers and models are tokens of type [unit].  In both
    libraries the fallback model has dimension 384 and encodes every input
    as the vector [[1; 0]]; the tokenizer gives every input the ids
    [[101; 102]] with a mask of ones, and the session answers every
    position with the hidden vector [[1; 0]]. *)
Definition expand_home (p : string) : string :=
  if startswith p "~" then "/home/aki" +:+ substring 1 (String.length p - 1) p
  else p.

Definition toy_runtime (onnx_on_disk : bool) : OnnxServer.runtime unit unit unit :=
  {| OnnxServer.expanduser := expand_home;
     OnnxServer.mkdir := fun _ => Ok tt;
     OnnxServer.from_pretrained := fun _ _ => Ok tt;
     OnnxServer.onnx_exists := fun _ => onnx_on_disk;
     OnnxServer.new_sentence_transformer := fun _ _ => Ok tt;
     OnnxServer.get_sentence_embedding_dimension := fun _ => 384%Z;
     OnnxServer.new_inference_session := fun _ => Ok tt;
     OnnxServer.output_dimension := fun _ => 384%Z;
     OnnxServer.get_providers := fun _ => ["CoreMLExecutionProvider"; "CPUExecutionProvider"];
     OnnxServer.input_names := fun _ => ["input_ids"; "attention_mask"];
     OnnxServer.run_tokenizer :=
       fun _ inputs =>
         Ok (OnnxServer.Encoded (List.map (fun _ => [101; 102]%Z) inputs)
                                (List.map (fun _ => [1; 1]%Z) inputs) None);
     OnnxServer.run_session :=
       fun _ ort =>
         Ok (List.map (List.map (fun _ => [1; 0]%R)) (OnnxServer.ort_input_ids ort));
     OnnxServer.encode := fun _ inputs _ => Ok (List.map (fun _ => [1; 0]%R) inputs) |}.

(** The hub cannot be reached: no tokenizer can be loaded. *)
Definition lib_offline : OnnxServer.runtime unit unit unit :=
  {| OnnxServer.expanduser := expand_home;
     OnnxServer.mkdir := fun _ => Ok tt;
     OnnxServer.from_pretrained :=
       fun _ _ => Raise (Exn (OtherError "OSError") "We couldn't connect to the hub");
     OnnxServer.onnx_exists := fun _ => false;
     OnnxServer.new_sentence_transformer := fun _ _ => Ok tt;
     OnnxServer.get_sentence_embedding_dimension := fun _ => 384%Z;
     OnnxServer.new_inference_session := fun _ => Ok tt;
     OnnxServer.output_dimension := fun _ => 384%Z;
     OnnxServer.get_providers := fun _ => ["CPUExecutionProvider"];
     OnnxServer.input_names := fun _ => ["input_ids"; "attention_mask"];
     OnnxServer.run_tokenizer :=
       fun _ _ => Raise (Exn (OtherError "OSError") "no tokenizer");
     OnnxServer.run_session :=
       fun _ _ => Raise (Exn (OtherError "OSError") "no session");
     OnnxServer.encode := fun _ _ _ => Raise (Exn (OtherError "OSError") "no model") |}.

(** No ONNX file in the cache: [load_model] takes the PyTorch fallback. *)
Definition lib_fallback : OnnxServer.runtime unit unit unit := toy_runtime false.
(** The ONNX file is there. *)
Definition lib_onnx : OnnxServer.runtime unit unit unit := toy_runtime true.

(** ** Requests

    A parser for the JSON texts that are one integer, and the behaviour of
    [process_request] on such a request: [request.get] does not exist on
    an [int]. *)
Definition is_digit (c : ascii) : bool :=
  let n := nat_of_ascii c in (48 <=? n)%nat && (n <=? 57)%nat.

Fixpoint digits_value (acc : Z) (s : string) : option Z :=
  match s with
  | EmptyString => Some acc
  | String c s' =>
      if is_digit c then
        digits_value (10 * acc + Z.of_nat (nat_of_ascii c - 48)) s'
      else None
  end.

Definition loads_integer (line : string) : result Z :=
  let bad := Raise (Exn JSONDecodeError "Expecting value: line 1 column 1 (char 0)") in
  match line with
  | EmptyString => bad
  | String c rest =>
      if Ascii.eqb c "0" && truthy rest then bad
      else match digits_value 0 line with
           | Some n => Ok n
           | None => bad
           end
  end.

Definition process_integer (request : Z)
  : M (OnnxServer.server unit unit unit) OnnxServer.response :=
  raise (Exn AttributeError "'int' object has no attribute 'get'").

(** A line of a no-break space (U+00A0), a line separator (U+2028) and a
    line feed, in UTF-8. *)
Definition unicode_blank : string :=
  string_of_list_ascii
    (List.map ascii_of_nat [194; 160; 226; 128; 168; 10]%nat).

(** What the iterator of [sys.stdin] raises on a byte that is no UTF-8. *)
Definition bad_byte : exn :=
  Exn UnicodeDecodeError
      "'utf-8' codec can't decode byte 0xff in position 0: invalid start byte".

(** A parser for four JSON texts that need no quoting, the empty object,
    the empty array, [null] and integers, and [str] on the values it
    yields. *)
Definition loads_small (line : string) : result Json.json :=
  if String.eqb line "{}" then Ok (Json.JDict [])
  else if String.eqb line "[]" then Ok (Json.JList [])
  else if String.eqb line "null" then Ok Json.JNull
  else match loads_integer line with
       | Ok n => Ok (Json.JInt n)
       | Raise e => Raise e
       end.

Definition str_small (v : Json.json) : string :=
  match v with
  | Json.JNull => "None"
  | Json.JStr s => s
  | Json.JList [] => "[]"
  | Json.JDict [] => "{}"
  | _ => "?"
  end.

End Scenarios.

(* ===================================================================== *)
(** * Properties of the model loader *)
(* ===================================================================== *)

Module ModelLoaderSpec.
Import Py ModelLoader.
Local Open Scope py_scope.

(** The cache directory [get_cache_dir] resolves to, and the machine it
    leaves behind (the directory created when it was missing). *)
Definition cache_dir_of (w : world) : string :=
  match env_cache_dir w with
  | Some cache_env =>
      if truthy cache_env then path_join cache_env "models"
      else path_join (path_join (path_join (home w) ".cache") "akidb") "models"
  | None => path_join (path_join (path_join (home w) ".cache") "akidb") "models"
  end.

Definition ensure_dir (p : string) (m : gmap string (gset string))
  : gmap string (gset string) :=
  make_dirs (String.length p) p m.

Definition after_mkdir (w : world) : world :=
  set_fs (ensure_dir (cache_dir_of w)) w.

(** The completeness test of [is_model_cached] on the directory [p]. *)
Definition complete_at (m : gmap string (gset string)) (p : string) : bool :=
  match m !! p with
  | Some entries =>
      bool_decide ("config.json" ∈ entries)
      && match List.filter (fun f => endswith f ".safetensors") (elements entries)
               ++ List.filter (fun f => endswith f ".npz") (elements entries) with
         | [] => false
         | _ :: _ => true
         end
  | None => false
  end.

Ltac unfold_monad :=
  unfold bind, ret, raise, try_except, get, modify, lift in *.

Lemma get_cache_dir_eq w :
  get_cache_dir w = (after_mkdir w, Ok (cache_dir_of w)).
Proof. reflexivity. Qed.

Lemma get_model_path_eq w name :
  get_model_path (Some name) w
  = (after_mkdir w, Ok (path_join (cache_dir_of w) name)).
Proof. reflexivity. Qed.

Lemma get_model_path_none w :
  exists text, get_model_path None w = (after_mkdir w, Raise (Exn TypeError text)).
Proof. eexists. reflexivity. Qed.

(** ** Strings and paths *)

Lemma app_cons (c : ascii) (a b : string) :
  String c a +:+ b = String c (a +:+ b).
Proof. reflexivity. Qed.

Lemma app_nil (b : string) : "" +:+ b = b.
Proof. reflexivity. Qed.

Lemma prefix_app (a b : string) : String.prefix a (a +:+ b) = true.
Proof.
  induction a as [|c a IH]; rewrite ?app_cons, ?app_nil; cbn [String.prefix].
  - now destruct b.
  - destruct (ascii_dec c c) as [_|Hne]; [exact IH|congruence].
Qed.

Lemma prefix_app_cancel (a b c : string) :
  String.prefix (a +:+ b) (a +:+ c) = String.prefix b c.
Proof.
  induction a as [|x a IH]; rewrite ?app_cons, ?app_nil; cbn [String.prefix];
    [reflexivity|].
  destruct (ascii_dec x x) as [_|Hne]; [exact IH|congruence].
Qed.

Lemma prefix_length (a b : string) :
  String.prefix a b = true -> (String.length a <= String.length b)%nat.
Proof.
  revert b. induction a as [|x a IH]; intros b H; cbn [String.length]; [lia|].
  destruct b as [|y b]; cbn [String.prefix] in H; [discriminate|].
  destruct (ascii_dec x y); [|discriminate]. cbn [String.length].
  apply IH in H. lia.
Qed.

Lemma eqb_app_cancel (a b c : string) :
  String.eqb (a +:+ b) (a +:+ c) = String.eqb b c.
Proof.
  induction a as [|x a IH]; rewrite ?app_cons, ?app_nil; cbn [String.eqb];
    [reflexivity|].
  now rewrite Ascii.eqb_refl.
Qed.

Lemma length_app_string (a b : string) :
  String.length (a +:+ b) = (String.length a + String.length b)%nat.
Proof.
  induction a as [|x a IH]; rewrite ?app_cons, ?app_nil; cbn [String.length];
    [reflexivity|].
  now rewrite IH.
Qed.

Lemma app_assoc_string (a b c : string) :
  (a +:+ b) +:+ c = a +:+ (b +:+ c).
Proof.
  induction a as [|x a IH]; [reflexivity|].
  rewrite !app_cons. now rewrite IH.
Qed.


Lemma split_last_app (p d name : string) :
  split_last p = Some (d, name) -> p = d +:+ "/" +:+ name.
Proof.
  revert d. induction p as [|c p IH]; intros d; cbn [split_last]; [discriminate|].
  destruct (split_last p) as [[d' n']|].
  - intros [= <- <-]. rewrite app_cons. f_equal. now apply IH.
  - destruct (Ascii.eqb_spec c "/") as [->|_]; [|discriminate].
    intros [= <- <-]. reflexivity.
Qed.

(** The parent of a path is another path, not longer, and shorter unless
    it is the root or the current directory. *)
Lemma parent_shorter (p d name : string) :
  parent_and_name p = Some (d, name) ->
  (String.length d <= String.length p)%nat /\ d <> p /\
  (is_anchor d = false -> (String.length d < String.length p)%nat).
Proof.
  unfold parent_and_name. destruct (split_last p) as [[d' n']|] eqn:E.
  - apply split_last_app in E.
    assert (Hlen : String.length p
                   = (String.length d' + S (String.length n'))%nat).
    { subst p. rewrite !length_app_string. reflexivity. }
    clear E. unfold truthy.
    destruct n' as [|x n']; cbn [String.eqb negb]; [discriminate|].
    cbn [String.length] in Hlen.
    destruct d' as [|y d']; cbn [String.eqb negb]; intros [= <- <-];
      cbn [String.length] in *.
    + split; [lia|]. split; [intros <-; cbn [String.length] in Hlen; lia|].
      discriminate.
    + split; [lia|]. split; [intros <-; cbn [String.length] in Hlen; lia|lia].
  - destruct (truthy p && negb (String.eqb p ".")) eqn:Ep; [|discriminate].
    intros [= <- <-]. apply andb_prop in Ep as [Hp Hdot].
    apply negb_true_iff, String.eqb_neq in Hdot.
    destruct p as [|x p]; [discriminate|]. cbn [String.length].
    split; [lia|]. split; [congruence|discriminate].
Qed.

(** ** Making directories *)

Lemma make_dirs_eq (fuel : nat) (p : string) (m : gmap string (gset string)) :
  make_dirs fuel p m =
  match m !! p with
  | Some _ => m
  | None =>
      match parent_and_name p with
      | Some (d, name) =>
          <[p := ∅]>
            (add_entry d name
               (if is_anchor d then m
                else match fuel with S n => make_dirs n d m | O => m end))
      | None => <[p := ∅]> m
      end
  end.
Proof. destruct fuel; reflexivity. Qed.

Lemma make_dirs_present (fuel : nat) (p : string) (m : gmap string (gset string)) :
  is_Some (m !! p) -> make_dirs fuel p m = m.
Proof. intros [x H]. rewrite make_dirs_eq. now rewrite H. Qed.

Lemma make_dirs_new (fuel : nat) (p : string) (m : gmap string (gset string)) :
  m !! p = None -> make_dirs fuel p m !! p = Some ∅.
Proof.
  intros H. rewrite make_dirs_eq, H.
  destruct (parent_and_name p) as [[d name]|]; apply lookup_insert_eq.
Qed.

Lemma make_dirs_exists (fuel : nat) (p : string) (m : gmap string (gset string)) :
  is_Some (make_dirs fuel p m !! p).
Proof.
  destruct (m !! p) as [x|] eqn:E.
  - rewrite make_dirs_present by eauto. eauto.
  - rewrite make_dirs_new by exact E. eauto.
Qed.

Lemma add_entry_lookup_ne (d name k : string) (m : gmap string (gset string)) :
  k <> d -> add_entry d name m !! k = m !! k.
Proof.
  intros H. unfold add_entry. destruct (m !! d); [|reflexivity].
  now rewrite lookup_insert_ne by congruence.
Qed.

(** Making [p] and its parents leaves every longer path alone: what lies
    below [p], and the directories beside it that have longer names. *)
Lemma make_dirs_longer (fuel : nat) (p k : string) (m : gmap string (gset string)) :
  (String.length p < String.length k)%nat -> make_dirs fuel p m !! k = m !! k.
Proof.
  revert p. induction fuel as [|n IH]; intros p Hlen; rewrite make_dirs_eq;
    (destruct (m !! p); [reflexivity|]);
    (destruct (parent_and_name p) as [[d name]|] eqn:Ep;
       [|rewrite lookup_insert_ne by (intros ->; lia); reflexivity]);
    destruct (parent_shorter _ _ _ Ep) as (Hle & _ & Hlt);
    rewrite lookup_insert_ne by (intros ->; lia);
    rewrite add_entry_lookup_ne by (intros ->; lia);
    destruct (is_anchor d); try reflexivity.
  apply IH. lia.
Qed.



Lemma ensure_dir_idem p m : ensure_dir p (ensure_dir p m) = ensure_dir p m.
Proof. unfold ensure_dir. apply make_dirs_present, make_dirs_exists. Qed.

(** ** Removing a tree *)

Lemma below_self (p : string) : below p p = true.
Proof. unfold below. now rewrite String.eqb_refl. Qed.

Lemma remove_entry_lookup_ne (d name k : string) (m : gmap string (gset string)) :
  k <> d -> remove_entry d name m !! k = m !! k.
Proof.
  intros H. unfold remove_entry. destruct (m !! d); [|reflexivity].
  now rewrite lookup_insert_ne by congruence.
Qed.

Lemma without_tree_below (p k : string) (m : gmap string (gset string)) :
  below p k = true -> without_tree p m !! k = None.
Proof.
  intros H. unfold without_tree. apply map_lookup_filter_None. right.
  intros x _. cbn. congruence.
Qed.

Lemma filter_below_other (p k : string) (m : gmap string (gset string)) :
  below p k = false ->
  filter (fun kv : string * gset string => below p (fst kv) = false) m !! k = m !! k.
Proof.
  intros H. destruct (m !! k) as [x|] eqn:E.
  - apply map_lookup_filter_Some. split; [exact E|exact H].
  - apply map_lookup_filter_None. now left.
Qed.

(** Outside the tree only the parent of [p] changes. *)
Lemma without_tree_other (p k : string) (m : gmap string (gset string)) :
  below p k = false ->
  (forall d name, parent_and_name p = Some (d, name) -> k <> d) ->
  without_tree p m !! k = m !! k.
Proof.
  intros Hb Hd. unfold without_tree. rewrite filter_below_other by exact Hb.
  destruct (parent_and_name p) as [[d name]|]; [|reflexivity].
  apply remove_entry_lookup_ne. now apply (Hd d name).
Qed.

(** Paths longer than [p] that are not below it are left alone. *)
Lemma without_tree_longer (p k : string) (m : gmap string (gset string)) :
  below p k = false -> (String.length p < String.length k)%nat ->
  without_tree p m !! k = m !! k.
Proof.
  intros Hb Hlen. apply without_tree_other; [exact Hb|].
  intros d name Hp ->. apply parent_shorter in Hp as (Hle & _). lia.
Qed.

Lemma after_mkdir_idem w : after_mkdir (after_mkdir w) = after_mkdir w.
Proof.
  unfold after_mkdir, set_fs, cache_dir_of. simpl. now rewrite ensure_dir_idem.
Qed.

Lemma cache_dir_after_mkdir w : cache_dir_of (after_mkdir w) = cache_dir_of w.
Proof. reflexivity. Qed.

Lemma is_model_cached_eq w name :
  is_model_cached (Some name) w
  = (after_mkdir w,
     Ok (complete_at (fs (after_mkdir w)) (path_join (cache_dir_of w) name))).
Proof.
  unfold is_model_cached, bind. rewrite get_model_path_eq.
  generalize (after_mkdir w) as w1, (path_join (cache_dir_of w) name) as p.
  intros w1 p.
  unfold path_exists, complete_at, has_required, entry_exists, glob_suffix, bind, ret.
  destruct (fs w1 !! p) as [entries|] eqn:E.
  - rewrite bool_decide_true by eauto. cbn [negb]. rewrite ?E.
    destruct (bool_decide ("config.json" ∈ entries)); cbn [negb andb]; [|reflexivity].
    rewrite ?E.
    destruct (List.filter _ (elements entries) ++ List.filter _ (elements entries));
      reflexivity.
  - rewrite bool_decide_false by (intros [? ?]; discriminate). reflexivity.
Qed.

Lemma filter_nonempty_iff {A} (f : A -> bool) (l : list A) :
  List.filter f l <> [] <-> exists x, In x l /\ f x = true.
Proof.
  split.
  - destruct (List.filter f l) as [|x r] eqn:E; [congruence|].
    intros _. exists x. apply filter_In. rewrite E. now left.
  - intros (x & Hin & Hf) E.
    assert (H : In x (List.filter f l)) by (apply filter_In; auto).
    rewrite E in H. destruct H.
Qed.

Lemma complete_at_true m p :
  complete_at m p = true <->
  exists entries, m !! p = Some entries /\ "config.json" ∈ entries /\
    exists f, f ∈ entries /\
      (endswith f ".safetensors" = true \/ endswith f ".npz" = true).
Proof.
  unfold complete_at. destruct (m !! p) as [entries|]; split.
  - intros H. apply andb_prop in H as [Hc Hw].
    apply bool_decide_eq_true in Hc.
    exists entries. split; [reflexivity|]. split; [exact Hc|].
    destruct (List.filter (fun f => endswith f ".safetensors") (elements entries))
      as [|x r] eqn:E1.
    + destruct (List.filter (fun f => endswith f ".npz") (elements entries))
        as [|y r'] eqn:E2; [discriminate|].
      assert (Hy : In y (List.filter (fun f => endswith f ".npz") (elements entries)))
        by (rewrite E2; now left).
      apply filter_In in Hy as [Hin Hf]. exists y. split; [|now right].
      apply elem_of_elements, list_elem_of_In, Hin.
    + assert (Hx : In x (List.filter (fun f => endswith f ".safetensors")
                           (elements entries))) by (rewrite E1; now left).
      apply filter_In in Hx as [Hin Hf]. exists x. split; [|now left].
      apply elem_of_elements, list_elem_of_In, Hin.
  - intros (e' & He & Hc & f & Hf & Hs). injection He as <-.
    apply andb_true_intro. split; [now apply bool_decide_eq_true|].
    assert (Hin : In f (elements entries))
      by (apply list_elem_of_In, elem_of_elements, Hf).
    destruct Hs as [Hs|Hs].
    + assert (H : In f (List.filter (fun f => endswith f ".safetensors")
                          (elements entries))) by (apply filter_In; auto).
      destruct (List.filter (fun f => endswith f ".safetensors") (elements entries));
        [destruct H|reflexivity].
    + assert (H : In f (List.filter (fun f => endswith f ".npz") (elements entries)))
        by (apply filter_In; auto).
      destruct (List.filter (fun f => endswith f ".safetensors") (elements entries));
        [|reflexivity].
      simpl. destruct (List.filter (fun f => endswith f ".npz") (elements entries));
        [destruct H|reflexivity].
  - discriminate.
  - intros (e' & He & _). discriminate.
Qed.




Lemma registered_info name :
  registered name -> exists info, dict_get MODELS name = Some info.
Proof. intros [info H]. now exists info. Qed.

Lemma get_model_info_eq name info w :
  dict_get MODELS name = Some info ->
  get_model_info (Some name) w = (w, Ok info).
Proof. intros H. unfold get_model_info. now rewrite H. Qed.

(** A directory with a longer path than the cache root is as it was when
    the cache root has been made, and is incomplete when it is absent. *)
Lemma ensure_dir_longer cd m p :
  (String.length cd < String.length p)%nat -> ensure_dir cd m !! p = m !! p.
Proof. apply make_dirs_longer. Qed.

Lemma complete_at_absent cd m p :
  (String.length cd < String.length p)%nat ->
  m !! p = None -> complete_at (ensure_dir cd m) p = false.
Proof.
  intros Hlen H. unfold complete_at. now rewrite ensure_dir_longer, H.
Qed.

Lemma registered_cases (name : string) :
  registered name -> name = "qwen3-0.6b-4bit" \/ name = "gemma-300m-4bit".
Proof.
  intros [info H]. unfold MODELS in H. cbn [dict_get] in H.
  destruct (String.eqb_spec "qwen3-0.6b-4bit" name) as [<-|_]; [now left|].
  destruct (String.eqb_spec "gemma-300m-4bit" name) as [<-|_]; [now right|].
  discriminate.
Qed.

(** The directory of a registered model lies directly below the cache
    directory. *)
Lemma model_path_registered (cd name : string) :
  registered name -> path_join cd name = cd +:+ "/" +:+ name.
Proof. intros H. destruct (registered_cases name H) as [-> | ->]; reflexivity. Qed.

Lemma model_path_longer (cd name : string) :
  registered name ->
  (String.length cd < String.length (path_join cd name))%nat.
Proof.
  intros H. rewrite (model_path_registered _ _ H), !length_app_string.
  cbn [String.length]. lia.
Qed.

Section DownloadFacts.

Variable snapshot_download :
  string -> string -> gmap string (gset string) ->
  gmap string (gset string) * result string.

(** [download_model] for a registered name, call by call. *)
Lemma download_model_eq w name info force :
  dict_get MODELS name = Some info ->
  download_model snapshot_download (Some name) force w =
  let w1 := after_mkdir w in
  let p := path_join (cache_dir_of w) name in
  if negb force && complete_at (fs w1) p then (w1, Ok p)
  else
    let w2 := log_fetch (repo_id info) w1 in
    match snapshot_download (repo_id info) p (fs w2) with
    | (m, Raise e) =>
        (set_fs (fun _ => if bool_decide (is_Some (m !! p))
                          then without_tree p m else m) w2,
         Raise e)
    | (m, Ok downloaded_path) =>
        let m' := ensure_dir (cache_dir_of w) m in
        match m' !! p with
        | Some entries =>
            (set_fs (fun _ => <[p := {["akidb_metadata.json"]} ∪ entries]> m') w2,
             Ok downloaded_path)
        | None =>
            (set_fs (fun _ => m') w2,
             Raise (Exn FileNotFoundError
                      ("No such file or directory: "
                       +:+ path_join p "akidb_metadata.json")))
        end
    end.
Proof.
  intros Hinfo. unfold download_model. unfold bind at 1.
  rewrite (get_model_info_eq _ _ _ Hinfo). unfold bind at 1.
  rewrite get_model_path_eq. cbv zeta.
  assert (Hcached :
    (if negb force then is_model_cached (Some name) else ret false) (after_mkdir w)
    = (after_mkdir w,
       Ok (negb force && complete_at (fs (after_mkdir w))
                           (path_join (cache_dir_of w) name)))).
  { destruct force; [reflexivity|]. cbn [negb andb].
    rewrite is_model_cached_eq. now rewrite after_mkdir_idem. }
  unfold bind at 1. rewrite Hcached. clear Hcached.
  set (w1 := after_mkdir w). set (p := path_join (cache_dir_of w) name).
  destruct (negb force && complete_at (fs w1) p); [reflexivity|].
  unfold try_except, bind, call_snapshot_download.
  destruct (snapshot_download (repo_id info) p (fs (log_fetch (repo_id info) w1)))
    as [m [dp|e]].
  - unfold _save_model_metadata, bind. rewrite get_model_path_eq.
    unfold write_file.
    change (cache_dir_of (set_fs (fun _ => m) (log_fetch (repo_id info) w1)))
      with (cache_dir_of w).
    fold p.
    change (fs (after_mkdir (set_fs (fun _ => m) (log_fetch (repo_id info) w1))))
      with (ensure_dir (cache_dir_of w) m).
    destruct (ensure_dir (cache_dir_of w) m !! p) as [entries|] eqn:Ep.
    + reflexivity.
    + unfold path_exists, bind, ret, raise.
      change (fs (after_mkdir (set_fs (fun _ => m) (log_fetch (repo_id info) w1))))
        with (ensure_dir (cache_dir_of w) m).
      rewrite Ep. rewrite bool_decide_false by (intros [? ?]; discriminate).
      reflexivity.
  - unfold path_exists, bind, rmtree, modify, ret, raise.
    change (fs (set_fs (fun _ => m) (log_fetch (repo_id info) w1))) with m.
    destruct (bool_decide (is_Some (m !! p))); reflexivity.
Qed.


End DownloadFacts.


(** On the machines of the scenarios: with the default model complete on
    disk the call returns its directory and fetches nothing; with an
    empty cache and a fetch that writes a configuration file and a weight
    file before it fails, the call raises the error of the fetch and the
    directory is gone. *)
Example failing_fetch_is_cleaned_up :
  snd (download_model Scenarios.failing_fetch (Some "qwen3-0.6b-4bit") false
         Scenarios.w_cached) = Ok Scenarios.qwen_dir /\
  fetches (fst (download_model Scenarios.failing_fetch (Some "qwen3-0.6b-4bit") false
                  Scenarios.w_cached)) = [] /\
  exists w',
    download_model Scenarios.failing_fetch (Some "qwen3-0.6b-4bit") false
      Scenarios.w_empty
    = (w', Raise (Exn (OtherError "ConnectionError") "connection reset by peer")) /\
    fs w' !! Scenarios.qwen_dir = None /\
    fetches w' = ["mlx-community/Qwen3-Embedding-0.6B-4bit-DWQ"].
Proof.
  split; [vm_compute; reflexivity|]. split; [vm_compute; reflexivity|].
  eexists. split; [vm_compute; reflexivity|]. split; reflexivity.
Qed.

End ModelLoaderSpec.

(* ===================================================================== *)
(** * Listing, clearing and filling the cache *)
(* ===================================================================== *)

Module CacheSpec.
Import Py ModelLoader ModelLoaderSpec.
Local Open Scope py_scope.

(** ** Paths *)

Lemma below_child (cd rest : string) : below cd (cd +:+ "/" +:+ rest) = true.
Proof.
  unfold below, startswith.
  rewrite <- (app_assoc_string cd "/" rest).
  rewrite prefix_app. apply orb_true_r.
Qed.

Lemma not_below_parent (cd rest : string) : below (cd +:+ "/" +:+ rest) cd = false.
Proof.
  unfold below, startswith. apply orb_false_intro.
  - apply String.eqb_neq. intros H. apply (f_equal String.length) in H.
    rewrite !length_app_string in H. cbn [String.length] in H. lia.
  - destruct (String.prefix ((cd +:+ "/" +:+ rest) +:+ "/") cd) eqn:E; [|reflexivity].
    apply prefix_length in E. rewrite !length_app_string in E.
    cbn [String.length] in E. lia.
Qed.

(** The directories of the two registered models are not below one
    another. *)
Lemma registered_not_below (cd name other : string) :
  registered name -> registered other -> other <> name ->
  below (cd +:+ "/" +:+ name) (cd +:+ "/" +:+ other) = false.
Proof.
  intros Hn Ho Hne. unfold below, startswith.
  rewrite eqb_app_cancel.
  rewrite (app_assoc_string cd ("/" +:+ name) "/").
  rewrite prefix_app_cancel.
  destruct (registered_cases name Hn) as [-> | ->];
    destruct (registered_cases other Ho) as [-> | ->];
    try congruence; reflexivity.
Qed.

(** ** What the calls do to the store *)

Lemma cache_dir_exists (w : world) :
  is_Some (fs (after_mkdir w) !! cache_dir_of w).
Proof. apply make_dirs_exists. Qed.

Lemma ensure_dir_present (cd : string) (m : gmap string (gset string)) :
  is_Some (m !! cd) -> ensure_dir cd m = m.
Proof. apply make_dirs_present. Qed.

Lemma complete_at_ext (m m' : gmap string (gset string)) (p : string) :
  m !! p = m' !! p -> complete_at m p = complete_at m' p.
Proof. intros H. unfold complete_at. now rewrite H. Qed.

Lemma cached_among_eq (w : world) (names : list string) :
  cached_among names (after_mkdir w)
  = (after_mkdir w,
     Ok (List.filter
           (fun n => complete_at (fs (after_mkdir w)) (path_join (cache_dir_of w) n))
           names)).
Proof.
  induction names as [|n names IH]; [reflexivity|].
  cbn [cached_among List.filter]. unfold bind at 1.
  rewrite is_model_cached_eq, after_mkdir_idem, cache_dir_after_mkdir.
  unfold bind at 1. rewrite IH. unfold ret.
  destruct (complete_at _ _); reflexivity.
Qed.

Lemma list_cached_models_eq (w : world) :
  list_cached_models w
  = (after_mkdir w,
     Ok (List.filter
           (fun n => complete_at (fs (after_mkdir w)) (path_join (cache_dir_of w) n))
           (List.map fst MODELS))).
Proof.
  unfold list_cached_models, bind. rewrite get_cache_dir_eq.
  unfold path_exists. rewrite bool_decide_true by apply cache_dir_exists.
  cbn [negb]. apply cached_among_eq.
Qed.


(** ** clear_cache *)

Lemma clear_all_eq (w : world) :
  clear_all w
  = (set_fs (fun m => ensure_dir (cache_dir_of w) (without_tree (cache_dir_of w) m))
            (after_mkdir w),
     Ok tt).
Proof.
  unfold clear_all, bind. rewrite get_cache_dir_eq.
  unfold path_exists. rewrite bool_decide_true by apply cache_dir_exists.
  reflexivity.
Qed.

Lemma clear_one_eq (w : world) (name : string) :
  truthy name = true ->
  clear_cache (Some name) w
  = (set_fs (fun m => if bool_decide (is_Some (m !! path_join (cache_dir_of w) name))
                      then without_tree (path_join (cache_dir_of w) name) m else m)
            (after_mkdir w),
     Ok tt).
Proof.
  intros Ht. unfold clear_cache. rewrite Ht. unfold bind.
  rewrite get_model_path_eq. unfold path_exists.
  unfold set_fs at 1. cbn [fs].
  destruct (bool_decide (is_Some (fs (after_mkdir w) !! path_join (cache_dir_of w) name)));
    reflexivity.
Qed.

Lemma registered_length (name : string) :
  registered name -> String.length name = 15%nat.
Proof. intros H. destruct (registered_cases name H) as [-> | ->]; reflexivity. Qed.

Lemma registered_truthy (name : string) : registered name -> truthy name = true.
Proof. intros H. destruct (registered_cases name H) as [-> | ->]; reflexivity. Qed.

(** [clear_cache(name)] for a registered model: afterwards the model is
    not cached, whatever its directory held, and the other registered
    model is cached exactly if it was before; nothing is fetched. *)
Theorem clear_cache_removes_only_that_model (w : world) (name other : string) :
  registered name ->
  registered other ->
  other <> name ->
  let w' := fst (clear_cache (Some name) w) in
  snd (clear_cache (Some name) w) = Ok tt /\
  snd (is_model_cached (Some name) w') = Ok false /\
  snd (is_model_cached (Some other) w')
  = snd (is_model_cached (Some other) w) /\
  fetches w' = fetches w.
Proof.
  intros Hn Ho Hne. cbv zeta.
  rewrite (clear_one_eq w name (registered_truthy name Hn)). cbn [fst snd].
  rewrite !is_model_cached_eq. cbn [snd].
  change (cache_dir_of (set_fs _ (after_mkdir w))) with (cache_dir_of w).
  pose proof (model_path_longer (cache_dir_of w) name Hn) as Hlong.
  pose proof (model_path_longer (cache_dir_of w) other Ho) as Hlong2.
  assert (Hsame : String.length (path_join (cache_dir_of w) other)
                  = String.length (path_join (cache_dir_of w) name)).
  { rewrite !model_path_registered, !length_app_string by assumption.
    now rewrite (registered_length name Hn), (registered_length other Ho). }
  assert (Hlen2 : (2 <= String.length (path_join (cache_dir_of w) other))%nat).
  { rewrite model_path_registered, !length_app_string by assumption.
    rewrite (registered_length other Ho). lia. }
  assert (Hnb : below (path_join (cache_dir_of w) name)
                      (path_join (cache_dir_of w) other) = false).
  { rewrite !model_path_registered by assumption. now apply registered_not_below. }
  set (cd := cache_dir_of w) in *. set (p := path_join cd name) in *.
  set (p2 := path_join cd other) in *.
  set (m1 := fs (after_mkdir w)).
  change (fs (after_mkdir (set_fs
            (fun m => if bool_decide (is_Some (m !! p)) then without_tree p m else m)
            (after_mkdir w))))
    with (ensure_dir cd (if bool_decide (is_Some (m1 !! p))
                         then without_tree p m1 else m1)).
  split; [reflexivity|]. split; [|split; [|reflexivity]].
  - f_equal. apply complete_at_absent; [exact Hlong|].
    destruct (bool_decide (is_Some (m1 !! p))) eqn:E.
    + apply without_tree_below, below_self.
    + apply bool_decide_eq_false in E. destruct (m1 !! p) eqn:E'; [|reflexivity].
      exfalso. apply E. eauto.
  - f_equal. apply complete_at_ext. rewrite ensure_dir_longer by exact Hlong2.
    destruct (bool_decide (is_Some (m1 !! p))); [|reflexivity].
    apply without_tree_other; [exact Hnb|].
    intros d n Hp Heq. apply parent_shorter in Hp as (Hle & _ & Hlt).
    subst d. destruct (is_anchor p2) eqn:Ea; [|specialize (Hlt eq_refl); lia].
    apply orb_prop in Ea as [Ea|Ea]; apply String.eqb_eq in Ea;
      rewrite Ea in Hlen2; cbn [String.length] in Hlen2; lia.
Qed.

Lemma clear_cache_removes_only_that_model_witness :
  registered "qwen3-0.6b-4bit" /\ registered "gemma-300m-4bit" /\
  snd (is_model_cached (Some "qwen3-0.6b-4bit")
         (fst (clear_cache (Some "qwen3-0.6b-4bit") Scenarios.w_cached)))
  = Ok false.
Proof.
  assert (Hq : registered "qwen3-0.6b-4bit") by (eexists; reflexivity).
  assert (Hg : registered "gemma-300m-4bit") by (eexists; reflexivity).
  split; [exact Hq|]. split; [exact Hg|].
  exact (proj1 (proj2 (clear_cache_removes_only_that_model Scenarios.w_cached
                         "qwen3-0.6b-4bit" "gemma-300m-4bit" Hq Hg
                         ltac:(discriminate)))).
Defined.

(** [clear_cache()] and [clear_cache("")] are the same call: the empty
    name is falsy.  Afterwards the cache root exists and is empty, no
    registered model is cached and [list_cached_models] returns the empty
    list; nothing is fetched. *)
Theorem clear_cache_without_a_name_empties_the_cache (w : world) :
  let w' := fst (clear_cache None w) in
  clear_cache (Some "") w = clear_cache None w /\
  snd (clear_cache None w) = Ok tt /\
  (exists root,
     snd (get_cache_dir w) = Ok root /\ fs w' !! root = Some ∅) /\
  (forall name,
     registered name -> snd (is_model_cached (Some name) w') = Ok false) /\
  snd (list_cached_models w') = Ok [] /\
  fetches w' = fetches w.
Proof.
  cbv zeta. split; [reflexivity|].
  change (clear_cache None w) with (clear_all w). rewrite clear_all_eq.
  cbn [fst snd]. split; [reflexivity|].
  set (cd := cache_dir_of w). set (m1 := fs (after_mkdir w)).
  set (w' := set_fs (fun m => ensure_dir cd (without_tree cd m)) (after_mkdir w)).
  assert (Hroot : fs w' !! cd = Some ∅).
  { subst w'. cbn [fs set_fs]. fold m1.
    apply make_dirs_new, without_tree_below, below_self. }
  assert (Hafter : fs (after_mkdir w') = fs w').
  { change (fs (after_mkdir w')) with (ensure_dir cd (fs w')).
    apply ensure_dir_present. rewrite Hroot. eauto. }
  assert (Hnone : forall name, registered name ->
            complete_at (fs (after_mkdir w')) (path_join cd name) = false).
  { intros name Hreg. rewrite Hafter. subst w'. cbn [fs set_fs]. fold m1.
    apply complete_at_absent; [now apply model_path_longer|].
    rewrite (model_path_registered _ _ Hreg).
    apply without_tree_below, below_child. }
  split. { exists cd. split; [reflexivity|exact Hroot]. }
  split. { intros name Hreg. rewrite is_model_cached_eq. cbn [snd]. f_equal.
           now apply Hnone. }
  split; [|reflexivity].
  rewrite list_cached_models_eq. cbn [snd]. f_equal.
  change (cache_dir_of w') with cd. cbn [List.map MODELS fst List.filter].
  rewrite !Hnone by (eexists; reflexivity). reflexivity.
Qed.

(** ** download_model beyond the cached case *)

Section DownloadMore.

Variable snapshot_download :
  string -> string -> gmap string (gset string) ->
  gmap string (gset string) * result string.

Lemma model_path_not_root (cd name : string) :
  registered name -> path_join cd name <> cd.
Proof.
  intros Hreg H. rewrite (model_path_registered _ _ Hreg) in H.
  apply (f_equal String.length) in H.
  rewrite length_app_string, app_cons in H. cbn [String.length] in H. lia.
Qed.

(** A download that works: when the model must be fetched (forced, or not
    cached) and the fetch returns after writing a configuration file and a
    weight file into the model directory, [download_model] returns the
    path the fetch returned, has fetched once, has added
    [akidb_metadata.json] to the directory and kept what the fetch wrote,
    and [is_model_cached] answers [True] afterwards. *)
Theorem download_model_success_is_cached
  (w : world) (name : string) (force : bool) (info : model_info)
  (model_path downloaded_path weight : string)
  (m : gmap string (gset string)) (entries : gset string) :
  dict_get MODELS name = Some info ->
  force = true \/ snd (is_model_cached (Some name) w) = Ok false ->
  snd (get_model_path (Some name) w) = Ok model_path ->
  snapshot_download (repo_id info) model_path
    (fs (fst (get_model_path (Some name) w))) = (m, Ok downloaded_path) ->
  m !! model_path = Some entries ->
  "config.json" ∈ entries ->
  weight ∈ entries ->
  endswith weight ".safetensors" = true \/ endswith weight ".npz" = true ->
  let w' := fst (download_model snapshot_download (Some name) force w) in
  snd (download_model snapshot_download (Some name) force w) = Ok downloaded_path /\
  fetches w' = repo_id info :: fetches w /\
  fs w' !! model_path = Some ({["akidb_metadata.json"]} ∪ entries) /\
  snd (is_model_cached (Some name) w') = Ok true.
Proof.
  intros Hinfo Hslow Hpath Hfetch Hm Hcfg Hw Hext. cbv zeta.
  assert (Hreg : registered name) by (unfold registered; rewrite Hinfo; eauto).
  rewrite get_model_path_eq in Hpath, Hfetch. cbn [fst snd] in Hpath, Hfetch.
  injection Hpath as <-.
  rewrite (download_model_eq snapshot_download w name info force Hinfo). cbv zeta.
  set (cd := cache_dir_of w) in *. set (p := path_join cd name) in *.
  set (w1 := after_mkdir w) in *.
  assert (Hno : negb force && complete_at (fs w1) p = false).
  { destruct Hslow as [-> | Hc]; [reflexivity|].
    rewrite is_model_cached_eq in Hc. cbn [snd] in Hc. injection Hc as Hc.
    change (complete_at (fs w1) p = false) in Hc. rewrite Hc. apply andb_false_r. }
  rewrite Hno. change (fs (log_fetch (repo_id info) w1)) with (fs w1).
  rewrite Hfetch.
  pose proof (model_path_longer cd name Hreg) as Hlong. fold p in Hlong.
  assert (Hm' : ensure_dir cd m !! p = Some entries).
  { now rewrite ensure_dir_longer by exact Hlong. }
  rewrite Hm'. cbn [fst snd fetches set_fs log_fetch fs].
  split; [reflexivity|]. split; [reflexivity|].
  split; [apply lookup_insert_eq|].
  rewrite is_model_cached_eq. cbn [snd]. f_equal.
  apply complete_at_true.
  exists ({["akidb_metadata.json"]} ∪ entries). split.
  - change (ensure_dir cd (<[p := {["akidb_metadata.json"]} ∪ entries]> (ensure_dir cd m))
            !! p = Some ({["akidb_metadata.json"]} ∪ entries)).
    rewrite ensure_dir_longer by exact Hlong. apply lookup_insert_eq.
  - split; [apply elem_of_union; now right|].
    exists weight. split; [apply elem_of_union; now right|exact Hext].
Qed.

(** A name the registry does not list is refused with a [ValueError]
    before anything else happens: no directory is created and nothing is
    fetched, forced or not. *)
Theorem download_model_refuses_unknown_names
  (w : world) (name : string) (force : bool) :
  ~ registered name ->
  exists text,
    download_model snapshot_download (Some name) force w
    = (w, Raise (Exn ValueError text)).
Proof.
  intros Hno. unfold download_model, bind, get_model_info.
  destruct (dict_get MODELS name) as [info|] eqn:E.
  - exfalso. apply Hno. unfold registered. rewrite E. eauto.
  - eexists. reflexivity.
Qed.

(** A forced download fetches the repository of the model exactly once,
    whether the model is cached or not and whether the fetch works or
    not. *)
Theorem download_model_force_always_fetches
  (w : world) (name : string) (info : model_info) :
  dict_get MODELS name = Some info ->
  fetches (fst (download_model snapshot_download (Some name) true w))
  = repo_id info :: fetches w.
Proof.
  intros Hinfo.
  rewrite (download_model_eq snapshot_download w name info true Hinfo).
  cbv zeta. cbn [negb andb].
  destruct (snapshot_download _ _ _) as [m [dp|e]]; [|reflexivity].
  destruct (ensure_dir _ m !! _); reflexivity.
Qed.

End DownloadMore.

Lemma download_model_success_is_cached_witness :
  snd (download_model Scenarios.working_fetch (Some "qwen3-0.6b-4bit") false
         Scenarios.w_empty) = Ok Scenarios.qwen_dir /\
  snd (is_model_cached (Some "qwen3-0.6b-4bit")
         (fst (download_model Scenarios.working_fetch (Some "qwen3-0.6b-4bit") false
                 Scenarios.w_empty))) = Ok true.
Proof.
  pose proof (download_model_success_is_cached Scenarios.working_fetch
                Scenarios.w_empty "qwen3-0.6b-4bit" false
                (ModelInfo "mlx-community/Qwen3-Embedding-0.6B-4bit-DWQ" 1024 512
                   "Qwen3 Embedding 0.6B quantized to 4-bit (default)" 600)
                Scenarios.qwen_dir Scenarios.qwen_dir "model.safetensors"
                (<[Scenarios.qwen_dir := {[ "config.json"; "model.safetensors" ]}]>
                   (fs (fst (get_model_path (Some "qwen3-0.6b-4bit") Scenarios.w_empty))))
                {[ "config.json"; "model.safetensors" ]}
                eq_refl (or_intror eq_refl) eq_refl eq_refl) as H.
  cbv zeta in H.
  destruct H as (H1 & _ & _ & H4).
  - apply lookup_insert_eq.
  - set_solver.
  - set_solver.
  - now left.
  - split; [exact H1|exact H4].
Defined.

Lemma download_model_refuses_unknown_names_witness :
  ~ registered "my-model" /\
  exists text,
    download_model Scenarios.failing_fetch (Some "my-model") true Scenarios.w_custom
    = (Scenarios.w_custom, Raise (Exn ValueError text)).
Proof.
  assert (H : ~ registered "my-model") by (intros [x Hx]; discriminate).
  split; [exact H|].
  exact (download_model_refuses_unknown_names Scenarios.failing_fetch
           Scenarios.w_custom "my-model" true H).
Defined.

Lemma download_model_force_always_fetches_witness :
  fetches (fst (download_model Scenarios.failing_fetch (Some "qwen3-0.6b-4bit") true
                  Scenarios.w_cached))
  = ["mlx-community/Qwen3-Embedding-0.6B-4bit-DWQ"].
Proof.
  exact (download_model_force_always_fetches Scenarios.failing_fetch
           Scenarios.w_cached "qwen3-0.6b-4bit" _ eq_refl).
Defined.

(** ** get_cache_dir *)




(** On a machine without any directory the default cache directory is
    made with its four parents, each listing the next. *)
Example get_cache_dir_on_an_empty_machine :
  fs (fst (get_cache_dir Scenarios.w_empty))
  = {[ "/home" := {[ "aki" ]};
       "/home/aki" := {[ ".cache" ]};
       "/home/aki/.cache" := {[ "akidb" ]};
       "/home/aki/.cache/akidb" := {[ "models" ]};
       "/home/aki/.cache/akidb/models" := ∅ ]}.
Proof. vm_compute. reflexivity. Qed.

End CacheSpec.

(* ===================================================================== *)
(** * Pooling and normalisation, as the specification words them *)
(* ===================================================================== *)

Module PoolingSpec.
Import Py Arrays.

(** The hidden vectors at the positions where the mask is 1. *)
Definition selected_rows (hidden : matrix) (mask : list Z) : matrix :=
  List.map fst (List.filter (fun hm => Z.eqb (snd hm) 1) (zip hidden mask)).

(** Mean pooling in the words of the specification: the sum of the
    selected hidden vectors over their number, the divisor clamped to a
    minimum of [1e-9]. *)
Definition spec_mean_row (hidden : matrix) (mask : list Z) : vector :=
  let rows := selected_rows hidden mask in
  List.map (fun x => (x / Rmax (INR (length rows)) 1e-9)%R)
           (sum_rows (width hidden) rows).

(** The arrays of one sequence fit the documented shapes: one mask entry
    per position, hidden vectors of one size, a mask of zeros and ones. *)
Definition well_shaped (hidden : matrix) (mask : list Z) : Prop :=
  length mask = length hidden /\
  Forall (fun h => length h = width hidden) hidden /\
  Forall (fun m => m = 0%Z \/ m = 1%Z) mask.

Lemma broadcast_same {A B C} (f : A -> B -> C) (xs : list A) (ys : list B) :
  length xs = length ys -> broadcast f xs ys = zip_with f xs ys.
Proof. intros H. unfold broadcast. now rewrite H, Nat.eqb_refl. Qed.

Lemma broadcastable_refl (n : nat) : broadcastable n n = true.
Proof. unfold broadcastable. now rewrite Nat.eqb_refl. Qed.

(** Arrays of the documented shapes broadcast. *)
Lemma well_shaped_broadcast (hidden_states : tensor3) (attention_mask : list (list Z)) :
  Forall2 well_shaped hidden_states attention_mask ->
  length hidden_states = length attention_mask /\
  shapes_broadcast (shape2 hidden_states) (shape2 attention_mask) = true.
Proof.
  intros H. pose proof (Forall2_length _ _ _ H) as Hlen. split; [exact Hlen|].
  unfold shapes_broadcast, shape2. cbn [fst snd]. rewrite Hlen, broadcastable_refl.
  destruct H as [|hidden mask hs ms (Hl & _) _]; cbn [hd andb].
  - apply broadcastable_refl.
  - rewrite Hl. apply broadcastable_refl.
Qed.

Lemma vadd_zeros_l (v : vector) : vadd (zeros (length v)) v = v.
Proof.
  induction v as [|x v IH]; [reflexivity|].
  cbn. unfold vadd, zeros in IH. rewrite IH. f_equal. lra.
Qed.

Lemma vadd_length (n : nat) (u v : vector) :
  length u = n -> length v = n -> length (vadd u v) = n.
Proof.
  intros Hu Hv. unfold vadd. rewrite length_zip_with_l_eq; congruence.
Qed.

Lemma sum_rows_length (h : nat) (rows : matrix) :
  Forall (fun r => length r = h) rows -> length (sum_rows h rows) = h.
Proof.
  induction 1 as [|r rows Hr _ IH]; cbn.
  - apply repeat_length.
  - now apply vadd_length.
Qed.

Lemma map_times_0 (v : vector) :
  List.map (fun x => (x * 0)%R) v = zeros (length v).
Proof.
  induction v as [|x v IH]; [reflexivity|]. cbn. rewrite IH. f_equal. lra.
Qed.

Lemma map_times_1 (v : vector) : List.map (fun x => (x * 1)%R) v = v.
Proof.
  induction v as [|x v IH]; [reflexivity|]. cbn. rewrite IH. f_equal. lra.
Qed.

Lemma sum_rows_cons (h : nat) (r : vector) (rows : matrix) :
  sum_rows h (r :: rows) = vadd r (sum_rows h rows).
Proof. reflexivity. Qed.

Lemma selected_rows_cons (r : vector) (hidden : matrix) (m : Z) (mask : list Z) :
  selected_rows (r :: hidden) (m :: mask)
  = if (m =? 1)%Z then r :: selected_rows hidden mask
    else selected_rows hidden mask.
Proof. unfold selected_rows. cbn. now destruct (m =? 1)%Z. Qed.

Lemma selected_rows_length (h : nat) (hidden : matrix) (mask : list Z) :
  Forall (fun r => length r = h) hidden ->
  Forall (fun r => length r = h) (selected_rows hidden mask).
Proof.
  intros H. revert mask. induction H as [|r hidden Hr _ IH]; intros mask.
  - destruct mask; constructor.
  - destruct mask as [|m mask]; [constructor|].
    rewrite selected_rows_cons. destruct (m =? 1)%Z.
    + constructor; [exact Hr|apply IH].
    + apply IH.
Qed.

(** Multiplying by a mask of zeros and ones and summing is summing the
    selected rows. *)
Lemma masked_sum (h : nat) (hidden : matrix) (mask : list Z) :
  Forall (fun r => length r = h) hidden ->
  Forall (fun m => m = 0%Z \/ m = 1%Z) mask ->
  sum_rows h (zip_with (fun r m => List.map (fun x => (x * m)%R) r) hidden
                       (List.map IZR mask))
  = sum_rows h (selected_rows hidden mask).
Proof.
  intros Hh. revert mask. induction Hh as [|r hidden Hr Hrest IH]; intros mask Hm.
  - destruct mask; reflexivity.
  - destruct mask as [|m mask]; [reflexivity|].
    apply Forall_cons in Hm as [Hm0 Hm'].
    cbn [zip_with List.map]. rewrite sum_rows_cons, selected_rows_cons.
    rewrite (IH mask Hm').
    destruct Hm0 as [-> | ->].
    + change (0 =? 1)%Z with false. cbv iota.
      rewrite map_times_0, Hr.
      rewrite <- (sum_rows_length h (selected_rows hidden mask)) at 1.
      * apply vadd_zeros_l.
      * now apply selected_rows_length.
    + change (1 =? 1)%Z with true. cbv iota.
      now rewrite map_times_1, sum_rows_cons.
Qed.

(** The sum of a mask of zeros and ones counts the selected positions. *)
Lemma mask_sum_counts (hidden : matrix) (mask : list Z) :
  length mask = length hidden ->
  Forall (fun m => m = 0%Z \/ m = 1%Z) mask ->
  sum_list (List.map IZR mask) = INR (length (selected_rows hidden mask)).
Proof.
  revert hidden. induction mask as [|m mask IH]; intros hidden Hlen Hm.
  - destruct hidden; reflexivity.
  - destruct hidden as [|r hidden]; [discriminate|].
    apply Forall_cons in Hm as [Hm0 Hm'].
    injection Hlen as Hlen.
    rewrite selected_rows_cons. cbn [List.map]. unfold sum_list. cbn [fold_right].
    fold (sum_list (List.map IZR mask)). rewrite (IH hidden Hlen Hm').
    destruct Hm0 as [-> | ->].
    + change (0 =? 1)%Z with false. cbv iota. lra.
    + change (1 =? 1)%Z with true. cbv iota. cbn [length]. rewrite S_INR. lra.
Qed.

Lemma sum_list_IZR (mask : list Z) :
  IZR (fold_right Z.add 0%Z mask) = sum_list (List.map IZR mask).
Proof.
  induction mask as [|m mask IH]; [reflexivity|].
  cbn. rewrite plus_IZR, IH. reflexivity.
Qed.

Lemma selected_rows_all_zero (hidden : matrix) (mask : list Z) :
  Forall (fun m => m = 0%Z) mask -> selected_rows hidden mask = [].
Proof.
  intros H. revert hidden. induction H as [|m mask -> _ IH]; intros hidden.
  - destruct hidden; reflexivity.
  - destruct hidden as [|r hidden]; [reflexivity|].
    rewrite selected_rows_cons. change (0 =? 1)%Z with false. apply IH.
Qed.

Lemma map_div_zeros (n : nat) (d : R) :
  (0 < d)%R -> List.map (fun x => (x / d)%R) (zeros n) = zeros n.
Proof.
  intros Hd. induction n as [|n IH]; [reflexivity|].
  cbn. unfold zeros in IH. rewrite IH. f_equal. field. lra.
Qed.

(** ** The Euclidean norm *)

Abbreviation norm := MlxInference.l2_norm.

Lemma sum_squares_nonneg (v : vector) :
  (0 <= sum_list (List.map (fun x => (x ^ 2)%R) v))%R.
Proof.
  unfold sum_list. induction v as [|x v IH]; cbn [List.map fold_right]; [lra|].
  pose proof (pow2_ge_0 x). lra.
Qed.

Lemma norm_nonneg (v : vector) : (0 <= norm v)%R.
Proof. apply sqrt_pos. Qed.

Lemma norm_zeros (n : nat) : norm (zeros n) = 0%R.
Proof.
  unfold MlxInference.l2_norm.
  replace (sum_list (List.map (fun x => (x ^ 2)%R) (zeros n))) with 0%R;
    [apply sqrt_0|].
  unfold sum_list. induction n as [|n IH]; cbn [zeros repeat List.map fold_right];
    [reflexivity|]. unfold zeros in IH. rewrite <- IH. lra.
Qed.

Lemma sum_squares_scaled (v : vector) (c : R) :
  (0 < c)%R ->
  sum_list (List.map (fun x => (x ^ 2)%R) (List.map (fun x => (x / c)%R) v))
  = (sum_list (List.map (fun x => (x ^ 2)%R) v) / (c ^ 2))%R.
Proof.
  intros Hc. induction v as [|x v IH]; cbn [List.map sum_list fold_right].
  - field. lra.
  - unfold sum_list in IH. rewrite IH. field. lra.
Qed.

(** Dividing a vector by a positive number divides its norm. *)
Lemma norm_scaled (v : vector) (c : R) :
  (0 < c)%R -> norm (List.map (fun x => (x / c)%R) v) = (norm v / c)%R.
Proof.
  intros Hc. unfold MlxInference.l2_norm. rewrite (sum_squares_scaled v c Hc).
  rewrite sqrt_div_alt by nra.
  rewrite sqrt_pow2 by lra. reflexivity.
Qed.

End PoolingSpec.

(* ===================================================================== *)
(** * Properties of the MLX inference engine *)
(* ===================================================================== *)

Module MlxInferenceSpec.
Import Py Arrays MlxInference PoolingSpec.
Local Open Scope py_scope.

(** ** Tokenization *)

Lemma py_repeat_length {A} (x : A) (n : Z) :
  length (py_repeat x n) = Z.to_nat n.
Proof. unfold py_repeat. apply repeat_length. Qed.

(** What [tokenize_row] computes, case by case, for a length that is not
    negative. *)
Lemma tokenize_row_cases (pad max_length : Z) (token_ids : list Z) :
  (0 <= max_length)%Z ->
  let seq_len := Z.of_nat (length token_ids) in
  ((seq_len > max_length)%Z ->
   tokenize_row pad max_length token_ids
   = (firstn (Z.to_nat max_length) token_ids, repeat 1%Z (Z.to_nat max_length)))
  /\
  ((seq_len <= max_length)%Z ->
   tokenize_row pad max_length token_ids
   = (token_ids ++ repeat pad (Z.to_nat (max_length - seq_len)),
      repeat 1%Z (length token_ids) ++ repeat 0%Z (Z.to_nat (max_length - seq_len)))).
Proof.
  intros Hnn seq_len. unfold tokenize_row. fold seq_len. split; intros H.
  - destruct (seq_len >? max_length)%Z eqn:E; [|lia].
    unfold py_take, py_repeat. destruct (0 <=? max_length)%Z eqn:E0; [reflexivity|lia].
  - destruct (seq_len >? max_length)%Z eqn:E; [lia|].
    unfold py_repeat. destruct (max_length - seq_len >? 0)%Z eqn:Ep.
    + subst seq_len. now rewrite Nat2Z.id.
    + assert (max_length = seq_len) as -> by lia.
      rewrite Z.sub_diag. cbn [Z.to_nat repeat]. rewrite !app_nil_r.
      subst seq_len. now rewrite Nat2Z.id.
Qed.

Lemma tokenize_row_lengths (pad max_length : Z) (token_ids : list Z) :
  (0 <= max_length)%Z ->
  length (fst (tokenize_row pad max_length token_ids)) = Z.to_nat max_length /\
  length (snd (tokenize_row pad max_length token_ids)) = Z.to_nat max_length.
Proof.
  intros Hnn.
  destruct (tokenize_row_cases pad max_length token_ids Hnn) as [Hlong Hshort].
  destruct (Z_gt_le_dec (Z.of_nat (length token_ids)) max_length) as [H|H].
  - rewrite (Hlong H). cbn [fst snd].
    rewrite length_firstn, repeat_length. lia.
  - rewrite (Hshort H). cbn [fst snd].
    rewrite !length_app, !repeat_length. lia.
Qed.

(** [mx.array] accepts rows of one common length. *)
Lemma mx_array_uniform (n : nat) (rows : list (list Z)) :
  Forall (fun r => length r = n) rows -> mx_array rows = Ok rows.
Proof.
  intros H. unfold mx_array. destruct rows as [|r rest]; [reflexivity|].
  inversion H as [|? ? Hr Hrest]; subst.
  assert (E : forallb (fun r' => Nat.eqb (length r') (length r)) rest = true).
  { apply forallb_forall. intros r' Hin. apply Nat.eqb_eq.
    rewrite Forall_forall in Hrest. apply Hrest. now apply list_elem_of_In. }
  now rewrite E.
Qed.

Lemma tokenize_eq (self : MLXEmbeddingModel) (texts : list string) (max_length : Z) :
  (0 <= max_length)%Z ->
  tokenize self texts max_length
  = Ok (TokenBatch
          (List.map (fun t => fst (tokenize_row (eos_token_id self) max_length
                                     (tokenizer_encode self t))) texts)
          (List.map (fun t => snd (tokenize_row (eos_token_id self) max_length
                                     (tokenizer_encode self t))) texts)).
Proof.
  intros Hnn. unfold tokenize. rewrite !List.map_map.
  rewrite (mx_array_uniform (Z.to_nat max_length)).
  2:{ apply Forall_forall. intros r Hr. apply list_elem_of_In, in_map_iff in Hr.
      destruct Hr as (t & <- & _). now apply tokenize_row_lengths. }
  cbn [and_then].
  rewrite (mx_array_uniform (Z.to_nat max_length)).
  2:{ apply Forall_forall. intros r Hr. apply list_elem_of_In, in_map_iff in Hr.
      destruct Hr as (t & <- & _). now apply tokenize_row_lengths. }
  reflexivity.
Qed.



Example tokenize_hi_hello :
  tokenize Scenarios.toy_model ["hi"; "hello"] 4
  = Ok (TokenBatch [[104; 105; 0; 0]; [104; 101; 108; 108]]
                   [[1; 1; 0; 0]; [1; 1; 1; 1]])%Z.
Proof. reflexivity. Qed.

(** A negative maximum length is outside the theorem: the rows come out
    with different lengths and the array is refused. *)
Example tokenize_negative_length :
  is_ok (tokenize Scenarios.toy_model ["hi"; "hello"] (-1)) = false.
Proof. reflexivity. Qed.

(** ** Mean pooling *)

Lemma mean_pooling_row_spec (hidden : matrix) (mask : list Z) :
  well_shaped hidden mask ->
  mean_pooling_row hidden mask = spec_mean_row hidden mask.
Proof.
  intros (Hlen & Hh & Hm). unfold mean_pooling_row, spec_mean_row. cbv zeta.
  rewrite broadcast_same by (rewrite length_map; congruence).
  rewrite (masked_sum (width hidden) hidden mask Hh Hm).
  now rewrite (mask_sum_counts hidden mask Hlen Hm).
Qed.

Lemma onnx_mean_pooling_row_spec (hidden : matrix) (mask : list Z) :
  well_shaped hidden mask ->
  OnnxServer.mean_pooling_row hidden mask = spec_mean_row hidden mask.
Proof.
  intros Hw. rewrite <- (mean_pooling_row_spec hidden mask Hw).
  destruct Hw as (Hlen & _).
  unfold OnnxServer.mean_pooling_row, mean_pooling_row. cbv zeta.
  rewrite !broadcast_same by (rewrite ?length_map; congruence).
  rewrite sum_list_IZR. change List.map with (@fmap list _).
  now rewrite zip_with_fmap_r.
Qed.

Lemma divisor_positive (x : R) : (0 < Rmax x 1e-9)%R.
Proof. pose proof (Rmax_r x 1e-9). lra. Qed.

Lemma spec_mean_row_all_masked (hidden : matrix) (mask : list Z) :
  Forall (fun m => m = 0%Z) mask ->
  spec_mean_row hidden mask = zeros (width hidden).
Proof.
  intros H. unfold spec_mean_row. cbv zeta.
  rewrite (selected_rows_all_zero hidden mask H).
  apply map_div_zeros, divisor_positive.
Qed.

Lemma zip_with_spec_rows (hidden_states : tensor3) (attention_mask : list (list Z)) :
  Forall2 well_shaped hidden_states attention_mask ->
  zip_with mean_pooling_row hidden_states attention_mask
  = zip_with spec_mean_row hidden_states attention_mask /\
  zip_with OnnxServer.mean_pooling_row hidden_states attention_mask
  = zip_with spec_mean_row hidden_states attention_mask.
Proof.
  induction 1 as [|hidden mask hs ms Hw _ [IH1 IH2]]; [split; reflexivity|].
  cbn [zip_with].
  now rewrite IH1, IH2, (mean_pooling_row_spec hidden mask Hw),
    (onnx_mean_pooling_row_spec hidden mask Hw).
Qed.

(** C1: on arrays of the documented shapes with a mask of zeros and
    ones, mean pooling, in [_mean_pooling] and in [embed_batch] alike,
    returns and gives for every row the sum of the hidden vectors at the
    positions where the mask is 1 divided by their number clamped to a
    minimum of [1e-9]; the divisor is positive whatever the mask, and a
    row whose mask is all zeros gives the zero vector. *)
Theorem mean_pooling_is_the_masked_mean
  (hidden_states : tensor3) (attention_mask : list (list Z)) :
  Forall2 well_shaped hidden_states attention_mask ->
  _mean_pooling hidden_states attention_mask
  = Ok (zip_with spec_mean_row hidden_states attention_mask) /\
  OnnxServer.mean_pooling hidden_states attention_mask
  = Ok (zip_with spec_mean_row hidden_states attention_mask) /\
  (forall mask : list Z,
     (0 < Rmax (sum_list (List.map IZR mask)) 1e-9)%R /\
     (0 < Rmax (IZR (fold_right Z.add 0%Z mask)) 1e-9)%R) /\
  (forall (b : nat) (hidden : matrix) (mask : list Z),
     hidden_states !! b = Some hidden ->
     attention_mask !! b = Some mask ->
     Forall (fun m => m = 0%Z) mask ->
     exists pooled,
       _mean_pooling hidden_states attention_mask = Ok pooled /\
       OnnxServer.mean_pooling hidden_states attention_mask = Ok pooled /\
       pooled !! b = Some (zeros (width hidden))).
Proof.
  intros Hshape.
  destruct (well_shaped_broadcast _ _ Hshape) as [Hlen Hbc].
  destruct (zip_with_spec_rows _ _ Hshape) as [Hrows Hrows'].
  assert (Hmlx : _mean_pooling hidden_states attention_mask
                 = Ok (zip_with spec_mean_row hidden_states attention_mask)).
  { unfold _mean_pooling. rewrite Hbc, broadcast_same by exact Hlen.
    now rewrite Hrows. }
  assert (Honnx : OnnxServer.mean_pooling hidden_states attention_mask
                  = Ok (zip_with spec_mean_row hidden_states attention_mask)).
  { unfold OnnxServer.mean_pooling. rewrite Hbc, broadcast_same by exact Hlen.
    now rewrite Hrows'. }
  split; [exact Hmlx|]. split; [exact Honnx|].
  split. { intros mask. split; apply divisor_positive. }
  intros b hidden mask Hh Hm Hzero.
  eexists. split; [exact Hmlx|]. split; [exact Honnx|].
  rewrite lookup_zip_with, Hh. cbn. rewrite Hm. cbn.
  now rewrite (spec_mean_row_all_masked hidden mask Hzero).
Qed.

(** The theorem at work: one sequence of three positions whose last one
    is padding, and one sequence that is all padding. *)
Lemma mean_pooling_is_the_masked_mean_witness :
  Forall2 well_shaped
    [ [[1; 2]; [3; 4]; [5; 6]]; [[1; 2]; [3; 4]; [5; 6]] ]%R
    [ [1; 1; 0]; [0; 0; 0] ]%Z /\
  exists pooled,
    _mean_pooling
      [ [[1; 2]; [3; 4]; [5; 6]]; [[1; 2]; [3; 4]; [5; 6]] ]%R
      [ [1; 1; 0]; [0; 0; 0] ]%Z = Ok pooled /\
    pooled !! 1%nat = Some [0; 0]%R.
Proof.
  assert (H : Forall2 well_shaped
                [ [[1; 2]; [3; 4]; [5; 6]]; [[1; 2]; [3; 4]; [5; 6]] ]%R
                [ [1; 1; 0]; [0; 0; 0] ]%Z).
  { assert (Hvec : Forall (fun h : vector => length h = 2%nat)
                     [[1; 2]; [3; 4]; [5; 6]]%R).
    { apply Forall_cons; split; [reflexivity|].
      apply Forall_cons; split; [reflexivity|].
      apply Forall_cons; split; [reflexivity|]. apply Forall_nil_2. }
    apply Forall2_cons; split.
    { split; [reflexivity|]. split; [exact Hvec|].
      apply Forall_cons; split; [now right|].
      apply Forall_cons; split; [now right|].
      apply Forall_cons; split; [now left|]. apply Forall_nil_2. }
    apply Forall2_cons; split; [|apply Forall2_nil_2].
    split; [reflexivity|]. split; [exact Hvec|].
    apply Forall_cons; split; [now left|].
    apply Forall_cons; split; [now left|].
    apply Forall_cons; split; [now left|]. apply Forall_nil_2. }
  split; [exact H|].
  destruct (mean_pooling_is_the_masked_mean _ _ H) as (_ & _ & _ & Hzero).
  destruct (Hzero 1%nat [[1; 2]; [3; 4]; [5; 6]]%R [0; 0; 0]%Z)
    as (pooled & Hp & _ & Hb); [reflexivity | reflexivity | repeat constructor |].
  exists pooled. split; [exact Hp|exact Hb].
Defined.

Example mean_pooling_of_two_real_tokens :
  _mean_pooling [ [[1; 2]; [3; 4]; [5; 6]] ]%R [ [1; 1; 0] ]%Z = Ok [ [2; 3] ]%R.
Proof.
  unfold _mean_pooling. change (shapes_broadcast _ _) with true. cbv iota.
  unfold mean_pooling_row, broadcast, sum_rows, sum_list, width, vadd, zeros.
  cbn [zip_with List.map fold_right hd length repeat Nat.eqb].
  rewrite Rmax_left by lra.
  repeat (f_equal; try lra).
Qed.

(** ** L2 normalisation *)

Lemma clamp_positive (x : R) : (0 < Rmax x 1e-12)%R.
Proof. pose proof (Rmax_r x 1e-12). lra. Qed.

Lemma l2_normalize_row_norm (v : vector) :
  l2_norm (l2_normalize_row v) = (l2_norm v / Rmax (l2_norm v) 1e-12)%R.
Proof. unfold l2_normalize_row. cbv zeta. apply norm_scaled, clamp_positive. Qed.

Lemma l2_normalize_row_unit (v : vector) :
  (1e-12 <= l2_norm v)%R -> l2_norm (l2_normalize_row v) = 1%R.
Proof.
  intros H. rewrite l2_normalize_row_norm, Rmax_left by exact H.
  field. lra.
Qed.

Lemma l2_normalize_row_small (v : vector) :
  (l2_norm v < 1e-12)%R ->
  l2_norm (l2_normalize_row v) = (l2_norm v / 1e-12)%R /\
  (l2_norm (l2_normalize_row v) < 1)%R.
Proof.
  intros H. rewrite l2_normalize_row_norm, Rmax_right by lra.
  split; [reflexivity|].
  apply (Rmult_lt_reg_r 1e-12); [lra|].
  unfold Rdiv. rewrite Rmult_assoc, Rinv_l by lra. lra.
Qed.

(** C2 (as amended): with normalisation requested, [embed] applies
    [_l2_normalize] to the pooled vectors and otherwise returns them as
    they are; [_l2_normalize], and the normalisation of [embed_batch] in
    the same way, divides every vector by its Euclidean norm clamped to a
    minimum of [1e-12]; the result has norm 1 when the norm of the pooled
    vector is at least [1e-12], and norm [norm / 1e-12], below 1,
    when it is smaller. *)
Theorem l2_normalize_unit_above_the_clamp (embeddings : matrix) :
  _l2_normalize embeddings
  = List.map (fun v => List.map (fun x => (x / Rmax (l2_norm v) 1e-12)%R) v) embeddings /\
  List.map OnnxServer.normalize_row embeddings = _l2_normalize embeddings /\
  (forall (i : nat) (v : vector),
     embeddings !! i = Some v ->
     exists out,
       _l2_normalize embeddings !! i = Some out /\
       ((1e-12 <= l2_norm v)%R -> l2_norm out = 1%R) /\
       ((l2_norm v < 1e-12)%R ->
        l2_norm out = (l2_norm v / 1e-12)%R /\ (l2_norm out < 1)%R)) /\
  (forall (self : MLXEmbeddingModel) (texts : list string) (pooling : string),
     snd (embed texts pooling false self) = Ok embeddings ->
     snd (embed texts pooling true self) = Ok (_l2_normalize embeddings)).
Proof.
  split; [reflexivity|]. split; [reflexivity|]. split.
  - intros i v Hv. exists (l2_normalize_row v). split.
    + unfold _l2_normalize. change List.map with (@fmap list _).
      now rewrite list_lookup_fmap, Hv.
    + split; [apply l2_normalize_row_unit | apply l2_normalize_row_small].
  - intros self texts pooling. unfold embed. cbn [snd].
    destruct (tokenize self texts 512) as [inputs|e]; [|discriminate].
    cbn [and_then].
    destruct (forward self (input_ids inputs) (attention_mask inputs))
      as [hidden|e]; [|discriminate].
    cbn [and_then].
    destruct (if String.eqb pooling "mean" then _ else _) as [pooled|e];
      [|discriminate].
    cbn [and_then]. intros H. injection H as <-. reflexivity.
Qed.

Example l2_normalize_three_four :
  _l2_normalize [ [3; 4] ]%R = [ [3 / 5; 4 / 5] ]%R.
Proof.
  unfold _l2_normalize, l2_normalize_row. cbn [List.map].
  assert (E : l2_norm [3; 4]%R = 5%R).
  { unfold l2_norm, sum_list. cbn [List.map fold_right].
    replace (3 ^ 2 + (4 ^ 2 + 0))%R with (5 * 5)%R by lra.
    apply sqrt_square. lra. }
  rewrite E, Rmax_left by lra. reflexivity.
Qed.

(** C2 (as stated): the zero vector, which mean pooling returns for a row
    whose mask is all zeros, is divided by [1e-12] and stays the zero
    vector; its norm is 0, not within [1e-3] of 1. *)
Lemma l2_normalize_keeps_the_zero_vector :
  _mean_pooling [ [[1; 2]; [3; 4]] ]%R [ [0; 0] ]%Z = Ok [ [0; 0] ]%R /\
  _l2_normalize [ [0; 0] ]%R = [ [0; 0] ]%R /\
  l2_norm [0; 0]%R = 0%R /\
  ~ (Rabs (l2_norm [0; 0]%R - 1) <= 1e-3)%R.
Proof.
  assert (E : l2_norm [0; 0]%R = 0%R) by apply (norm_zeros 2).
  split.
  { unfold _mean_pooling. change (shapes_broadcast _ _) with true. cbv iota.
    unfold mean_pooling_row, broadcast, sum_rows, sum_list, width, vadd, zeros.
    cbn [zip_with List.map fold_right hd length repeat Nat.eqb].
    rewrite Rmax_right by lra.
    repeat (f_equal; try (field; lra)). }
  split.
  { unfold _l2_normalize, l2_normalize_row. cbn [List.map].
    rewrite E, Rmax_right by lra.
    repeat (f_equal; try (field; lra)). }
  split; [exact E|].
  rewrite E. replace (0 - 1)%R with (- (1))%R by lra.
  rewrite Rabs_Ropp, Rabs_R1. lra.
Qed.

(** ** Unknown pooling strategies and empty batches *)

Lemma tokenize_empty (self : MLXEmbeddingModel) (max_length : Z) :
  tokenize self [] max_length = Ok (TokenBatch [] []).
Proof. reflexivity. Qed.

Lemma tokenize_512_nonempty (self : MLXEmbeddingModel) (texts : list string) :
  texts <> [] ->
  exists row rows mask,
    tokenize self texts 512 = Ok (TokenBatch (row :: rows) mask).
Proof.
  intros Hne. rewrite tokenize_eq by lia.
  destruct texts as [|t texts]; [congruence|].
  cbn [List.map]. eauto.
Qed.

(** [embed] on an empty list of texts: the tokenizer returns two empty
    arrays, and unpacking the shape in [forward] raises before the inner
    model is called. *)
Lemma embed_empty (self : MLXEmbeddingModel) (pooling : string) (normalize : bool) :
  embed [] pooling normalize self
  = (self, Raise (Exn ValueError "not enough values to unpack (expected 2, got 1)")).
Proof. reflexivity. Qed.

(** C9: for a pooling name other than [mean] and [cls], [embed] raises
    and hands the model object back as it was; the exception is a
    [ValueError] whenever the inner model returns, and the one naming the
    unknown strategy when there is at least one text; a request that
    follows gets the answer it would have got without the refused one. *)
Theorem unknown_pooling_raises_and_keeps_the_model
  (self : MLXEmbeddingModel) (texts : list string) (pooling : string)
  (normalize : bool) :
  pooling <> "mean" ->
  pooling <> "cls" ->
  exists e,
    embed texts pooling normalize self = (self, Raise e) /\
    ((forall ids, is_ok (qwen_model self ids) = true) -> cls e = ValueError) /\
    ((forall ids, is_ok (qwen_model self ids) = true) ->
     texts <> [] ->
     e = Exn ValueError ("Unknown pooling strategy: " +:+ pooling)) /\
    (forall texts' pooling' normalize',
       embed texts' pooling' normalize'
         (fst (embed texts pooling normalize self))
       = embed texts' pooling' normalize' self).
Proof.
  intros Hmean Hcls.
  apply String.eqb_neq in Hmean. apply String.eqb_neq in Hcls.
  destruct texts as [|t texts].
  - eexists. split; [apply embed_empty|]. split; [reflexivity|].
    split; [congruence|reflexivity].
  - destruct (tokenize_512_nonempty self (t :: texts) ltac:(discriminate))
      as (row & rows & mask & Htok).
    unfold embed. rewrite Htok. cbn [and_then input_ids attention_mask forward].
    destruct (qwen_model self (row :: rows)) as [hidden|e] eqn:Hq.
    + cbn [and_then]. rewrite Hmean, Hcls. cbn [and_then].
      eexists. split; [reflexivity|]. split; [reflexivity|].
      split; reflexivity.
    + cbn [and_then]. exists e. split; [reflexivity|].
      split; [|split; [|reflexivity]]; intros Hok;
        specialize (Hok (row :: rows)); rewrite Hq in Hok; discriminate.
Qed.

(** The theorem at work: the strategy [max] on the byte-level model. *)
Lemma unknown_pooling_raises_and_keeps_the_model_witness :
  "max" <> "mean" /\ "max" <> "cls" /\
  embed ["hi"] "max" true Scenarios.toy_model
  = (Scenarios.toy_model,
     Raise (Exn ValueError "Unknown pooling strategy: max")).
Proof.
  split; [discriminate|]. split; [discriminate|].
  destruct (unknown_pooling_raises_and_keeps_the_model
              Scenarios.toy_model ["hi"] "max" true
              ltac:(discriminate) ltac:(discriminate))
    as (e & Hembed & _ & Hmsg & _).
  rewrite Hembed. rewrite (Hmsg ltac:(reflexivity) ltac:(discriminate)).
  reflexivity.
Defined.

End MlxInferenceSpec.

(* ===================================================================== *)
(** * More on tokenization, pooling and normalisation *)
(* ===================================================================== *)

Module EmbeddingSpec.
Import Py Arrays MlxInference PoolingSpec MlxInferenceSpec.
Local Open Scope py_scope.

(** ** The attention mask *)

Lemma sum_repeat (x : Z) (n : nat) :
  fold_right Z.add 0%Z (repeat x n) = (x * Z.of_nat n)%Z.
Proof. induction n as [|n IH]; cbn [repeat fold_right]; lia. Qed.

Lemma sum_app (l k : list Z) :
  fold_right Z.add 0%Z (l ++ k)
  = (fold_right Z.add 0%Z l + fold_right Z.add 0%Z k)%Z.
Proof. induction l as [|x l IH]; cbn [app fold_right]; lia. Qed.

Lemma Forall_repeat {A} (P : A -> Prop) (x : A) (n : nat) :
  P x -> Forall P (repeat x n).
Proof. intros H. induction n; cbn [repeat]; constructor; auto. Qed.

(** The mask [tokenize] builds holds zeros and ones only, and its ones
    count the tokens kept: the length of the encoding, or [max_length]
    when the encoding is longer. *)
Theorem tokenize_mask_counts_the_tokens_kept
  (self : MLXEmbeddingModel) (texts : list string) (max_length : Z)
  (batch : token_batch) (i : nat) (text : string) (mask : list Z) :
  (0 <= max_length)%Z ->
  tokenize self texts max_length = Ok batch ->
  texts !! i = Some text ->
  attention_mask batch !! i = Some mask ->
  Forall (fun m => m = 0%Z \/ m = 1%Z) mask /\
  fold_right Z.add 0%Z mask
  = Z.min (Z.of_nat (length (tokenizer_encode self text))) max_length.
Proof.
  intros Hnn Htok Htext Hmask.
  rewrite (tokenize_eq self texts max_length Hnn) in Htok. injection Htok as <-.
  cbn [attention_mask] in Hmask.
  change List.map with (@fmap list _) in Hmask.
  rewrite list_lookup_fmap, Htext in Hmask. injection Hmask as <-.
  set (token_ids := tokenizer_encode self text).
  destruct (tokenize_row_cases (eos_token_id self) max_length token_ids Hnn)
    as [Hlong Hshort].
  destruct (Z_gt_le_dec (Z.of_nat (length token_ids)) max_length) as [H|H].
  - rewrite (Hlong H). cbn [snd]. split.
    + apply Forall_repeat. now right.
    + rewrite sum_repeat. lia.
  - rewrite (Hshort H). cbn [snd]. split.
    + apply Forall_app. split; apply Forall_repeat; [now right|now left].
    + rewrite sum_app, !sum_repeat. lia.
Qed.

Lemma tokenize_mask_counts_the_tokens_kept_witness :
  fold_right Z.add 0%Z [1; 1; 0; 0]%Z
  = Z.min (Z.of_nat (length (tokenizer_encode Scenarios.toy_model "hi"))) 4.
Proof.
  exact (proj2 (tokenize_mask_counts_the_tokens_kept
                  Scenarios.toy_model ["hi"; "hello"] 4
                  (TokenBatch [[104; 105; 0; 0]; [104; 101; 108; 108]]
                              [[1; 1; 0; 0]; [1; 1; 1; 1]])%Z
                  0%nat "hi" [1; 1; 0; 0]%Z
                  ltac:(lia) eq_refl eq_refl eq_refl)).
Defined.

(** ** Mean pooling and padding *)

Lemma selected_rows_agree (hidden hidden' : matrix) (mask : list Z) :
  length hidden = length hidden' ->
  (forall i : nat, mask !! i = Some 1%Z -> hidden !! i = hidden' !! i) ->
  selected_rows hidden mask = selected_rows hidden' mask.
Proof.
  revert hidden' mask. induction hidden as [|r hidden IH];
    intros hidden' mask Hlen Hagree.
  - destruct hidden'; [|discriminate]. reflexivity.
  - destruct hidden' as [|r' hidden']; [discriminate|].
    injection Hlen as Hlen.
    destruct mask as [|m mask]; [reflexivity|].
    rewrite !selected_rows_cons.
    rewrite (IH hidden' mask Hlen (fun i H => Hagree (S i) H)).
    destruct (Z.eqb_spec m 1) as [-> |_]; [|reflexivity].
    specialize (Hagree 0%nat eq_refl). cbn in Hagree. now injection Hagree as ->.
Qed.

(** The hidden vectors at padding positions do not matter: two arrays of
    the same shape that agree wherever the mask is 1 have the same mean
    pooling. *)
Theorem mean_pooling_ignores_padding (hidden hidden' : matrix) (mask : list Z) :
  well_shaped hidden mask ->
  well_shaped hidden' mask ->
  width hidden = width hidden' ->
  (forall i : nat, mask !! i = Some 1%Z -> hidden !! i = hidden' !! i) ->
  mean_pooling_row hidden mask = mean_pooling_row hidden' mask /\
  OnnxServer.mean_pooling_row hidden mask = OnnxServer.mean_pooling_row hidden' mask.
Proof.
  intros Hw Hw' Hwidth Hagree.
  assert (E : spec_mean_row hidden mask = spec_mean_row hidden' mask).
  { unfold spec_mean_row. cbv zeta. rewrite Hwidth.
    rewrite (selected_rows_agree hidden hidden' mask); [reflexivity| |exact Hagree].
    destruct Hw as [<- _], Hw' as [<- _]. reflexivity. }
  split.
  - now rewrite (mean_pooling_row_spec _ _ Hw), (mean_pooling_row_spec _ _ Hw').
  - now rewrite (onnx_mean_pooling_row_spec _ _ Hw), (onnx_mean_pooling_row_spec _ _ Hw').
Qed.

Lemma mean_pooling_ignores_padding_witness :
  mean_pooling_row [[1; 2]; [3; 4]]%R [1; 0]%Z
  = mean_pooling_row [[1; 2]; [7; 8]]%R [1; 0]%Z.
Proof.
  assert (Hmask : Forall (fun m => m = 0%Z \/ m = 1%Z) [1; 0]%Z).
  { apply Forall_cons; split; [now right|].
    apply Forall_cons; split; [now left|]. apply Forall_nil_2. }
  assert (H1 : well_shaped [[1; 2]; [3; 4]]%R [1; 0]%Z).
  { split; [reflexivity|]. split; [|exact Hmask].
    apply Forall_cons; split; [reflexivity|].
    apply Forall_cons; split; [reflexivity|]. apply Forall_nil_2. }
  assert (H2 : well_shaped [[1; 2]; [7; 8]]%R [1; 0]%Z).
  { split; [reflexivity|]. split; [|exact Hmask].
    apply Forall_cons; split; [reflexivity|].
    apply Forall_cons; split; [reflexivity|]. apply Forall_nil_2. }
  refine (proj1 (mean_pooling_ignores_padding _ _ _ H1 H2 eq_refl _)).
  intros [|[|i]] Hi; [reflexivity|discriminate|discriminate].
Defined.

(** ** L2 normalisation *)

Lemma map_div_1 (v : vector) : List.map (fun x => (x / 1)%R) v = v.
Proof.
  induction v as [|x v IH]; [reflexivity|].
  cbn [List.map]. rewrite IH. f_equal. field.
Qed.

(** Normalising twice is normalising once, for a vector whose norm is at
    least the clamp. *)
Theorem l2_normalize_is_idempotent (v : vector) :
  (1e-12 <= l2_norm v)%R ->
  l2_normalize_row (l2_normalize_row v) = l2_normalize_row v.
Proof.
  intros H. unfold l2_normalize_row at 1. cbv zeta.
  rewrite (l2_normalize_row_unit v H), Rmax_left by lra.
  apply map_div_1.
Qed.

Lemma norm_three_four : l2_norm [3; 4]%R = 5%R.
Proof.
  unfold l2_norm, sum_list. cbn [List.map fold_right].
  replace (3 ^ 2 + (4 ^ 2 + 0))%R with (5 * 5)%R by lra.
  apply sqrt_square. lra.
Qed.

Lemma l2_normalize_is_idempotent_witness :
  (1e-12 <= l2_norm [3; 4]%R)%R /\
  l2_normalize_row (l2_normalize_row [3; 4]%R) = l2_normalize_row [3; 4]%R.
Proof.
  assert (H : (1e-12 <= l2_norm [3; 4]%R)%R) by (rewrite norm_three_four; lra).
  split; [exact H|]. exact (l2_normalize_is_idempotent [3; 4]%R H).
Defined.

Lemma sum_squares_times (v : vector) (c : R) :
  sum_list (List.map (fun x => (x ^ 2)%R) (List.map (fun x => (c * x)%R) v))
  = (c ^ 2 * sum_list (List.map (fun x => (x ^ 2)%R) v))%R.
Proof.
  unfold sum_list. induction v as [|x v IH]; cbn [List.map fold_right]; [lra|].
  rewrite IH. ring.
Qed.

Lemma norm_times (v : vector) (c : R) :
  (0 <= c)%R -> l2_norm (List.map (fun x => (c * x)%R) v) = (c * l2_norm v)%R.
Proof.
  intros Hc. unfold l2_norm. rewrite sum_squares_times.
  rewrite sqrt_mult_alt by apply pow2_ge_0.
  now rewrite sqrt_pow2.
Qed.

(** Normalisation forgets the scale: a vector and a positive multiple of
    it, both with norm at least the clamp, normalise to the same
    vector. *)
Theorem l2_normalize_forgets_the_scale (v : vector) (c : R) :
  (0 < c)%R ->
  (1e-12 <= l2_norm v)%R ->
  (1e-12 <= c * l2_norm v)%R ->
  l2_normalize_row (List.map (fun x => (c * x)%R) v) = l2_normalize_row v.
Proof.
  intros Hc Hv Hcv. unfold l2_normalize_row. cbv zeta.
  rewrite norm_times by lra. rewrite !Rmax_left by assumption.
  rewrite List.map_map. apply List.map_ext. intros x. field. lra.
Qed.

Lemma l2_normalize_forgets_the_scale_witness :
  l2_normalize_row (List.map (fun x => (2 * x)%R) [3; 4]%R)
  = l2_normalize_row [3; 4]%R.
Proof.
  apply (l2_normalize_forgets_the_scale [3; 4]%R 2%R);
    rewrite ?norm_three_four; lra.
Defined.

(** ** The shape of what [embed] returns *)

(** The token batch of [embed]: one row of 512 ids per text. *)
Lemma embed_token_batch_shape (self : MLXEmbeddingModel) (texts : list string) :
  exists batch,
    tokenize self texts 512 = Ok batch /\
    Forall (fun row => length row = 512%nat) (input_ids batch) /\
    length (input_ids batch) = length texts.
Proof.
  eexists. split; [apply tokenize_eq; lia|]. cbn [input_ids]. split.
  - apply Forall_forall. intros row Hrow.
    apply list_elem_of_In, in_map_iff in Hrow. destruct Hrow as (t & <- & _).
    apply (tokenize_row_lengths (eos_token_id self) 512 (tokenizer_encode self t)).
    lia.
  - apply length_map.
Qed.

(** Every sequence of [hidden_states] has [s] positions and hidden size
    [h]. *)
Definition sequences_of (s h : nat) (hidden_states : tensor3) : Prop :=
  Forall (fun hidden : matrix =>
            length hidden = s /\ Forall (fun v : vector => length v = h) hidden)
         hidden_states.

Lemma masked_rows_length (h : nat) (hidden : matrix) (mask : vector) :
  Forall (fun v : vector => length v = h) hidden ->
  Forall (fun v : vector => length v = h)
         (broadcast (fun r m => List.map (fun x => (x * m)%R) r) hidden mask).
Proof.
  intros H.
  assert (Hzip : forall mask',
            Forall (fun v : vector => length v = h)
              (zip_with (fun r m => List.map (fun x => (x * m)%R) r) hidden mask')).
  { clear mask. induction H as [|r hidden Hr _ IH]; intros mask'.
    - constructor.
    - destruct mask' as [|m mask']; [constructor|].
      cbn [zip_with]. constructor; [now rewrite length_map|apply IH]. }
  assert (Hmap : forall m,
            Forall (fun v : vector => length v = h)
              (List.map (fun r => List.map (fun x => (x * m)%R) r) hidden)).
  { intros m. clear Hzip. induction H as [|r hidden Hr _ IH]; cbn [List.map];
      constructor; [now rewrite length_map|exact IH]. }
  unfold broadcast. destruct (Nat.eqb (length hidden) (length mask)); [apply Hzip|].
  destruct hidden as [|r [|r' hidden]].
  - destruct mask as [|m [|m' mask]]; [apply Hzip|apply Hmap|apply Hzip].
  - apply Forall_cons in H as [Hr _].
    clear -Hr. induction mask as [|m mask IH]; cbn [List.map]; constructor;
      [now rewrite length_map|exact IH].
  - destruct mask as [|m [|m' mask]]; [apply Hzip|apply Hmap|apply Hzip].
Qed.

Lemma mean_pooling_row_length (s h : nat) (hidden : matrix) (mask : list Z) :
  (0 < s)%nat ->
  length hidden = s ->
  Forall (fun v : vector => length v = h) hidden ->
  length (mean_pooling_row hidden mask) = h.
Proof.
  intros Hs Hlen Hrows. unfold mean_pooling_row. cbv zeta. rewrite length_map.
  assert (Hw : width hidden = h).
  { destruct hidden as [|r hidden]; [cbn in Hlen; lia|].
    apply Forall_cons in Hrows as [Hr _]. exact Hr. }
  rewrite Hw. apply sum_rows_length, masked_rows_length, Hrows.
Qed.

Lemma mean_pooling_lengths (s h : nat) (hidden_states : tensor3)
  (masks : list (list Z)) :
  (0 < s)%nat ->
  sequences_of s h hidden_states ->
  Forall (fun v : vector => length v = h)
         (zip_with mean_pooling_row hidden_states masks).
Proof.
  intros Hs H. revert masks.
  induction H as [|hidden hs [Hlen Hrows] _ IH]; intros masks.
  - constructor.
  - destruct masks as [|mask masks]; [constructor|].
    cbn [zip_with]. constructor; [|apply IH].
    now apply (mean_pooling_row_length s).
Qed.

(** The shapes [embed] hands to [_mean_pooling]: a mask of 512 entries
    per text, and what the inner model returned. *)
Lemma embed_mask_shape (self : MLXEmbeddingModel) (texts : list string)
  (batch : token_batch) :
  texts <> [] ->
  tokenize self texts 512 = Ok batch ->
  length (attention_mask batch) = length texts /\
  shape2 (attention_mask batch) = (length texts, 512%nat).
Proof.
  intros Hne Htok. rewrite tokenize_eq in Htok by lia. injection Htok as <-.
  cbn [attention_mask]. unfold shape2. rewrite length_map.
  split; [reflexivity|]. f_equal.
  destruct texts as [|t texts]; [congruence|]. cbn [List.map hd].
  destruct (tokenize_row_lengths (eos_token_id self) 512 (tokenizer_encode self t))
    as [_ Hmask]; [lia|exact Hmask].
Qed.

Lemma sequences_shape (s h : nat) (hidden_states : tensor3) :
  hidden_states <> [] ->
  sequences_of s h hidden_states ->
  shape2 hidden_states = (length hidden_states, s).
Proof.
  intros Hne H. unfold shape2. f_equal.
  destruct H as [|hidden hs [Hlen _] _]; [congruence|exact Hlen].
Qed.

Lemma cls_pooling_ok (s h : nat) (hidden_states : tensor3) :
  (0 < s)%nat ->
  sequences_of s h hidden_states ->
  exists out,
    _cls_pooling hidden_states = Ok out /\
    length out = length hidden_states /\
    Forall (fun v : vector => length v = h) out.
Proof.
  intros Hs H. unfold _cls_pooling.
  induction H as [|hidden hs [Hlen Hrows] _ (out & Hout & Hl & Hf)].
  - exists []. repeat split. constructor.
  - destruct hidden as [|first rest]; [cbn in Hlen; lia|].
    apply Forall_cons in Hrows as [Hfirst _].
    exists (first :: out). cbn [map_result and_then]. rewrite Hout.
    cbn [and_then length]. split; [reflexivity|]. split; [now rewrite Hl|].
    now constructor.
Qed.

Lemma l2_normalize_lengths (h : nat) (embeddings : matrix) :
  Forall (fun v : vector => length v = h) embeddings ->
  Forall (fun v : vector => length v = h) (_l2_normalize embeddings).
Proof.
  intros H. unfold _l2_normalize.
  induction H as [|v vs Hv _ IH]; cbn [List.map]; constructor; [|exact IH].
  unfold l2_normalize_row. cbv zeta. now rewrite length_map.
Qed.

(** For the two supported strategies, normalised or not: when the inner
    model returns, for a batch of at least one text, one sequence per text
    with [s] positions, at least one, and hidden size [h], then [embed]
    returns one vector of length [h] per text under CLS pooling, and
    under mean pooling when [s] is 512, the length of the mask, or 1,
    which broadcasts; under mean pooling with any other [s] it raises the
    [ValueError] of the product of the hidden states and the mask.  The
    model object is left as it was. *)
Theorem embed_returns_one_vector_per_text
  (self : MLXEmbeddingModel) (texts : list string) (normalize : bool)
  (batch : token_batch) (hidden_states : tensor3) (s h : nat) :
  texts <> [] ->
  tokenize self texts 512 = Ok batch ->
  qwen_model self (input_ids batch) = Ok hidden_states ->
  (0 < s)%nat ->
  length hidden_states = length texts ->
  sequences_of s h hidden_states ->
  (forall pooling,
     pooling = "cls" \/ pooling = "mean" /\ (s = 512%nat \/ s = 1%nat) ->
     exists out,
       embed texts pooling normalize self = (self, Ok out) /\
       length out = length texts /\
       Forall (fun v : vector => length v = h) out) /\
  (s <> 512%nat -> s <> 1%nat ->
   exists text,
     embed texts "mean" normalize self = (self, Raise (Exn ValueError text))).
Proof.
  intros Hne Htok Hq Hs Hlen Hshape.
  destruct (embed_mask_shape self texts batch Hne Htok) as [Hmasks Hmshape].
  assert (Hhne : hidden_states <> []).
  { intros ->. destruct texts; [congruence|discriminate]. }
  pose proof (sequences_shape s h hidden_states Hhne Hshape) as Hhshape.
  assert (Hbatch := Htok). rewrite tokenize_eq in Hbatch by lia.
  injection Hbatch as Hbatch.
  assert (Hids : input_ids batch <> []).
  { rewrite <- Hbatch. cbn [input_ids]. destruct texts; [congruence|discriminate]. }
  assert (Hcheck : shapes_broadcast (shape2 hidden_states) (shape2 (attention_mask batch))
                   = Nat.eqb s 512 || Nat.eqb s 1).
  { rewrite Hhshape, Hmshape. unfold shapes_broadcast, broadcastable.
    cbn [fst snd]. rewrite Hlen, Nat.eqb_refl. cbn [orb andb].
    now rewrite orb_false_r. }
  unfold embed. rewrite Htok. cbn [and_then]. unfold forward.
  destruct (input_ids batch) as [|row rows] eqn:Erows; [congruence|].
  rewrite Hq. cbn [and_then].
  assert (Hfinish : forall pooled : matrix,
            length pooled = length texts ->
            Forall (fun v : vector => length v = h) pooled ->
            length (if normalize then _l2_normalize pooled else pooled) = length texts /\
            Forall (fun v : vector => length v = h)
                   (if normalize then _l2_normalize pooled else pooled)).
  { intros pooled Hl Hf. destruct normalize; [|auto].
    split; [unfold _l2_normalize; now rewrite length_map|].
    now apply l2_normalize_lengths. }
  split.
  - intros pooling [-> | [-> Hfits]].
    + cbn [String.eqb Ascii.eqb Bool.eqb].
      destruct (cls_pooling_ok s h hidden_states Hs Hshape) as (out & Hout & Hl & Hf).
      rewrite Hout. cbn [and_then].
      eexists. split; [reflexivity|]. apply Hfinish; [lia|exact Hf].
    + cbn [String.eqb Ascii.eqb Bool.eqb]. unfold _mean_pooling.
      rewrite Hcheck.
      replace (Nat.eqb s 512 || Nat.eqb s 1) with true
        by (destruct Hfits as [-> | ->]; reflexivity).
      rewrite broadcast_same by lia. cbn [and_then].
      eexists. split; [reflexivity|]. apply Hfinish.
      * rewrite length_zip_with_l_eq; lia.
      * now apply (mean_pooling_lengths s).
  - intros H512 H1. cbn [String.eqb Ascii.eqb Bool.eqb]. unfold _mean_pooling.
    rewrite Hcheck.
    apply Nat.eqb_neq in H512. apply Nat.eqb_neq in H1. rewrite H512, H1.
    cbn [orb and_then]. eexists. reflexivity.
Qed.

(** The byte-level model returns sequences of the shape asked for. *)
Lemma toy_model_shape (ids : list (list Z)) (s : nat) :
  Forall (fun row => length row = s) ids ->
  sequences_of s 2
    (List.map (List.map (fun t : Z => [IZR t; 1%R])) ids).
Proof.
  intros H. unfold sequences_of.
  induction H as [|row rows Hrow _ IH]; cbn [List.map]; constructor; [|exact IH].
  split; [now rewrite length_map|].
  clear. induction row as [|t row IH]; cbn [List.map]; constructor; auto.
Qed.

Lemma embed_returns_one_vector_per_text_witness :
  exists out,
    embed ["hi"; "hello"] "mean" true Scenarios.toy_model
    = (Scenarios.toy_model, Ok out) /\
    length out = 2%nat /\
    Forall (fun v : vector => length v = 2%nat) out.
Proof.
  destruct (embed_token_batch_shape Scenarios.toy_model ["hi"; "hello"])
    as (batch & Htok & Hrows & Hlen).
  refine (proj1 (embed_returns_one_vector_per_text Scenarios.toy_model
                   ["hi"; "hello"] true batch
                   (List.map (List.map (fun t : Z => [IZR t; 1%R])) (input_ids batch))
                   512 2 _ Htok eq_refl _ _ _) "mean" _).
  - discriminate.
  - lia.
  - rewrite length_map. exact Hlen.
  - apply toy_model_shape, Hrows.
  - right. split; [reflexivity|now left].
Defined.

(** A model that returns three positions for every sequence, whatever
    the input: mean pooling cannot pair them with the 512 entries of the
    mask. *)
Example embed_with_three_positions_raises :
  snd (embed ["hi"] "mean" true
         {| model_path := Scenarios.qwen_dir;
            hidden_size := 2;
            num_hidden_layers := 1;
            vocab_size := 256;
            tokenizer_encode := Scenarios.byte_ids;
            eos_token_id := 0;
            qwen_model :=
              fun ids => Ok (List.map (fun _ => [[1; 0]; [0; 1]; [1; 1]]%R) ids) |})
  = Raise (Exn ValueError
             "[broadcast_shapes] Shapes (1,3,2) and (1,512,1) cannot be broadcast.").
Proof. vm_compute. reflexivity. Qed.

(** ** Texts without tokens *)

Lemma l2_normalize_row_zeros (h : nat) : l2_normalize_row (zeros h) = zeros h.
Proof.
  unfold l2_normalize_row. cbv zeta. rewrite norm_zeros.
  apply map_div_zeros, clamp_positive.
Qed.

(** A text whose encoding is empty has a mask of zeros only; under mean
    pooling its embedding is the zero vector, and it stays the zero vector
    when normalisation is requested. *)
Theorem empty_encoding_embeds_to_zero
  (self : MLXEmbeddingModel) (texts : list string) (normalize : bool)
  (batch : token_batch) (hidden_states : tensor3) (h i : nat) (text : string) :
  tokenize self texts 512 = Ok batch ->
  qwen_model self (input_ids batch) = Ok hidden_states ->
  length hidden_states = length texts ->
  sequences_of 512 h hidden_states ->
  texts !! i = Some text ->
  tokenizer_encode self text = [] ->
  exists out,
    embed texts "mean" normalize self = (self, Ok out) /\
    out !! i = Some (zeros h).
Proof.
  intros Htok Hq Hlen Hshape Htext Henc.
  assert (Hbatch := Htok). rewrite tokenize_eq in Hbatch by lia.
  injection Hbatch as Hbatch.
  assert (Hmask : attention_mask batch !! i = Some (repeat 0%Z 512)).
  { rewrite <- Hbatch. cbn [attention_mask]. change List.map with (@fmap list _).
    rewrite list_lookup_fmap, Htext. cbn [fmap option_fmap option_map]. f_equal.
    rewrite Henc.
    destruct (tokenize_row_cases (eos_token_id self) 512 [] ltac:(lia)) as [_ Hshort].
    rewrite Hshort by (cbn; lia). reflexivity. }
  assert (Hhid : exists hidden, hidden_states !! i = Some hidden).
  { apply lookup_lt_is_Some. rewrite Hlen. apply lookup_lt_is_Some. eauto. }
  destruct Hhid as [hidden Hhid].
  assert (Hrow : length hidden = 512%nat /\ Forall (fun v : vector => length v = h) hidden).
  { unfold sequences_of in Hshape. rewrite Forall_forall in Hshape.
    apply Hshape. apply list_elem_of_lookup. eauto. }
  destruct Hrow as [Hs Hrows].
  assert (Hw : width hidden = h).
  { destruct hidden as [|r hidden]; [discriminate|].
    apply Forall_cons in Hrows as [Hr _]. exact Hr. }
  assert (Hzero : mean_pooling_row hidden (repeat 0%Z 512) = zeros h).
  { rewrite mean_pooling_row_spec.
    - rewrite spec_mean_row_all_masked by now apply Forall_repeat.
      now rewrite Hw.
    - split; [now rewrite repeat_length|]. split; [now rewrite Hw|].
      apply Forall_repeat. now left. }
  assert (Hne : texts <> []) by (intros ->; discriminate).
  destruct (embed_mask_shape self texts batch Hne Htok) as [Hmasks Hmshape].
  assert (Hhne : hidden_states <> []) by (intros ->; discriminate).
  pose proof (sequences_shape 512 h hidden_states Hhne Hshape) as Hhshape.
  assert (Hpool : _mean_pooling hidden_states (attention_mask batch)
                  = Ok (zip_with mean_pooling_row hidden_states (attention_mask batch))).
  { unfold _mean_pooling. rewrite Hhshape, Hmshape.
    unfold shapes_broadcast. cbn [fst snd]. rewrite Hlen, !broadcastable_refl.
    cbn [andb]. now rewrite broadcast_same by lia. }
  assert (Hpooled : zip_with mean_pooling_row hidden_states (attention_mask batch) !! i
                    = Some (zeros h)).
  { apply lookup_zip_with_Some.
    exists hidden, (repeat 0%Z 512). now rewrite Hzero. }
  assert (Hids : input_ids batch <> []).
  { rewrite <- Hbatch. cbn [input_ids]. destruct texts; [discriminate|discriminate]. }
  unfold embed. rewrite Htok. cbn [and_then]. unfold forward.
  destruct (input_ids batch) as [|row rows] eqn:Erows; [congruence|].
  rewrite Hq. cbn [and_then String.eqb Ascii.eqb Bool.eqb].
  rewrite Hpool. cbn [and_then].
  eexists. split; [reflexivity|].
  destruct normalize; [|exact Hpooled].
  unfold _l2_normalize. change List.map with (@fmap list _).
  rewrite list_lookup_fmap, Hpooled. cbn [fmap option_fmap option_map].
  now rewrite l2_normalize_row_zeros.
Qed.

Lemma empty_encoding_embeds_to_zero_witness :
  exists out,
    embed [""; "hi"] "mean" true Scenarios.toy_model
    = (Scenarios.toy_model, Ok out) /\
    out !! 0%nat = Some (zeros 2).
Proof.
  destruct (embed_token_batch_shape Scenarios.toy_model [""; "hi"])
    as (batch & Htok & Hrows & Hlen).
  apply (empty_encoding_embeds_to_zero Scenarios.toy_model [""; "hi"] true batch
           (List.map (List.map (fun t : Z => [IZR t; 1%R])) (input_ids batch))
           2 0 "").
  - exact Htok.
  - reflexivity.
  - rewrite length_map. exact Hlen.
  - apply toy_model_shape, Hrows.
  - reflexivity.
  - reflexivity.
Defined.

End EmbeddingSpec.

(* ===================================================================== *)
(** * Properties of the embedding service *)
(* ===================================================================== *)

Module EmbeddingServiceSpec.
Import Py ModelLoader EmbeddingService.
Local Open Scope py_scope.

Section InitFacts.

Variable snapshot_download :
  string -> string -> gmap string (gset string) ->
  gmap string (gset string) * result string.
Variable from_yaml : option string -> EmbeddingConfig.
Variable load_mlx_model : string -> world -> result MlxInference.MLXEmbeddingModel.

(** The configuration [__init__] works with. *)
Definition resolved_config (config : option EmbeddingConfig)
  (config_path : option string) : EmbeddingConfig :=
  match config_path with
  | Some p => from_yaml (Some p)
  | None =>
      match config with
      | Some c => c
      | None => from_yaml None
      end
  end.

Lemma is_model_cached_none (w : world) :
  exists text,
    is_model_cached None w
    = (ModelLoaderSpec.after_mkdir w, Raise (Exn TypeError text)).
Proof. eexists. reflexivity. Qed.

(** C10: [EmbeddingService()] without a model name always raises.  When
    the configuration names a model of the registry, the name is resolved
    and its metadata found, and the [TypeError] comes from the cache
    check, which is given the argument [None] instead of the resolved
    name; nothing is fetched.  When the configuration names no model of
    the registry, [get_model_info] raises its [ValueError]. *)
Theorem init_without_model_name_raises
  (auto_download : option bool) (pooling : option string)
  (normalize : option bool) (config : option EmbeddingConfig)
  (config_path : option string) (w : world) :
  exists w' e,
    __init__ snapshot_download from_yaml load_mlx_model
      None auto_download pooling normalize config config_path w
    = (w', Raise e) /\
    fetches w' = fetches w /\
    (registered (cfg_model_name (resolved_config config config_path)) ->
     cls e = TypeError) /\
    (~ registered (cfg_model_name (resolved_config config config_path)) ->
     cls e = ValueError).
Proof.
  unfold __init__. fold (resolved_config config config_path).
  set (cfg := resolved_config config config_path).
  cbn [or_default]. unfold bind at 1. unfold get_model_info.
  destruct (dict_get MODELS (cfg_model_name cfg)) as [info|] eqn:Hinfo.
  - unfold ret at 1. cbv beta iota. unfold bind at 1.
    destruct (is_model_cached_none w) as [text ->].
    eexists _, _. split; [reflexivity|]. split; [reflexivity|].
    split; [reflexivity|].
    intros Hno. exfalso. apply Hno. unfold registered. rewrite Hinfo. eauto.
  - unfold raise at 1. cbv beta iota.
    eexists _, _. split; [reflexivity|]. split; [reflexivity|].
    split; [|reflexivity].
    intros [x Hx]. rewrite Hinfo in Hx. discriminate.
Qed.

End InitFacts.

(** The defaults of [EmbeddingConfig], which [from_yaml] returns when it
    finds no file. *)
Definition default_config : EmbeddingConfig :=
  {| cfg_model_name := "qwen3-0.6b-4bit";
     cfg_pooling := "mean";
     cfg_normalize := true;
     cfg_max_tokens := 512;
     cfg_auto_download := true;
     cfg_batch_size := 32 |}.

(** With the default model complete on disk, the service starts when the
    name is passed and raises a [TypeError] when it is left to the
    configuration. *)
Example init_with_and_without_the_name :
  is_ok (snd (__init__ Scenarios.working_fetch (fun _ => default_config)
                (fun _ _ => Ok Scenarios.toy_model)
                (Some "qwen3-0.6b-4bit") None None None None None
                Scenarios.w_cached)) = true /\
  (exists text,
     snd (__init__ Scenarios.working_fetch (fun _ => default_config)
            (fun _ _ => Ok Scenarios.toy_model)
            None None None None None None Scenarios.w_cached)
     = Raise (Exn TypeError text)).
Proof.
  split; [vm_compute; reflexivity|]. eexists. vm_compute. reflexivity.
Qed.

End EmbeddingServiceSpec.

(* ===================================================================== *)
(** * Starting the embedding service with a model name *)
(* ===================================================================== *)

Module ServiceSpec.
Import Py ModelLoader ModelLoaderSpec EmbeddingService EmbeddingServiceSpec.
Local Open Scope py_scope.

Section StartFacts.

Variable snapshot_download :
  string -> string -> gmap string (gset string) ->
  gmap string (gset string) * result string.
Variable from_yaml : option string -> EmbeddingConfig.
Variable load_mlx_model : string -> world -> result MlxInference.MLXEmbeddingModel.

Abbreviation start :=
  (__init__ snapshot_download from_yaml load_mlx_model).
Abbreviation settings := (resolved_config from_yaml).

(** With the model named and cached, [__init__] fetches nothing and
    builds the service on the cached directory.  The name given wins over
    the configuration, each other setting comes from its argument when
    given and from the configuration otherwise, the dimension and the
    token limit come from the registry, and the pooling name is taken as
    it is, supported or not. *)
Theorem init_with_a_cached_model_fetches_nothing
  (name : string) (auto_download : option bool) (pooling : option string)
  (normalize : option bool) (config : option EmbeddingConfig)
  (config_path : option string) (w : world) (info : model_info)
  (model : MlxInference.MLXEmbeddingModel) :
  dict_get MODELS name = Some info ->
  snd (is_model_cached (Some name) w) = Ok true ->
  load_mlx_model (path_join (cache_dir_of w) name) (after_mkdir w) = Ok model ->
  exists w',
    start (Some name) auto_download pooling normalize config config_path w
    = (w',
       Ok (Service name
             (or_default pooling (cfg_pooling (settings config config_path)))
             (or_default normalize (cfg_normalize (settings config config_path)))
             (ModelLoader.dimension info) (ModelLoader.max_tokens info)
             (path_join (cache_dir_of w) name) model)) /\
    fetches w' = fetches w /\
    snd (get_model_path (Some name) w) = Ok (path_join (cache_dir_of w) name).
Proof.
  intros Hinfo Hcached Hload.
  rewrite is_model_cached_eq in Hcached. cbn [snd] in Hcached.
  injection Hcached as Hcached.
  change (complete_at (fs (after_mkdir w)) (path_join (cache_dir_of w) name) = true)
    in Hcached.
  exists (after_mkdir w). split; [|split; reflexivity].
  unfold __init__. fold (resolved_config from_yaml config config_path).
  cbn [or_default]. unfold bind at 1.
  rewrite (get_model_info_eq _ _ _ Hinfo). unfold bind at 1.
  rewrite is_model_cached_eq, Hcached. unfold bind at 1.
  rewrite (download_model_eq snapshot_download _ name info false Hinfo). cbv zeta.
  rewrite after_mkdir_idem, cache_dir_after_mkdir, Hcached. cbn [negb andb].
  unfold bind, ret. now rewrite Hload.
Qed.

(** With the model named but not cached and downloads switched off, by
    the argument or by the configuration, [__init__] raises the
    [ValueError] that says so and fetches nothing. *)
Theorem init_without_download_raises
  (name : string) (auto_download : option bool) (pooling : option string)
  (normalize : option bool) (config : option EmbeddingConfig)
  (config_path : option string) (w : world) :
  registered name ->
  snd (is_model_cached (Some name) w) = Ok false ->
  or_default auto_download (cfg_auto_download (settings config config_path)) = false ->
  exists w',
    start (Some name) auto_download pooling normalize config config_path w
    = (w',
       Raise (Exn ValueError
                ("Model '" +:+ name +:+ "' not cached and auto_download=False"))) /\
    fetches w' = fetches w.
Proof.
  intros Hreg Hcached Hauto. destruct (registered_info _ Hreg) as [info Hinfo].
  rewrite is_model_cached_eq in Hcached. cbn [snd] in Hcached.
  injection Hcached as Hcached.
  change (complete_at (fs (after_mkdir w)) (path_join (cache_dir_of w) name) = false)
    in Hcached.
  exists (after_mkdir w). split; [|reflexivity].
  unfold __init__. fold (resolved_config from_yaml config config_path).
  cbn [or_default show_name]. unfold bind at 1.
  rewrite (get_model_info_eq _ _ _ Hinfo). unfold bind at 1.
  rewrite is_model_cached_eq, Hcached. unfold bind at 1.
  rewrite Hauto. reflexivity.
Qed.

(** With the model named but not cached and downloads allowed,
    [__init__] fetches the repository of the model exactly once, whether
    the fetch and the loading of the model work or not. *)
Theorem init_downloads_a_missing_model_once
  (name : string) (auto_download : option bool) (pooling : option string)
  (normalize : option bool) (config : option EmbeddingConfig)
  (config_path : option string) (w : world) (info : model_info) :
  dict_get MODELS name = Some info ->
  snd (is_model_cached (Some name) w) = Ok false ->
  or_default auto_download (cfg_auto_download (settings config config_path)) = true ->
  fetches (fst (start (Some name) auto_download pooling normalize config config_path w))
  = repo_id info :: fetches w.
Proof.
  intros Hinfo Hcached Hauto.
  rewrite is_model_cached_eq in Hcached. cbn [snd] in Hcached.
  injection Hcached as Hcached.
  change (complete_at (fs (after_mkdir w)) (path_join (cache_dir_of w) name) = false)
    in Hcached.
  unfold __init__. fold (resolved_config from_yaml config config_path).
  cbn [or_default]. unfold bind at 1.
  rewrite (get_model_info_eq _ _ _ Hinfo). unfold bind at 1.
  rewrite is_model_cached_eq, Hcached. unfold bind at 1.
  rewrite Hauto.
  rewrite (download_model_eq snapshot_download _ name info false Hinfo). cbv zeta.
  rewrite after_mkdir_idem, cache_dir_after_mkdir, Hcached. cbn [negb andb].
  destruct (snapshot_download _ _ _) as [m [dp|e]]; [|reflexivity].
  destruct (ensure_dir _ m !! _); [|reflexivity].
  unfold bind, ret. destruct (load_mlx_model _ _); reflexivity.
Qed.

End StartFacts.

Lemma init_with_a_cached_model_fetches_nothing_witness :
  exists w',
    __init__ Scenarios.failing_fetch (fun _ => default_config)
      (fun _ _ => Ok Scenarios.toy_model)
      (Some "qwen3-0.6b-4bit") None (Some "cls") None None None Scenarios.w_cached
    = (w',
       Ok (Service "qwen3-0.6b-4bit" "cls" true 1024 512 Scenarios.qwen_dir
             Scenarios.toy_model)) /\
    fetches w' = [].
Proof.
  destruct (init_with_a_cached_model_fetches_nothing Scenarios.failing_fetch
              (fun _ => default_config) (fun _ _ => Ok Scenarios.toy_model)
              "qwen3-0.6b-4bit" None (Some "cls") None None None Scenarios.w_cached
              _ Scenarios.toy_model eq_refl ltac:(vm_compute; reflexivity) eq_refl)
    as (w' & Hinit & Hfetch & _).
  exists w'. split; [exact Hinit|exact Hfetch].
Defined.

Lemma init_without_download_raises_witness :
  exists w',
    __init__ Scenarios.working_fetch (fun _ => default_config)
      (fun _ _ => Ok Scenarios.toy_model)
      (Some "qwen3-0.6b-4bit") (Some false) None None None None Scenarios.w_no_weights
    = (w',
       Raise (Exn ValueError
                "Model 'qwen3-0.6b-4bit' not cached and auto_download=False")) /\
    fetches w' = [].
Proof.
  apply (init_without_download_raises Scenarios.working_fetch
           (fun _ => default_config) (fun _ _ => Ok Scenarios.toy_model)
           "qwen3-0.6b-4bit" (Some false) None None None None Scenarios.w_no_weights).
  - eexists. reflexivity.
  - vm_compute. reflexivity.
  - reflexivity.
Defined.

Lemma init_downloads_a_missing_model_once_witness :
  fetches (fst (__init__ Scenarios.failing_fetch (fun _ => default_config)
                  (fun _ _ => Ok Scenarios.toy_model)
                  (Some "qwen3-0.6b-4bit") None None None None None
                  Scenarios.w_empty))
  = ["mlx-community/Qwen3-Embedding-0.6B-4bit-DWQ"].
Proof.
  apply (init_downloads_a_missing_model_once Scenarios.failing_fetch
           (fun _ => default_config) (fun _ _ => Ok Scenarios.toy_model)
           "qwen3-0.6b-4bit" None None None None None Scenarios.w_empty _ eq_refl).
  - vm_compute. reflexivity.
  - reflexivity.
Defined.

End ServiceSpec.

(* ===================================================================== *)
(** * Properties of the configuration loader *)
(* ===================================================================== *)

Module ConfigSpec.
Import Py Json Config.

Definition user_config_path (m : machine) : string :=
  ModelLoader.path_join
    (ModelLoader.path_join (ModelLoader.path_join (home m) ".config") "akidb")
    "embedding_config.yaml".

(** [_find_config_file] only ever returns a file that exists, and picks
    by priority: the file [AKIDB_CONFIG] names when the variable is set,
    not empty, and the file exists; else [embedding_config.yaml] in the
    current directory; else the file of the user's configuration
    directory; and nothing when none of them exists. *)
Theorem find_config_file_picks_the_first_existing (m : machine) :
  (forall p, _find_config_file m = Some p -> file_exists m p = true) /\
  (forall p,
     env_config m = Some p -> p <> "" -> file_exists m p = true ->
     _find_config_file m = Some p) /\
  ((env_config m = None \/ env_config m = Some "" \/
    exists p, env_config m = Some p /\ file_exists m p = false) ->
   (file_exists m "embedding_config.yaml" = true ->
    _find_config_file m = Some "embedding_config.yaml") /\
   (file_exists m "embedding_config.yaml" = false ->
    file_exists m (user_config_path m) = true ->
    _find_config_file m = Some (user_config_path m)) /\
   (file_exists m "embedding_config.yaml" = false ->
    file_exists m (user_config_path m) = false ->
    _find_config_file m = None)).
Proof.
  unfold _find_config_file, user_config_path.
  set (u := ModelLoader.path_join _ "embedding_config.yaml").
  split; [|split].
  - intros p. cbv zeta.
    destruct (env_config m) as [e|] eqn:Eenv;
      [destruct (truthy e);
         [destruct (file_exists m e) eqn:Ee; [intros [= <-]; exact Ee|]|]|];
      (destruct (file_exists m "embedding_config.yaml") eqn:Ec;
         [intros [= <-]; exact Ec|];
       destruct (file_exists m u) eqn:Eu;
         [intros [= <-]; exact Eu|discriminate]).
  - intros p Henv Hne Hex. rewrite Henv. unfold truthy.
    apply String.eqb_neq in Hne. now rewrite Hne, Hex.
  - intros Henv.
    assert (Hnone :
      match env_config m with
      | Some env_path =>
          if truthy env_path then
            if file_exists m env_path then Some env_path else None
          else None
      | None => None
      end = None).
    { destruct Henv as [-> | [-> | (p & -> & Hp)]]; [reflexivity|reflexivity|].
      rewrite Hp. now destruct (truthy p). }
    cbv zeta. rewrite Hnone. repeat split.
    + intros ->. reflexivity.
    + intros -> ->. reflexivity.
    + intros -> ->. reflexivity.
Qed.

(** [from_yaml] answers with the defaults whenever there is nothing
    usable to read: no file found, a file that cannot be opened or
    parsed, an empty (falsy) document, a document that is no mapping, or
    an [embedding] entry that is no mapping.  With a path given, the
    search for a file is skipped.  When the [embedding] entry is a
    mapping, each setting is the value under its key, of whatever type,
    and the default when the key is missing. *)
Theorem from_yaml_falls_back_to_the_defaults (m : machine) :
  (_find_config_file m = None -> from_yaml m None = defaults) /\
  (forall p, _find_config_file m = Some p -> from_yaml m None = from_yaml m (Some p)) /\
  (forall p e, load_yaml m p = Raise e -> from_yaml m (Some p) = defaults) /\
  (forall p doc,
     load_yaml m p = Ok doc -> truthy_value doc = false ->
     from_yaml m (Some p) = defaults) /\
  (forall p doc,
     load_yaml m p = Ok doc -> truthy_value doc = true ->
     (forall top, doc <> JDict top) ->
     from_yaml m (Some p) = defaults) /\
  (forall p top,
     load_yaml m p = Ok (JDict top) -> lookup_item top "embedding" = None ->
     from_yaml m (Some p) = defaults) /\
  (forall p top other,
     load_yaml m p = Ok (JDict top) -> top <> [] ->
     lookup_item top "embedding" = Some other ->
     (forall settings, other <> JDict settings) ->
     from_yaml m (Some p) = defaults) /\
  (forall p top settings,
     load_yaml m p = Ok (JDict top) -> top <> [] ->
     lookup_item top "embedding" = Some (JDict settings) ->
     from_yaml m (Some p)
     = {| model_name := dict_get_default settings "model_name" (model_name defaults);
          pooling := dict_get_default settings "pooling" (pooling defaults);
          normalize := dict_get_default settings "normalize" (normalize defaults);
          max_tokens := dict_get_default settings "max_tokens" (max_tokens defaults);
          auto_download :=
            dict_get_default settings "auto_download" (auto_download defaults);
          batch_size := dict_get_default settings "batch_size" (batch_size defaults) |}).
Proof.
  unfold from_yaml, read_config.
  split. { intros ->. reflexivity. }
  split. { intros p ->. reflexivity. }
  split. { intros p e ->. reflexivity. }
  split. { intros p doc -> Hf. cbn [and_then]. rewrite Hf. reflexivity. }
  split.
  { intros p doc -> Ht Hnd. cbn [and_then]. rewrite Ht.
    destruct doc; try reflexivity. exfalso. now apply (Hnd items). }
  split.
  { intros p top -> Hnone. cbn [and_then].
    destruct (truthy_value (JDict top)); [|reflexivity].
    unfold dict_get_default. rewrite Hnone. reflexivity. }
  split.
  { intros p top other -> Hne Hsome Hnd. cbn [and_then].
    destruct top as [|item top']; [congruence|]. cbn [truthy_value].
    unfold dict_get_default. rewrite Hsome.
    destruct other; try reflexivity. exfalso. now apply (Hnd items). }
  intros p top settings -> Hne Hsome. cbn [and_then].
  destruct top as [|item top']; [congruence|]. cbn [truthy_value].
  unfold dict_get_default at 1. rewrite Hsome. reflexivity.
Qed.

(** A machine with only the user's configuration file, which sets the
    pooling and nothing else. *)
Definition user_machine : machine :=
  {| env_config := Some "/etc/akidb.yaml";
     home := "/home/aki";
     file_exists := fun p => String.eqb p "/home/aki/.config/akidb/embedding_config.yaml";
     load_yaml := fun p =>
       if String.eqb p "/home/aki/.config/akidb/embedding_config.yaml"
       then Ok (JDict [("embedding", JDict [("pooling", JStr "cls")])])
       else Raise (Exn FileNotFoundError "No such file or directory") |}.

Example from_yaml_on_the_user_machine :
  _find_config_file user_machine
  = Some "/home/aki/.config/akidb/embedding_config.yaml" /\
  pooling (from_yaml user_machine None) = JStr "cls" /\
  model_name (from_yaml user_machine None) = JStr "qwen3-0.6b-4bit" /\
  from_yaml user_machine (Some "/etc/akidb.yaml") = defaults.
Proof. repeat split; reflexivity. Qed.

End ConfigSpec.

(* ===================================================================== *)
(** * Properties of the ONNX server *)
(* ===================================================================== *)

Module OnnxServerSpec.
Import Py Arrays OnnxServer.
Local Open Scope py_scope.

Section LoadFacts.

Context {Session Tokenizer STModel : Type}.
Variable lib : runtime Session Tokenizer STModel.

Abbreviation server := (OnnxServer.server Session Tokenizer STModel).

(** The response of a load through the PyTorch fallback. *)
Definition fallback_response (d : Z) : response :=
  Response "ok" (Some "Model loaded with PyTorch fallback (CPU/MPS)")
           (Some d) (Some ["PyTorchExecutionProvider"]) None None.

Definition already_loaded_response (d : Z) : response :=
  Response "ok" (Some "Model already loaded") (Some d) None None None.

(** A model with a session is answered from the dicts. *)
Lemma load_model_already_loaded (s : server) (name cache_dir : string)
  (session : Session) (d : Z) :
  sessions _ _ _ s !! name = Some session ->
  dimensions _ _ _ s !! name = Some d ->
  load_model _ _ _ lib name cache_dir s = (s, Ok (already_loaded_response d)).
Proof.
  intros Hs Hd. unfold load_model, bind, get. cbv beta iota.
  rewrite bool_decide_true by (rewrite Hs; eauto).
  unfold subscript. rewrite Hd. reflexivity.
Qed.

(** The load of a model without a session when no ONNX file is found:
    tokenizer and [SentenceTransformer] are built and stored, and
    [self.sessions] stays as it was. *)
Lemma load_model_fallback (s : server) (name cache_dir : string)
  (tokenizer : Tokenizer) (model : STModel) :
  sessions _ _ _ s !! name = None ->
  mkdir _ _ _ lib (expanduser _ _ _ lib cache_dir) = Ok tt ->
  from_pretrained _ _ _ lib name (expanduser _ _ _ lib cache_dir) = Ok tokenizer ->
  onnx_exists _ _ _ lib
    (ModelLoader.path_join (expanduser _ _ _ lib cache_dir)
       (replace_char "/" "_" name +:+ ".onnx")) = false ->
  new_sentence_transformer _ _ _ lib name (expanduser _ _ _ lib cache_dir) = Ok model ->
  load_model _ _ _ lib name cache_dir s
  = (Server _ _ _
       (sessions _ _ _ s)
       (<[name := tokenizer]> (tokenizers _ _ _ s))
       (<[name := get_sentence_embedding_dimension _ _ _ lib model]> (dimensions _ _ _ s))
       (<[name := model]> (pytorch_models _ _ _ s))
       (SentenceTransformer_new name :: AutoTokenizer_from_pretrained name
          :: calls _ _ _ s),
     Ok (fallback_response (get_sentence_embedding_dimension _ _ _ lib model))).
Proof.
  intros Hs Hmk Htok Honnx Hst.
  unfold load_model, bind, get. cbv beta iota.
  rewrite bool_decide_false by (rewrite Hs; intros [? ?]; discriminate).
  unfold try_except, bind, lift, record, set_tokenizer, set_pytorch_model,
    set_dimension, modify, ret.
  rewrite Hmk, Htok, Honnx. cbn [negb]. rewrite Hst. reflexivity.
Qed.

(** The load of a model without a session when the ONNX file is there. *)
Lemma load_model_onnx (s : server) (name cache_dir : string)
  (tokenizer : Tokenizer) (session : Session) :
  sessions _ _ _ s !! name = None ->
  mkdir _ _ _ lib (expanduser _ _ _ lib cache_dir) = Ok tt ->
  from_pretrained _ _ _ lib name (expanduser _ _ _ lib cache_dir) = Ok tokenizer ->
  onnx_exists _ _ _ lib
    (ModelLoader.path_join (expanduser _ _ _ lib cache_dir)
       (replace_char "/" "_" name +:+ ".onnx")) = true ->
  new_inference_session _ _ _ lib
    (ModelLoader.path_join (expanduser _ _ _ lib cache_dir)
       (replace_char "/" "_" name +:+ ".onnx")) = Ok session ->
  load_model _ _ _ lib name cache_dir s
  = (Server _ _ _
       (<[name := session]> (sessions _ _ _ s))
       (<[name := tokenizer]> (tokenizers _ _ _ s))
       (<[name := output_dimension _ _ _ lib session]> (dimensions _ _ _ s))
       (pytorch_models _ _ _ s)
       (InferenceSession_new
          (ModelLoader.path_join (expanduser _ _ _ lib cache_dir)
             (replace_char "/" "_" name +:+ ".onnx"))
          :: AutoTokenizer_from_pretrained name :: calls _ _ _ s),
     Ok (Response "ok" (Some "Model loaded successfully")
           (Some (output_dimension _ _ _ lib session))
           (Some (get_providers _ _ _ lib session)) None None)).
Proof.
  intros Hs Hmk Htok Honnx Hsess.
  unfold load_model, bind, get. cbv beta iota.
  rewrite bool_decide_false by (rewrite Hs; intros [? ?]; discriminate).
  unfold try_except, bind, lift, record, set_tokenizer, set_session,
    set_dimension, modify, ret.
  rewrite Hmk, Htok, Honnx. cbn [negb]. rewrite Hsess. reflexivity.
Qed.

(** On the ONNX path a second load returns the stored dimension and calls
    no loader. *)
Lemma load_model_twice_onnx (s : server) (name cache_dir : string)
  (tokenizer : Tokenizer) (session : Session) :
  sessions _ _ _ s !! name = None ->
  mkdir _ _ _ lib (expanduser _ _ _ lib cache_dir) = Ok tt ->
  from_pretrained _ _ _ lib name (expanduser _ _ _ lib cache_dir) = Ok tokenizer ->
  onnx_exists _ _ _ lib
    (ModelLoader.path_join (expanduser _ _ _ lib cache_dir)
       (replace_char "/" "_" name +:+ ".onnx")) = true ->
  new_inference_session _ _ _ lib
    (ModelLoader.path_join (expanduser _ _ _ lib cache_dir)
       (replace_char "/" "_" name +:+ ".onnx")) = Ok session ->
  let s1 := fst (load_model _ _ _ lib name cache_dir s) in
  load_model _ _ _ lib name cache_dir s1
  = (s1, Ok (already_loaded_response (output_dimension _ _ _ lib session))).
Proof.
  intros Hs Hmk Htok Honnx Hsess. cbv zeta.
  rewrite (load_model_onnx s name cache_dir tokenizer session Hs Hmk Htok Honnx Hsess).
  cbn [fst]. apply (load_model_already_loaded _ _ _ session); cbn;
    apply lookup_insert_eq.
Qed.

(** On the fallback path a second load finds no session and builds the
    tokenizer and the model once more. *)
Lemma load_model_twice_fallback (s : server) (name cache_dir : string)
  (tokenizer : Tokenizer) (model : STModel) :
  sessions _ _ _ s !! name = None ->
  mkdir _ _ _ lib (expanduser _ _ _ lib cache_dir) = Ok tt ->
  from_pretrained _ _ _ lib name (expanduser _ _ _ lib cache_dir) = Ok tokenizer ->
  onnx_exists _ _ _ lib
    (ModelLoader.path_join (expanduser _ _ _ lib cache_dir)
       (replace_char "/" "_" name +:+ ".onnx")) = false ->
  new_sentence_transformer _ _ _ lib name (expanduser _ _ _ lib cache_dir) = Ok model ->
  let s1 := fst (load_model _ _ _ lib name cache_dir s) in
  let s2 := fst (load_model _ _ _ lib name cache_dir s1) in
  snd (load_model _ _ _ lib name cache_dir s1)
  = Ok (fallback_response (get_sentence_embedding_dimension _ _ _ lib model)) /\
  calls _ _ _ s2
  = SentenceTransformer_new name :: AutoTokenizer_from_pretrained name
      :: calls _ _ _ s1.
Proof.
  intros Hs Hmk Htok Honnx Hst. cbv zeta.
  rewrite (load_model_fallback s name cache_dir tokenizer model Hs Hmk Htok Honnx Hst).
  cbn [fst].
  match goal with |- context [load_model _ _ _ lib name cache_dir ?s1] =>
    rewrite (load_model_fallback s1 name cache_dir tokenizer model Hs Hmk Htok Honnx Hst)
  end.
  cbn [fst snd calls]. split; reflexivity.
Qed.

End LoadFacts.

(** C4, on the path the claim fails on: with no ONNX file in the cache the
    first [load_model] succeeds through the PyTorch fallback, which stores
    the model in [self.pytorch_models] and not in [self.sessions]; the
    second call for the same name therefore does not answer "Model already
    loaded": it loads the tokenizer and builds the [SentenceTransformer]
    again.  The dimension returned is the same. *)
Theorem load_model_again_after_fallback_reloads :
  let first := load_model _ _ _ Scenarios.lib_fallback "all-MiniLM-L6-v2" "~/models"
                 (new_server _ _ _) in
  let second := load_model _ _ _ Scenarios.lib_fallback "all-MiniLM-L6-v2" "~/models"
                  (fst first) in
  snd first = Ok (fallback_response 384) /\
  snd second = Ok (fallback_response 384) /\
  calls _ _ _ (fst first)
  = [ SentenceTransformer_new "all-MiniLM-L6-v2";
      AutoTokenizer_from_pretrained "all-MiniLM-L6-v2" ] /\
  calls _ _ _ (fst second)
  = [ SentenceTransformer_new "all-MiniLM-L6-v2";
      AutoTokenizer_from_pretrained "all-MiniLM-L6-v2";
      SentenceTransformer_new "all-MiniLM-L6-v2";
      AutoTokenizer_from_pretrained "all-MiniLM-L6-v2" ].
Proof. cbv zeta. repeat split; vm_compute; reflexivity. Qed.

(** The same two calls when the ONNX file is there: the second one is
    answered from the dicts and calls no loader. *)
Example load_model_again_on_the_onnx_path :
  let first := load_model _ _ _ Scenarios.lib_onnx "all-MiniLM-L6-v2" "~/models"
                 (new_server _ _ _) in
  let second := load_model _ _ _ Scenarios.lib_onnx "all-MiniLM-L6-v2" "~/models"
                  (fst first) in
  snd second = Ok (already_loaded_response 384) /\
  calls _ _ _ (fst second) = calls _ _ _ (fst first).
Proof. cbv zeta. split; vm_compute; reflexivity. Qed.

(** ** Empty batches *)

Section EmbedFacts.

Context {Session Tokenizer STModel : Type}.
Variable lib : runtime Session Tokenizer STModel.

Abbreviation server := (OnnxServer.server Session Tokenizer STModel).

Definition with_call (c : call) (s : server) : server :=
  Server _ _ _ (sessions _ _ _ s) (tokenizers _ _ _ s) (dimensions _ _ _ s)
         (pytorch_models _ _ _ s) (c :: calls _ _ _ s).

Definition not_loaded_response (name : string) : response :=
  error_response ("Model not loaded: " +:+ name +:+ ". Call load_model first.").

Lemma embed_batch_not_loaded (s : server) (name : string) (inputs : list string)
  (normalize : bool) :
  sessions _ _ _ s !! name = None ->
  pytorch_models _ _ _ s !! name = None ->
  embed_batch _ _ _ lib name inputs normalize s = (s, Ok (not_loaded_response name)).
Proof.
  intros Hs Hp. unfold embed_batch, bind, get. cbv beta iota.
  rewrite !bool_decide_false by
    (first [rewrite Hs | rewrite Hp]; intros [? ?]; discriminate).
  reflexivity.
Qed.

(** With a fallback model the inputs go to [model.encode] as they are. *)
Lemma embed_batch_fallback (s : server) (name : string) (inputs : list string)
  (normalize : bool) (model : STModel) :
  pytorch_models _ _ _ s !! name = Some model ->
  embed_batch _ _ _ lib name inputs normalize s
  = (with_call (model_encode name inputs) s,
     Ok match encode _ _ _ lib model inputs normalize with
        | Ok embeddings =>
            Response "ok" None None None (Some embeddings)
                     (Some (Z.of_nat (length inputs)))
        | Raise e => error_response (msg e)
        end).
Proof.
  intros Hp. unfold embed_batch, bind, get. cbv beta iota.
  rewrite (bool_decide_true (is_Some (pytorch_models _ _ _ s !! name)))
    by (rewrite Hp; eauto).
  rewrite andb_false_r. rewrite Hp.
  unfold try_except, bind, record, modify, lift, ret.
  destruct (encode _ _ _ lib model inputs normalize); reflexivity.
Qed.

(** With a session the inputs go to the tokenizer as they are. *)
Lemma embed_batch_onnx_calls_tokenizer (s : server) (name : string)
  (inputs : list string) (normalize : bool)
  (session : Session) (tokenizer : Tokenizer) :
  pytorch_models _ _ _ s !! name = None ->
  sessions _ _ _ s !! name = Some session ->
  tokenizers _ _ _ s !! name = Some tokenizer ->
  exists s' r,
    embed_batch _ _ _ lib name inputs normalize s = (s', Ok r) /\
    In (tokenizer_call name inputs) (calls _ _ _ s').
Proof.
  intros Hp Hs Ht. unfold embed_batch, bind, get. cbv beta iota.
  rewrite (bool_decide_true (is_Some (sessions _ _ _ s !! name)))
    by (rewrite Hs; eauto).
  cbn [negb andb]. rewrite Hp.
  unfold try_except, bind, subscript, record, modify, lift, ret.
  rewrite Hs, Ht. cbv beta iota.
  destruct (run_tokenizer _ _ _ lib tokenizer inputs) as [enc|e].
  - cbv beta iota zeta.
    destruct (run_session _ _ _ lib session _) as [hidden|e].
    + destruct (mean_pooling hidden (enc_attention_mask enc)) as [pooled|e];
        eexists _, _; (split; [reflexivity|]); cbn; auto.
    + eexists _, _. split; [reflexivity|]. cbn. auto.
  - eexists _, _. split; [reflexivity|]. cbn. auto.
Qed.

(** C5 (as amended): an empty [inputs] list is treated like any other.
    [embed_batch] answers the not-loaded error for a model that is not
    loaded; for a loaded model it hands the empty list to the backend
    ([model.encode] on the fallback, the tokenizer with a session) and
    relays what comes back, with [count] 0 when the call returns.  In the
    MLX engine [tokenize] returns two empty arrays for it, and [embed]
    then raises the [ValueError] of the shape unpacking in [forward]. *)
Theorem empty_batch_is_passed_to_the_backend
  (s : server) (name : string) (normalize : bool) :
  (sessions _ _ _ s !! name = None ->
   pytorch_models _ _ _ s !! name = None ->
   embed_batch _ _ _ lib name [] normalize s = (s, Ok (not_loaded_response name))) /\
  (forall model,
     pytorch_models _ _ _ s !! name = Some model ->
     embed_batch _ _ _ lib name [] normalize s
     = (with_call (model_encode name []) s,
        Ok match encode _ _ _ lib model [] normalize with
           | Ok embeddings =>
               Response "ok" None None None (Some embeddings) (Some 0%Z)
           | Raise e => error_response (msg e)
           end)) /\
  (forall session tokenizer,
     pytorch_models _ _ _ s !! name = None ->
     sessions _ _ _ s !! name = Some session ->
     tokenizers _ _ _ s !! name = Some tokenizer ->
     exists s' r,
       embed_batch _ _ _ lib name [] normalize s = (s', Ok r) /\
       In (tokenizer_call name []) (calls _ _ _ s')) /\
  (forall self max_length,
     MlxInference.tokenize self [] max_length
     = Ok (MlxInference.TokenBatch [] [])) /\
  (forall self pooling flag,
     MlxInference.embed [] pooling flag self
     = (self,
        Raise (Exn ValueError "not enough values to unpack (expected 2, got 1)"))).
Proof.
  split; [apply embed_batch_not_loaded|].
  split; [intros model Hp; apply (embed_batch_fallback s name [] normalize model Hp)|].
  split; [intros session tokenizer; apply embed_batch_onnx_calls_tokenizer|].
  split; reflexivity.
Qed.

End EmbedFacts.

(** C5 (as stated): a model loaded through the fallback and an empty
    [inputs] list.  The request is not rejected: [model.encode] is called
    with the empty list and the response has status [ok] and [count] 0.
    The MLX tokenizer accepts the empty list as well. *)
Lemma empty_batch_is_answered_ok :
  let s := fst (load_model _ _ _ Scenarios.lib_fallback "all-MiniLM-L6-v2" "~/models"
                  (new_server _ _ _)) in
  let answer := embed_batch _ _ _ Scenarios.lib_fallback "all-MiniLM-L6-v2" [] true s in
  snd answer = Ok (Response "ok" None None None (Some []) (Some 0%Z)) /\
  calls _ _ _ (fst answer)
  = model_encode "all-MiniLM-L6-v2" [] :: calls _ _ _ s /\
  MlxInference.tokenize Scenarios.toy_model [] 512
  = Ok (MlxInference.TokenBatch [] []).
Proof. cbv zeta. repeat split; vm_compute; reflexivity. Qed.

(** ** The server loop *)

(** The message of the error response [run] prints for an exception. *)
Definition describe (e : exn) : string :=
  match cls e with
  | JSONDecodeError => "Invalid JSON: " +:+ msg e
  | _ => "Internal error: " +:+ msg e
  end.

(** A line that [run] answers: not empty once stripped. *)
Definition nonblank (line : string) : bool := truthy (strip line).

Section RunFacts.

Context {Session Tokenizer STModel JSON : Type}.
Variable json_loads : string -> result JSON.
Variable process_request : JSON -> M (OnnxServer.server Session Tokenizer STModel) response.

Abbreviation server := (OnnxServer.server Session Tokenizer STModel).
Abbreviation answer := (OnnxServer.answer Session Tokenizer STModel JSON json_loads process_request).
Abbreviation run_lines := (OnnxServer.run_lines Session Tokenizer STModel JSON json_loads process_request).
Abbreviation run := (OnnxServer.run Session Tokenizer STModel JSON json_loads process_request).

(** [answer] never raises: it returns the response of the request, or the
    error response for what [json.loads] or [process_request] raised. *)
Lemma answer_eq (line : string) (s : server) :
  answer line s
  = match json_loads line with
    | Raise e => (s, Ok (error_response (describe e)))
    | Ok request =>
        match process_request request s with
        | (s', Ok resp) => (s', Ok resp)
        | (s', Raise e) => (s', Ok (error_response (describe e)))
        end
    end.
Proof.
  unfold OnnxServer.answer, try_except, bind, lift, ret, describe.
  destruct (json_loads line) as [request|e].
  - destruct (process_request request s) as [s' [resp|e]]; [reflexivity|].
    destruct (cls e); reflexivity.
  - destruct (cls e); reflexivity.
Qed.

Lemma answer_total (line : string) (s : server) :
  exists s' r, answer line s = (s', Ok r).
Proof.
  rewrite answer_eq. destruct (json_loads line) as [request|e]; [|eauto].
  destruct (process_request request s) as [s' [resp|e]]; eauto.
Qed.

Abbreviation main := (OnnxServer.main Session Tokenizer STModel JSON json_loads process_request).

(** The loop over lines that are read, whatever comes after them. *)
Lemma run_lines_total (lines : list string) (ending : input) (s : server)
  (out : list response) :
  exists s' printed,
    run_lines (lines_then lines ending) s out
    = run_lines ending s' (out ++ printed) /\
    length printed = length (List.filter nonblank lines).
Proof.
  revert s out. induction lines as [|line rest IH]; intros s out.
  - exists s, []. split; [now rewrite app_nil_r|reflexivity].
  - cbn [lines_then fold_right OnnxServer.run_lines List.filter].
    fold (lines_then rest ending). unfold nonblank at 1.
    destruct (truthy (strip line)) eqn:Hblank; cbn [negb].
    + destruct (answer_total (strip line) s) as (s1 & r & Hr). rewrite Hr.
      destruct (IH s1 (out ++ [r])) as (s' & printed & Hrun & Hlen).
      exists s', (r :: printed). split.
      * rewrite Hrun. now rewrite <- app_assoc.
      * cbn [length]. now rewrite Hlen.
    + apply IH.
Qed.

(** Every input is a list of lines followed by the end of the input or
    by an exception of the iterator. *)
Lemma input_cases (stdin : input) :
  exists lines,
    stdin = lines_then lines Exhausted \/
    exists e, stdin = lines_then lines (Fails e).
Proof.
  induction stdin as [|line rest [lines IH]|e].
  - exists []. now left.
  - exists (line :: lines). destruct IH as [-> | [e ->]]; [now left|].
    right. now exists e.
  - exists []. right. now exists e.
Qed.

(** C8 (as amended): no request ends [run].  When the input yields its
    lines and is exhausted, [run] returns after printing one response for
    every line that is not empty once stripped, in order, and [main] ends
    with status 0.  For such a line the response is the one
    [process_request] returns, or an error response with a message naming
    the exception when [json.loads] or [process_request] raises, and the
    loop goes on with the next line.  A line that is empty once stripped
    is skipped without a response.  Only the reading of the input can end
    the loop early: when the iterator raises after some lines, the lines
    read before are answered in the same way, the exception leaves [run],
    the lines that follow are never read, and [main] exits with status
    1. *)
Theorem run_answers_every_nonblank_line (lines : list string) (self : server) :
  (exists self' stdout,
     run (lines_then lines Exhausted) self = (self', stdout, Ok tt) /\
     length stdout = length (List.filter nonblank lines) /\
     (forall e,
        run (lines_then lines (Fails e)) self = (self', stdout, Raise e))) /\
  (exists stdout,
     main (lines_then lines Exhausted) = (stdout, 0%Z) /\
     forall e, main (lines_then lines (Fails e)) = (stdout, 1%Z)) /\
  (forall stdin s,
     (exists read, stdin = lines_then read Exhausted /\
                   snd (run stdin s) = Ok tt) \/
     (exists read e, stdin = lines_then read (Fails e) /\
                     snd (run stdin s) = Raise e)) /\
  (forall line s,
     nonblank line = true ->
     exists s' r,
       answer (strip line) s = (s', Ok r) /\
       (forall rest out,
          run_lines (Yields line rest) s out = run_lines rest s' (out ++ [r])) /\
       (forall e,
          json_loads (strip line) = Raise e ->
          s' = s /\ r = error_response (describe e)) /\
       (forall request e,
          json_loads (strip line) = Ok request ->
          snd (process_request request s) = Raise e ->
          r = error_response (describe e) /\ status r = "error") /\
       (forall request resp,
          json_loads (strip line) = Ok request ->
          snd (process_request request s) = Ok resp ->
          r = resp)) /\
  (forall line s rest out,
     nonblank line = false ->
     run_lines (Yields line rest) s out = run_lines rest s out).
Proof.
  assert (Hrun : forall s ending,
            exists s' printed,
              run (lines_then lines ending) s = run_lines ending s' printed /\
              length printed = length (List.filter nonblank lines) /\
              forall other,
                run (lines_then lines other) s = run_lines other s' printed).
  { intros s ending. unfold OnnxServer.run.
    assert (H : forall out, exists s' printed,
              length printed = length (List.filter nonblank lines) /\
              forall other,
                run_lines (lines_then lines other) s out
                = run_lines other s' (out ++ printed)).
    { clear ending. revert s. induction lines as [|line rest IH]; intros s out.
      - exists s, []. split; [reflexivity|]. intros other. now rewrite app_nil_r.
      - destruct (truthy (strip line)) eqn:Hblank.
        + destruct (answer_total (strip line) s) as (s1 & r & Hr).
          destruct (IH s1 (out ++ [r])) as (s' & printed & Hlen & Hall).
          exists s', (r :: printed). split.
          * cbn [List.filter length]. unfold nonblank at 1. rewrite Hblank.
            cbn [length]. now rewrite Hlen.
          * intros other.
            cbn [lines_then fold_right OnnxServer.run_lines].
            fold (lines_then rest other). rewrite Hblank. cbn [negb].
            rewrite Hr, Hall. now rewrite <- app_assoc.
        + destruct (IH s out) as (s' & printed & Hlen & Hall).
          exists s', printed. split.
          * cbn [List.filter]. unfold nonblank at 1. now rewrite Hblank.
          * intros other.
            cbn [lines_then fold_right OnnxServer.run_lines].
            fold (lines_then rest other). rewrite Hblank. cbn [negb].
            apply Hall. }
    destruct (H []) as (s' & printed & Hlen & Hall).
    exists s', printed. split; [apply Hall|]. split; [exact Hlen|exact Hall]. }
  split.
  { destruct (Hrun self Exhausted) as (s' & printed & _ & Hlen & Hall).
    exists s', printed. split; [apply Hall|]. split; [exact Hlen|].
    intros e. apply Hall. }
  split.
  { destruct (Hrun (new_server _ _ _) Exhausted) as (s' & printed & _ & _ & Hall).
    exists printed. unfold OnnxServer.main. split.
    - now rewrite Hall.
    - intros e. now rewrite Hall. }
  split.
  { clear Hrun. intros stdin s.
    destruct (input_cases stdin) as [read [-> | [e ->]]].
    - left. exists read. split; [reflexivity|].
      unfold OnnxServer.run.
      destruct (run_lines_total read Exhausted s []) as (s' & printed & -> & _).
      reflexivity.
    - right. exists read, e. split; [reflexivity|].
      unfold OnnxServer.run.
      destruct (run_lines_total read (Fails e) s []) as (s' & printed & -> & _).
      reflexivity. }
  clear Hrun. split.
  - intros line s Hnb. unfold nonblank in Hnb.
    destruct (answer_total (strip line) s) as (s' & r & Hr).
    exists s', r. split; [exact Hr|]. split.
    { intros rest out. cbn [OnnxServer.run_lines]. rewrite Hnb. cbn [negb].
      now rewrite Hr. }
    rewrite answer_eq in Hr. split; [|split].
    + intros e He. rewrite He in Hr. injection Hr as <- <-. split; reflexivity.
    + intros request e Hreq Hraise. rewrite Hreq in Hr.
      destruct (process_request request s) as [s1 [resp|e1]];
        cbn [snd] in Hraise; [discriminate|].
      injection Hraise as ->. injection Hr as _ <-. split; reflexivity.
    + intros request resp Hreq Hok. rewrite Hreq in Hr.
      destruct (process_request request s) as [s1 [resp1|e1]];
        cbn [snd] in Hok; [|discriminate].
      injection Hok as ->. injection Hr as _ <-. reflexivity.
  - intros line s rest out Hnb. unfold nonblank in Hnb.
    cbn [OnnxServer.run_lines]. now rewrite Hnb.
Qed.

End RunFacts.

(** C8 (as stated): a line of spaces fails JSON parsing ([json.loads]
    raises on the empty string it strips to), yet [run] prints nothing for
    it, and no more for a line that holds a no-break space and a line
    separator only; the malformed line [oops] and the request [42], which
    makes [process_request] raise, get one error response each. *)
Lemma blank_line_gets_no_response :
  is_ok (Scenarios.loads_integer (strip "   ")) = false /\
  OnnxServer.run _ _ _ _ Scenarios.loads_integer Scenarios.process_integer
    (lines_then ["   "; Scenarios.unicode_blank] Exhausted) (new_server _ _ _)
  = (new_server _ _ _, [], Ok tt) /\
  OnnxServer.run _ _ _ _ Scenarios.loads_integer Scenarios.process_integer
    (lines_then ["oops"; "   "; "42"] Exhausted) (new_server _ _ _)
  = (new_server _ _ _,
     [ error_response "Invalid JSON: Expecting value: line 1 column 1 (char 0)";
       error_response "Internal error: 'int' object has no attribute 'get'" ],
     Ok tt).
Proof. repeat split; vm_compute; reflexivity. Qed.

(** An input that cannot be decoded after its first line: the first line
    is answered, the exception of the iterator leaves [run], and [main]
    exits with status 1 without a response for what follows. *)
Example undecodable_input_ends_the_server :
  OnnxServer.main _ _ _ _ Scenarios.loads_integer Scenarios.process_integer
    (Yields "42" (Fails Scenarios.bad_byte))
  = ([error_response "Internal error: 'int' object has no attribute 'get'"], 1%Z).
Proof. vm_compute. reflexivity. Qed.

End OnnxServerSpec.

(* ===================================================================== *)
(** * The session registry of the ONNX server *)
(* ===================================================================== *)

Module RegistrySpec.
Import Py Arrays OnnxServer OnnxServerSpec.
Local Open Scope py_scope.

Section Registry.

Context {Session Tokenizer STModel : Type}.
Variable lib : runtime Session Tokenizer STModel.

Abbreviation server := (OnnxServer.server Session Tokenizer STModel).

(** Every model with a session has a dimension and a tokenizer: what
    [load_model] and [embed_batch] read from [self.dimensions] and
    [self.tokenizers] for a model they find in [self.sessions]. *)
Definition consistent (s : server) : Prop :=
  forall name,
    is_Some (sessions _ _ _ s !! name) ->
    is_Some (dimensions _ _ _ s !! name) /\ is_Some (tokenizers _ _ _ s !! name).

(** The model counts as loaded for [embed_batch]. *)
Definition loaded (s : server) (name : string) : Prop :=
  is_Some (sessions _ _ _ s !! name) \/ is_Some (pytorch_models _ _ _ s !! name).

(** Splits [load_model] into the outcomes of the library calls it makes. *)
Ltac load_cases s name :=
  unfold load_model, bind, get; cbv beta iota;
  destruct (bool_decide (is_Some (sessions _ _ _ s !! name))) eqn:Hsess;
  [ unfold subscript; destruct (dimensions _ _ _ s !! name) eqn:Hdim
  | unfold try_except, bind, lift, record, set_tokenizer, set_pytorch_model,
      set_session, set_dimension, modify, ret;
    destruct (mkdir _ _ _ lib _) as [[]|?];
    [ destruct (from_pretrained _ _ _ lib name _) as [tokenizer|?];
      [ destruct (onnx_exists _ _ _ lib _); cbn [negb];
        [ destruct (new_inference_session _ _ _ lib _) as [session|?]
        | destruct (new_sentence_transformer _ _ _ lib name _) as [model|?] ]
      | ]
    | ] ].

Lemma is_Some_insert {V} (m : gmap string V) (k k' : string) (v : V) :
  is_Some (m !! k') -> is_Some (<[k := v]> m !! k').
Proof.
  intros H. destruct (decide (k = k')) as [->|Hne].
  - rewrite lookup_insert_eq. eauto.
  - now rewrite lookup_insert_ne.
Qed.

(** On a registry that is consistent, as the fresh one is, [load_model]
    never raises: it returns a response dict, and the registry it leaves
    is consistent again. *)
Theorem load_model_always_answers (s : server) (name cache_dir : string) :
  consistent s ->
  exists s' r,
    load_model _ _ _ lib name cache_dir s = (s', Ok r) /\
    consistent s' /\
    (status r = "ok" \/ status r = "error").
Proof.
  intros Hc. load_cases s name.
  - eexists _, _. split; [reflexivity|]. split; [exact Hc|now left].
  - exfalso. apply bool_decide_eq_true in Hsess.
    destruct (Hc name Hsess) as [[d Hd] _]. congruence.
  - eexists _, _. split; [reflexivity|]. split; [|now left].
    intros k Hk. cbn [sessions dimensions tokenizers] in *.
    destruct (decide (name = k)) as [<-|Hne].
    + rewrite !lookup_insert_eq. eauto.
    + rewrite lookup_insert_ne in Hk by exact Hne.
      rewrite !lookup_insert_ne by exact Hne. now apply Hc.
  - eexists _, _. split; [reflexivity|]. split; [|now right].
    intros k Hk. cbn [sessions dimensions tokenizers] in *.
    destruct (Hc k Hk) as [Hd Ht]. split; [exact Hd|now apply is_Some_insert].
  - eexists _, _. split; [reflexivity|]. split; [|now left].
    intros k Hk. cbn [sessions dimensions tokenizers] in *.
    destruct (Hc k Hk) as [Hd Ht]. split; now apply is_Some_insert.
  - eexists _, _. split; [reflexivity|]. split; [|now right].
    intros k Hk. cbn [sessions dimensions tokenizers] in *.
    destruct (Hc k Hk) as [Hd Ht]. split; [exact Hd|now apply is_Some_insert].
  - eexists _, _. split; [reflexivity|]. split; [|now right].
    intros k Hk. cbn [sessions dimensions tokenizers] in *. now apply Hc.
  - eexists _, _. split; [reflexivity|]. split; [|now right].
    intros k Hk. cbn [sessions dimensions tokenizers] in *. now apply Hc.
Qed.

(** A load that answers with an error has not loaded the model: if
    [embed_batch] would have refused the model before, it refuses it
    afterwards. *)
Theorem failed_load_leaves_the_model_unloaded
  (s s' : server) (name cache_dir : string) (r : response) :
  ~ loaded s name ->
  load_model _ _ _ lib name cache_dir s = (s', Ok r) ->
  status r = "error" ->
  ~ loaded s' name /\
  forall inputs normalize,
    embed_batch _ _ _ lib name inputs normalize s'
    = (s', Ok (not_loaded_response name)).
Proof.
  intros Hnot Hload Herr.
  assert (Hs : sessions _ _ _ s !! name = None).
  { destruct (sessions _ _ _ s !! name) eqn:E; [|reflexivity].
    exfalso. apply Hnot. left. eauto. }
  assert (Hp : pytorch_models _ _ _ s !! name = None).
  { destruct (pytorch_models _ _ _ s !! name) eqn:E; [|reflexivity].
    exfalso. apply Hnot. right. eauto. }
  assert (Hkeep : sessions _ _ _ s' !! name = None /\
                  pytorch_models _ _ _ s' !! name = None).
  { revert Hload. load_cases s name; intros Hload;
      try (apply bool_decide_eq_true in Hsess; rewrite Hs in Hsess;
           destruct Hsess; discriminate);
      injection Hload as <- <-; cbn [status] in Herr; try discriminate;
      cbn [sessions pytorch_models]; auto. }
  destruct Hkeep as [Hs' Hp']. split.
  - intros [[x Hx] | [x Hx]]; congruence.
  - intros inputs normalize. now apply embed_batch_not_loaded.
Qed.

(** Loading one model does not touch the entries of another. *)
Theorem load_model_keeps_the_other_models
  (s : server) (name cache_dir other : string) :
  other <> name ->
  let s' := fst (load_model _ _ _ lib name cache_dir s) in
  sessions _ _ _ s' !! other = sessions _ _ _ s !! other /\
  pytorch_models _ _ _ s' !! other = pytorch_models _ _ _ s !! other /\
  dimensions _ _ _ s' !! other = dimensions _ _ _ s !! other /\
  tokenizers _ _ _ s' !! other = tokenizers _ _ _ s !! other.
Proof.
  intros Hne. cbv zeta. load_cases s name;
    cbn [fst sessions pytorch_models dimensions tokenizers];
    rewrite ?lookup_insert_ne by congruence; auto.
Qed.

(** [embed_batch] never raises and never loads anything: it returns a
    response dict and leaves the four dicts of the server as they were,
    whatever the backend does. *)
Theorem embed_batch_keeps_the_registry
  (s : server) (name : string) (inputs : list string) (normalize : bool) :
  exists s' r,
    embed_batch _ _ _ lib name inputs normalize s = (s', Ok r) /\
    sessions _ _ _ s' = sessions _ _ _ s /\
    tokenizers _ _ _ s' = tokenizers _ _ _ s /\
    dimensions _ _ _ s' = dimensions _ _ _ s /\
    pytorch_models _ _ _ s' = pytorch_models _ _ _ s /\
    (forall c, In c (calls _ _ _ s') ->
               In c (calls _ _ _ s) \/ is_inference_call c = true) /\
    (status r = "ok" -> count r = Some (Z.of_nat (length inputs))).
Proof.
  unfold embed_batch, bind, get. cbv beta iota.
  destruct (negb (bool_decide (is_Some (sessions _ _ _ s !! name)))
            && negb (bool_decide (is_Some (pytorch_models _ _ _ s !! name)))).
  { eexists _, _. split; [reflexivity|]. repeat split; auto. discriminate. }
  unfold try_except, bind, subscript, record, modify, lift, ret.
  destruct (pytorch_models _ _ _ s !! name) as [model|].
  { destruct (encode _ _ _ lib model inputs normalize) as [e|e];
      eexists _, _; (split; [reflexivity|]);
      cbn [sessions tokenizers dimensions pytorch_models calls status count];
      repeat split; auto; try discriminate;
      intros c [<- | Hc]; auto. }
  destruct (sessions _ _ _ s !! name) as [session|].
  2:{ eexists _, _. split; [reflexivity|]. repeat split; auto. discriminate. }
  destruct (tokenizers _ _ _ s !! name) as [tokenizer|].
  2:{ eexists _, _. split; [reflexivity|]. repeat split; auto. discriminate. }
  destruct (run_tokenizer _ _ _ lib tokenizer inputs) as [enc|e].
  2:{ eexists _, _. split; [reflexivity|].
      cbn [sessions tokenizers dimensions pytorch_models calls status count].
      repeat split; auto; try discriminate. intros c [<- | Hc]; auto. }
  cbv beta iota zeta.
  destruct (run_session _ _ _ lib session _) as [hidden|e];
    [destruct (mean_pooling hidden (enc_attention_mask enc)) as [pooled|e]|];
    eexists _, _; (split; [reflexivity|]);
    cbn [sessions tokenizers dimensions pytorch_models calls status count];
    repeat split; auto; try discriminate;
    intros c [<- | [<- | Hc]]; auto.
Qed.

(** With an ONNX file in the cache [load_model] is idempotent: after a
    load that created the session, a second call answers "Model already
    loaded" with the dimension of the first, calls no library and leaves
    the server as it is. *)
Theorem load_model_is_idempotent_with_a_session
  (s s1 : server) (name cache_dir : string) (r1 : response) :
  ~ loaded s name ->
  load_model _ _ _ lib name cache_dir s = (s1, Ok r1) ->
  is_Some (sessions _ _ _ s1 !! name) ->
  exists d,
    dimension r1 = Some d /\
    load_model _ _ _ lib name cache_dir s1
    = (s1, Ok (already_loaded_response d)).
Proof.
  intros Hnot Hload Hsession.
  assert (Hs : sessions _ _ _ s !! name = None).
  { destruct (sessions _ _ _ s !! name) eqn:E; [|reflexivity].
    exfalso. apply Hnot. left. eauto. }
  assert (Hshape : exists session d,
            sessions _ _ _ s1 !! name = Some session /\
            dimensions _ _ _ s1 !! name = Some d /\
            dimension r1 = Some d).
  { revert Hload. load_cases s name; intros Hload;
      try (apply bool_decide_eq_true in Hsess; rewrite Hs in Hsess;
           destruct Hsess; discriminate);
      injection Hload as <- <-; cbn [sessions] in Hsession;
      try (rewrite Hs in Hsession; destruct Hsession; discriminate).
    eexists _, _. cbn [sessions dimensions dimension].
    rewrite !lookup_insert_eq. repeat split. }
  destruct Hshape as (session & d & Hs1 & Hd1 & Hr1).
  exists d. split; [exact Hr1|].
  now apply (load_model_already_loaded lib s1 name cache_dir session).
Qed.

(** A load that answers [ok] on a consistent registry has loaded the
    model: [embed_batch] will find it, its tokenizer is stored, and the
    dimension in the response is the one stored for it. *)
Theorem successful_load_makes_the_model_loaded
  (s s' : server) (name cache_dir : string) (r : response) :
  consistent s ->
  load_model _ _ _ lib name cache_dir s = (s', Ok r) ->
  status r = "ok" ->
  loaded s' name /\
  is_Some (tokenizers _ _ _ s' !! name) /\
  is_Some (dimension r) /\
  dimension r = dimensions _ _ _ s' !! name.
Proof.
  intros Hc. load_cases s name; intros Hload Hok;
    try discriminate Hload;
    injection Hload as <- <-; cbn [status] in Hok; try discriminate Hok;
    unfold loaded;
    cbn [sessions pytorch_models tokenizers dimensions dimension];
    rewrite ?lookup_insert_eq.
  - apply bool_decide_eq_true in Hsess.
    destruct (Hc name Hsess) as [_ Ht].
    split; [left; exact Hsess|]. split; [exact Ht|].
    split; [eauto|now rewrite Hdim].
  - split; [left; eexists; reflexivity|].
    split; [eexists; reflexivity|]. split; [eexists; reflexivity|reflexivity].
  - split; [right; eexists; reflexivity|].
    split; [eexists; reflexivity|]. split; [eexists; reflexivity|reflexivity].
Qed.

End Registry.

(** The fresh server is consistent and a load on it answers. *)
Lemma load_model_always_answers_witness :
  consistent (new_server unit unit unit) /\
  exists s' r,
    load_model _ _ _ Scenarios.lib_onnx "all-MiniLM-L6-v2" "~/models"
      (new_server _ _ _) = (s', Ok r) /\
    consistent s'.
Proof.
  assert (H : consistent (new_server unit unit unit)).
  { intros name [x Hx]. cbn in Hx. rewrite lookup_empty in Hx. discriminate. }
  split; [exact H|].
  destruct (load_model_always_answers Scenarios.lib_onnx (new_server _ _ _)
              "all-MiniLM-L6-v2" "~/models" H) as (s' & r & Hl & Hc & _).
  exists s', r. split; [exact Hl|exact Hc].
Defined.

Lemma new_server_is_not_loaded (name : string) :
  ~ loaded (new_server unit unit unit) name.
Proof.
  intros [[x Hx] | [x Hx]]; cbn in Hx; rewrite lookup_empty in Hx; discriminate.
Qed.

Lemma failed_load_leaves_the_model_unloaded_witness :
  exists s',
    load_model _ _ _ Scenarios.lib_offline "all-MiniLM-L6-v2" "~/models"
      (new_server _ _ _)
    = (s', Ok (error_response "We couldn't connect to the hub")) /\
    embed_batch _ _ _ Scenarios.lib_offline "all-MiniLM-L6-v2" ["hi"] true s'
    = (s', Ok (not_loaded_response "all-MiniLM-L6-v2")).
Proof.
  eexists. split; [vm_compute; reflexivity|].
  refine (proj2 (failed_load_leaves_the_model_unloaded Scenarios.lib_offline
                   (new_server _ _ _) _ "all-MiniLM-L6-v2" "~/models" _
                   (new_server_is_not_loaded _) _ _) ["hi"] true).
  - vm_compute. reflexivity.
  - reflexivity.
Defined.

Lemma load_model_keeps_the_other_models_witness :
  "bge-small" <> "all-MiniLM-L6-v2" /\
  sessions _ _ _
    (fst (load_model _ _ _ Scenarios.lib_onnx "all-MiniLM-L6-v2" "~/models"
            (fst (load_model _ _ _ Scenarios.lib_onnx "bge-small" "~/models"
                    (new_server _ _ _))))) !! "bge-small"
  = sessions _ _ _
      (fst (load_model _ _ _ Scenarios.lib_onnx "bge-small" "~/models"
              (new_server _ _ _))) !! "bge-small".
Proof.
  split; [discriminate|].
  exact (proj1 (load_model_keeps_the_other_models Scenarios.lib_onnx
                  (fst (load_model _ _ _ Scenarios.lib_onnx "bge-small" "~/models"
                          (new_server _ _ _)))
                  "all-MiniLM-L6-v2" "~/models" "bge-small" ltac:(discriminate))).
Defined.

Lemma load_model_is_idempotent_with_a_session_witness :
  exists s1 r1 d,
    load_model _ _ _ Scenarios.lib_onnx "all-MiniLM-L6-v2" "~/models"
      (new_server _ _ _) = (s1, Ok r1) /\
    dimension r1 = Some d /\
    load_model _ _ _ Scenarios.lib_onnx "all-MiniLM-L6-v2" "~/models" s1
    = (s1, Ok (already_loaded_response d)).
Proof.
  eexists _, _.
  assert (H : load_model _ _ _ Scenarios.lib_onnx "all-MiniLM-L6-v2" "~/models"
                (new_server _ _ _)
              = (fst (load_model _ _ _ Scenarios.lib_onnx "all-MiniLM-L6-v2"
                        "~/models" (new_server _ _ _)),
                 Ok (Response "ok" (Some "Model loaded successfully") (Some 384%Z)
                       (Some ["CoreMLExecutionProvider"; "CPUExecutionProvider"])
                       None None))) by (vm_compute; reflexivity).
  destruct (load_model_is_idempotent_with_a_session Scenarios.lib_onnx
              (new_server _ _ _) _ "all-MiniLM-L6-v2" "~/models" _
              (new_server_is_not_loaded _) H
              ltac:(vm_compute; eauto)) as (d & Hd & Hagain).
  exists d. split; [exact H|]. split; [exact Hd|exact Hagain].
Defined.

Lemma successful_load_makes_the_model_loaded_witness :
  exists s' r,
    load_model _ _ _ Scenarios.lib_fallback "all-MiniLM-L6-v2" "~/models"
      (new_server _ _ _) = (s', Ok r) /\
    loaded s' "all-MiniLM-L6-v2" /\
    dimension r = dimensions _ _ _ s' !! "all-MiniLM-L6-v2".
Proof.
  assert (Hc : consistent (new_server unit unit unit)).
  { intros name [x Hx]. cbn in Hx. rewrite lookup_empty in Hx. discriminate. }
  eexists _, _. split; [vm_compute; reflexivity|].
  destruct (successful_load_makes_the_model_loaded Scenarios.lib_fallback
              (new_server _ _ _) _ "all-MiniLM-L6-v2" "~/models" _ Hc
              ltac:(vm_compute; reflexivity) eq_refl) as (Hl & _ & _ & Hd).
  split; [exact Hl|exact Hd].
Defined.

End RegistrySpec.

(* ===================================================================== *)
(** * The dispatcher *)
(* ===================================================================== *)

Module DispatchSpec.
Import Py Json OnnxServer OnnxServerSpec RegistrySpec.
Local Open Scope py_scope.

Section DispatchFacts.

Context {Session Tokenizer STModel : Type}.
Variable lib : runtime Session Tokenizer STModel.
Variable str_of : json -> string.
Variable load_model_untyped :
  json -> json -> M (OnnxServer.server Session Tokenizer STModel) response.
Variable embed_batch_untyped :
  json -> json -> json -> M (OnnxServer.server Session Tokenizer STModel) response.
Variable json_loads : string -> result json.

Abbreviation server := (OnnxServer.server Session Tokenizer STModel).
Abbreviation dispatch :=
  (process_request Session Tokenizer STModel lib str_of
     load_model_untyped embed_batch_untyped).
Abbreviation loop :=
  (run_lines Session Tokenizer STModel json json_loads dispatch).

(** The request names one of the three methods. *)
Definition known_method (method : json) : bool :=
  is_str method "ping" || is_str method "load_model" || is_str method "embed_batch".

Definition is_dict (v : json) : bool :=
  match v with JDict _ => true | _ => false end.

Lemma loop_step (line : string) (rest : input) (s s' : server)
  (out : list response) (request : json) (r : response) :
  nonblank line = true ->
  json_loads (strip line) = Ok request ->
  dispatch request s = (s', Ok r) ->
  loop (Yields line rest) s out = loop rest s' (out ++ [r]).
Proof.
  intros Hnb Hparse Hr. unfold nonblank in Hnb.
  cbn [run_lines]. rewrite Hnb. cbn [negb].
  rewrite answer_eq, Hparse, Hr. reflexivity.
Qed.

Lemma loop_step_raise (line : string) (rest : input) (s s' : server)
  (out : list response) (request : json) (e : exn) :
  nonblank line = true ->
  json_loads (strip line) = Ok request ->
  dispatch request s = (s', Raise e) ->
  loop (Yields line rest) s out = loop rest s' (out ++ [error_response (describe e)]).
Proof.
  intros Hnb Hparse Hr. unfold nonblank in Hnb.
  cbn [run_lines]. rewrite Hnb. cbn [negb].
  rewrite answer_eq, Hparse, Hr. reflexivity.
Qed.

(** Three kinds of request lines are answered without touching the
    server or any library, whatever else they carry: a dict whose method
    is [ping] gets [pong]; a dict whose method is none of the three
    (missing included) gets the unknown-method error; a document that is
    no dict makes [process_request] raise the [AttributeError] of its
    [request.get], which [run] answers with an internal-error response.
    In each case the loop goes on with the server as it was. *)
Theorem requests_without_a_model_change_nothing
  (line : string) (rest : input) (s : server) (out : list response)
  (request : json) :
  nonblank line = true ->
  json_loads (strip line) = Ok request ->
  (forall fields,
     request = JDict fields ->
     is_str (dict_get_default fields "method" JNull) "ping" = true ->
     loop (Yields line rest) s out = loop rest s (out ++ [pong])) /\
  (forall fields,
     request = JDict fields ->
     known_method (dict_get_default fields "method" JNull) = false ->
     loop (Yields line rest) s out
     = loop rest s
         (out ++ [error_response
                    ("Unknown method: "
                     +:+ str_of (dict_get_default fields "method" JNull))])) /\
  (is_dict request = false ->
   dispatch request s = (s, Raise (no_get request)) /\
   loop (Yields line rest) s out
   = loop rest s
       (out ++ [error_response
                  ("Internal error: '" +:+ type_name request
                   +:+ "' object has no attribute 'get'")])).
Proof.
  intros Hnb Hparse. split; [|split].
  - intros fields -> Hping.
    apply (loop_step line rest s s out (JDict fields) pong Hnb Hparse).
    unfold process_request. now rewrite Hping.
  - intros fields -> Hunknown. unfold known_method in Hunknown.
    apply orb_false_elim in Hunknown as [Hunknown Hembed].
    apply orb_false_elim in Hunknown as [Hping Hload].
    apply (loop_step line rest s s out (JDict fields) _ Hnb Hparse).
    unfold process_request. now rewrite Hping, Hload, Hembed.
  - intros Hnd.
    assert (Hraise : dispatch request s = (s, Raise (no_get request))).
    { destruct request; try discriminate; reflexivity. }
    split; [exact Hraise|].
    now rewrite (loop_step_raise line rest s s out request _ Hnb Hparse Hraise).
Qed.

(** An [embed_batch] request for a model that is not loaded is answered
    with the not-loaded error, with or without [inputs] and [normalize]
    in its parameters; the server stays as it was and no library is
    called. *)
Theorem embed_request_before_load_is_refused
  (s : server) (fields params : list (string * json)) (name : string)
  (texts : list string) (flag : bool) :
  ~ loaded s name ->
  dict_get_default fields "method" JNull = JStr "embed_batch" ->
  dict_get_default fields "params" (JDict []) = JDict params ->
  dict_get_default params "model" JNull = JStr name ->
  (exists items,
     dict_get_default params "inputs" (JList []) = JList items /\
     as_strings items = Some texts) ->
  dict_get_default params "normalize" (JBool true) = JBool flag ->
  dispatch (JDict fields) s = (s, Ok (not_loaded_response name)).
Proof.
  intros Hnot Hmethod Hparams Hmodel (items & Hinputs & Htexts) Hflag.
  unfold process_request. rewrite Hmethod. cbn [is_str String.eqb Ascii.eqb Bool.eqb].
  rewrite Hparams, Hmodel, Hinputs, Hflag, Htexts.
  apply embed_batch_not_loaded.
  - destruct (sessions _ _ _ s !! name) eqn:E; [|reflexivity].
    exfalso. apply Hnot. left. eauto.
  - destruct (pytorch_models _ _ _ s !! name) eqn:E; [|reflexivity].
    exfalso. apply Hnot. right. eauto.
Qed.

End DispatchFacts.

Lemma requests_without_a_model_change_nothing_witness :
  serve unit unit unit Scenarios.lib_onnx Scenarios.str_small
    (fun _ _ => raise (Exn TypeError "untyped"))
    (fun _ _ _ => raise (Exn TypeError "untyped"))
    Scenarios.loads_small (Yields "null" Exhausted) (new_server _ _ _)
  = (new_server _ _ _,
     [error_response "Internal error: 'NoneType' object has no attribute 'get'"],
     Ok tt).
Proof.
  unfold serve, run.
  destruct (requests_without_a_model_change_nothing Scenarios.lib_onnx
              Scenarios.str_small
              (fun _ _ => raise (Exn TypeError "untyped"))
              (fun _ _ _ => raise (Exn TypeError "untyped"))
              Scenarios.loads_small "null" Exhausted (new_server _ _ _) [] JNull
              eq_refl eq_refl) as (_ & _ & Hnd).
  destruct (Hnd eq_refl) as [_ Hloop]. rewrite Hloop. reflexivity.
Defined.

Example serve_small_documents :
  serve unit unit unit Scenarios.lib_onnx Scenarios.str_small
    (fun _ _ => raise (Exn TypeError "untyped"))
    (fun _ _ _ => raise (Exn TypeError "untyped"))
    Scenarios.loads_small (lines_then ["{}"; ""; "[]"; "{"; "7"] Exhausted)
    (new_server _ _ _)
  = (new_server _ _ _,
     [ error_response "Unknown method: None";
       error_response "Internal error: 'list' object has no attribute 'get'";
       error_response "Invalid JSON: Expecting value: line 1 column 1 (char 0)";
       error_response "Internal error: 'int' object has no attribute 'get'" ],
     Ok tt).
Proof. vm_compute. reflexivity. Qed.

Lemma embed_request_before_load_is_refused_witness :
  process_request unit unit unit Scenarios.lib_onnx Scenarios.str_small
    (fun _ _ => raise (Exn TypeError "untyped"))
    (fun _ _ _ => raise (Exn TypeError "untyped"))
    (JDict [("method", JStr "embed_batch");
            ("params", JDict [("model", JStr "all-MiniLM-L6-v2")])])
    (new_server _ _ _)
  = (new_server _ _ _, Ok (not_loaded_response "all-MiniLM-L6-v2")).
Proof.
  apply (embed_request_before_load_is_refused Scenarios.lib_onnx Scenarios.str_small
           _ _ (new_server _ _ _) _ [("model", JStr "all-MiniLM-L6-v2")]
           "all-MiniLM-L6-v2" [] true).
  - apply new_server_is_not_loaded.
  - reflexivity.
  - reflexivity.
  - reflexivity.
  - exists []. split; reflexivity.
  - reflexivity.
Defined.

End DispatchSpec.
